(** * KEGG data-acquisition scripts: retry helpers, rate limiter,
      flat-file section extractors and persistence sinks.

    A shallow embedding of the three Python scripts
    [getDiseasePathways.py], [getDrugPathways.py] and
    [getSMILESforDrugsAndCompounds.py].

    Conventions of the embedding.
    - A Python [str] is a [string]; only ASCII text is modelled, so [\d] is
      one of the ten characters 0..9 and whitespace is the ASCII part of
      [str.isspace].
    - A Python [int] is a [Z]; [range(n)] is empty when [n <= 0].
    - A Python [float] holding a duration or a wall-clock reading is a
      rational [Q] with exact arithmetic.
    - A Python [set] is a [gset]; the order in which [list(s)] enumerates
      it is not specified by Python and is a parameter of the model.
    - Effects (HTTP requests, [print], [sleep], [random], the clock, the
      limiter's queue) are threaded through a state-and-exception monad. *)

From Stdlib Require Import ZArith QArith Lqa Lia Ascii String DecimalString List Permutation.
From Stdlib Require Import Sorted.
From stdpp Require Import gmap strings list.
Import ListNotations.

Local Open Scope Z_scope.
Local Open Scope list_scope.

(** ** Python string methods *)

Module Py.

(** ASCII part of [str.isspace]: TAB, LF, VT, FF, CR, FS, GS, RS, US, SPACE. *)
Definition isspace (c : ascii) : bool :=
  let n := nat_of_ascii c in
  ((9 <=? n)%nat && (n <=? 13)%nat) || ((28 <=? n)%nat && (n <=? 32)%nat).

Definition isdigit (c : ascii) : bool :=
  let n := nat_of_ascii c in (48 <=? n)%nat && (n <=? 57)%nat.

Fixpoint lstrip (s : string) : string :=
  match s with
  | String c s' => if isspace c then lstrip s' else s
  | EmptyString => EmptyString
  end.

Fixpoint rstrip (s : string) : string :=
  match s with
  | String c s' =>
      match rstrip s' with
      | EmptyString => if isspace c then EmptyString else String c EmptyString
      | r => String c r
      end
  | EmptyString => EmptyString
  end.

(** [s.strip()] *)
Definition strip (s : string) : string := rstrip (lstrip s).

(** [s.startswith(p)] *)
Definition startswith (s p : string) : bool := String.prefix p s.

(** [s.split(sep)] for a one-character separator: never the empty list. *)
Fixpoint split (sep : ascii) (s : string) : list string :=
  match s with
  | EmptyString => [EmptyString]
  | String c s' =>
      if Ascii.eqb c sep then EmptyString :: split sep s'
      else match split sep s' with
           | w :: ws => String c w :: ws
           | [] => [String c EmptyString]
           end
  end.

Fixpoint drop (n : nat) (s : string) : string :=
  match n, s with
  | S n', String _ s' => drop n' s'
  | _, _ => s
  end.

(** [s.replace(old, "")] for a non-empty [old]: the occurrences of [old]
    are deleted left to right, without overlap.  [skip] counts the
    characters of an occurrence still to be dropped. *)
Fixpoint delete_from (old : string) (skip : nat) (s : string) : string :=
  match s with
  | EmptyString => EmptyString
  | String c s' =>
      match skip with
      | S k => delete_from old k s'
      | O => if String.prefix old s
             then delete_from old (String.length old - 1) s'
             else String c (delete_from old 0 s')
      end
  end.

Definition delete (s old : string) : string := delete_from old 0 s.

(** Truth value of a [str]: non-empty. *)
Definition truthy (s : string) : bool :=
  match s with EmptyString => false | _ => true end.

(** [str(n)] for an integer. *)
Definition str_of_Z (n : Z) : string :=
  DecimalString.NilZero.string_of_int (Z.to_int n).

(** [range(a, b)] and [range(n)] *)
Definition range_from (a b : Z) : list Z :=
  map (fun i => a + Z.of_nat i) (seq 0 (Z.to_nat (b - a))).
Definition range (n : Z) : list Z := range_from 0 n.

(** The indices [range(0, n, step)] for [step > 0], and the slices
    [l[i:i + step]] taken at them. *)
Definition starts (n step : nat) : list nat :=
  map (fun j => (j * step)%nat) (seq 0 ((n + step - 1) / step)%nat).

Definition slices {A} (step : nat) (l : list A) : list (list A) :=
  map (fun i => firstn step (skipn i l)) (starts (length l) step).

End Py.

Definition LF : ascii := "010"%char.   (* '\n' *)
Definition TAB : ascii := "009"%char.  (* '\t' *)

(** ** The two regular-expression shapes the scripts use *)

Module re.

(** [Digits1 lit] is the pattern [lit\d+]; [DigitsN lit n] is [lit\d{n}]. *)
Inductive pattern : Type :=
| Digits1 (lit : string)
| DigitsN (lit : string) (n : nat).

Fixpoint take_digits (s : string) : string :=
  match s with
  | String c s' => if Py.isdigit c then String c (take_digits s') else EmptyString
  | EmptyString => EmptyString
  end.

Fixpoint take_n_digits (n : nat) (s : string) : option string :=
  match n with
  | O => Some EmptyString
  | S n' =>
      match s with
      | String c s' =>
          if Py.isdigit c
          then match take_n_digits n' s' with
               | Some ds => Some (String c ds)
               | None => None
               end
          else None
      | EmptyString => None
      end
  end.

(** The match of [p] anchored at the first character of [s], if any. *)
Definition match_here (p : pattern) (s : string) : option string :=
  match p with
  | Digits1 lit =>
      if String.prefix lit s
      then match take_digits (Py.drop (String.length lit) s) with
           | EmptyString => None
           | ds => Some (lit +:+ ds)
           end
      else None
  | DigitsN lit n =>
      if String.prefix lit s
      then match take_n_digits n (Py.drop (String.length lit) s) with
           | Some ds => Some (lit +:+ ds)
           | None => None
           end
      else None
  end.

(** [re.search(p, s)]: the leftmost match ([match.group(0)]). *)
Fixpoint search (p : pattern) (s : string) : option string :=
  match match_here p s with
  | Some m => Some m
  | None => match s with
            | String _ s' => search p s'
            | EmptyString => None
            end
  end.

(** [re.findall(p, s)]: all matches, left to right, without overlap. *)
Fixpoint findall_from (p : pattern) (skip : nat) (s : string) : list string :=
  match s with
  | EmptyString => []
  | String _ s' =>
      match skip with
      | S k => findall_from p k s'
      | O => match match_here p s with
             | Some m => m :: findall_from p (String.length m - 1) s'
             | None => findall_from p 0 s'
             end
      end
  end.

Definition findall (p : pattern) (s : string) : list string := findall_from p 0 s.

Definition hsa_digits : pattern := Digits1 "hsa".       (* r'hsa\d+' *)
Definition hsa_5digits : pattern := DigitsN "hsa" 5.    (* r'hsa\d{5}' *)
Definition hsa_colon_digits : pattern := Digits1 "hsa:". (* r'hsa:\d+' *)
Definition D_digits : pattern := Digits1 "D".           (* r'D\d+' *)

End re.

(** ** Rational comparisons as the code writes them *)

Definition Qltb (x y : Q) : bool := negb (Qle_bool y x).

(** [min(a, b)] of Python: the first argument unless the second is smaller. *)
Definition Qmin_py (a b : Q) : Q := if Qltb b a then b else a.

(** ** The world the scripts run in *)

(** A raised Python exception, with the text [str(e)] prints. *)
Inductive exn : Type :=
| Exception (msg : string)
| ValueError (msg : string)
| IndexError (msg : string).

Definition exn_str (e : exn) : string :=
  match e with Exception m | ValueError m | IndexError m => m end.

(** [requests.Response]: the two attributes the scripts read. *)
Record Response : Type := { status_code : Z; text : string }.

(** What one [requests.get] does: it returns a response or raises. *)
Inductive outcome : Type :=
| Answers (r : Response)
| Fails (e : exn).

(** The limiter object of [getDrugPathways.py]; [calls] is the FIFO queue
    of timestamps, oldest first. *)
Record RateLimiter : Type :=
  { max_calls : Z; time_period : Q; calls : list Q }.

Record World : Type :=
  { requests : list string;   (* URLs fetched so far, oldest first *)
    stdout : list string;     (* lines printed or logged, oldest first *)
    randoms : nat;            (* draws of [random.random()] consumed *)
    sleeps : list Q;          (* arguments of [sleep], oldest first *)
    clock : Q;                (* the wall clock [time.time()] reads *)
    rate_limiter : RateLimiter }.

Inductive result (A : Type) : Type :=
| Ok (a : A)
| Raised (e : exn).
Arguments Ok {A} a.
Arguments Raised {A} e.

(** A computation: it runs in a world, and returns or raises. *)
Definition M (A : Type) : Type := World -> result A * World.

Definition ret {A} (a : A) : M A := fun w => (Ok a, w).

Definition bind {A B} (m : M A) (k : A -> M B) : M B :=
  fun w => match m w with
           | (Ok a, w') => k a w'
           | (Raised e, w') => (Raised e, w')
           end.

Definition raise {A} (e : exn) : M A := fun w => (Raised e, w).

(** [try: m  except Exception as e: h e] *)
Definition try_except {A} (m : M A) (h : exn -> M A) : M A :=
  fun w => match m w with
           | (Ok a, w') => (Ok a, w')
           | (Raised e, w') => h e w'
           end.

Declare Scope py_scope.
Delimit Scope py_scope with py.
Notation "'let*' x ':=' m 'in' k" := (bind m (fun x => k))
  (at level 10, x pattern, m at level 100, k at level 200) : py_scope.
Notation "m1 >> m2" := (bind m1 (fun _ => m2))
  (at level 80, right associativity) : py_scope.
Local Open Scope py_scope.

Definition add_stdout (line : string) (w : World) : World :=
  {| requests := requests w; stdout := stdout w ++ [line];
     randoms := randoms w; sleeps := sleeps w;
     clock := clock w; rate_limiter := rate_limiter w |}.

Definition add_request (url : string) (w : World) : World :=
  {| requests := requests w ++ [url]; stdout := stdout w;
     randoms := randoms w; sleeps := sleeps w;
     clock := clock w; rate_limiter := rate_limiter w |}.

Definition next_random (w : World) : World :=
  {| requests := requests w; stdout := stdout w;
     randoms := S (randoms w); sleeps := sleeps w;
     clock := clock w; rate_limiter := rate_limiter w |}.

Definition add_sleep (d : Q) (w : World) : World :=
  {| requests := requests w; stdout := stdout w;
     randoms := randoms w; sleeps := sleeps w ++ [d];
     clock := (clock w + d)%Q; rate_limiter := rate_limiter w |}.

Definition set_calls (q : list Q) (w : World) : World :=
  {| requests := requests w; stdout := stdout w;
     randoms := randoms w; sleeps := sleeps w; clock := clock w;
     rate_limiter := {| max_calls := max_calls (rate_limiter w);
                        time_period := time_period (rate_limiter w);
                        calls := q |} |}.

(** [print(line)], and the [logger] calls of the SMILES script, which go
    to the console as well. *)
Definition print (line : string) : M unit := fun w => (Ok tt, add_stdout line w).

(** [time.time()] *)
Definition time_time : M Q := fun w => (Ok (clock w), w).

(** [sleep(d)]: a negative [d] raises [ValueError]; otherwise the caller is
    suspended for [d] seconds. *)
Definition sleep (d : Q) : M unit :=
  fun w => if Qltb d 0
           then (Raised (ValueError "sleep length must be non-negative"), w)
           else (Ok tt, add_sleep d w).

Section Environment.

(** [net url n]: what the server does with a GET of [url] when it is the
    request number [n] (from 0) of the run. *)
Variable net : string -> nat -> outcome.

(** [rnd i]: the value of the [i]-th call of [random.random()]. *)
Variable rnd : nat -> Q.

(** [requests.get(url)] *)
Definition requests_get (url : string) : M Response :=
  fun w => match net url (length (requests w)) with
           | Answers r => (Ok r, add_request url w)
           | Fails e => (Raised e, add_request url w)
           end.

(** [random.uniform(a, b)] is [a + (b - a) * random.random()]. *)
Definition uniform_of (a b r : Q) : Q := (a + (b - a) * r)%Q.

Definition random_uniform (a b : Q) : M Q :=
  fun w => (Ok (uniform_of a b (rnd (randoms w))), next_random w).

(** *** getDiseasePathways.py: the retry helper *)

(** The body of the [try] of one attempt; [Some] is the [return]. *)
Definition make_request_attempt (url : string) (max_retries attempt : Z)
  : M (option Response) :=
  try_except
    (let* response := requests_get url in
     if status_code response =? 200 then ret (Some response)
     else
       print ("Request failed with status code "
                +:+ Py.str_of_Z (status_code response) +:+ ", attempt "
                +:+ Py.str_of_Z (attempt + 1) +:+ "/" +:+ Py.str_of_Z max_retries)
       >> ret None)
    (fun e =>
       print ("Request failed with error: " +:+ exn_str e +:+ ", attempt "
                +:+ Py.str_of_Z (attempt + 1) +:+ "/" +:+ Py.str_of_Z max_retries)
       >> ret None).

(** The delay slept after a failed attempt. *)
Definition retry_delay (initial_delay jitter : Q) : Q :=
  let delay := (initial_delay + jitter)%Q in
  Qmin_py delay 60.

Fixpoint make_request_loop (url : string) (max_retries : Z) (initial_delay : Q)
  (attempts : list Z) : M (option Response) :=
  match attempts with
  | [] => ret None
  | attempt :: rest =>
      let* r := make_request_attempt url max_retries attempt in
      match r with
      | Some response => ret (Some response)
      | None =>
          let* jitter := random_uniform 0 1 in
          sleep (retry_delay initial_delay jitter)
          >> make_request_loop url max_retries initial_delay rest
      end
  end.

Definition make_request_with_retry (url : string) (max_retries : Z)
  (initial_delay : Q) : M (option Response) :=
  let* r := make_request_loop url max_retries initial_delay (Py.range max_retries) in
  match r with
  | Some response => ret (Some response)
  | None =>
      print ("Failed after " +:+ Py.str_of_Z max_retries +:+ " attempts")
      >> ret None
  end.

(** *** getSMILESforDrugsAndCompounds.py: the retry helper *)

Definition request_attempt (url : string) (attempt : Z) : M (option Response) :=
  try_except
    (let* resp := requests_get url in
     if (status_code resp =? 200) && Py.truthy (Py.strip (text resp))
     then
       print ("Success on attempt " +:+ Py.str_of_Z attempt +:+ ": " +:+ url
                +:+ " returned " +:+ Py.str_of_Z (status_code resp))
       >> ret (Some resp)
     else
       print ("Attempt " +:+ Py.str_of_Z attempt +:+ ": " +:+ url
                +:+ " returned " +:+ Py.str_of_Z (status_code resp))
       >> ret None)
    (fun e =>
       print ("Attempt " +:+ Py.str_of_Z attempt +:+ ": error fetching " +:+ url
                +:+ ": " +:+ exn_str e)
       >> ret None).

(** The delay slept after a failed attempt. *)
Definition request_delay (pause jitter : Q) : Q := (pause + jitter)%Q.

Fixpoint request_loop (url : string) (pause : Q) (attempts : list Z)
  : M (option Response) :=
  match attempts with
  | [] => ret None
  | attempt :: rest =>
      let* r := request_attempt url attempt in
      match r with
      | Some resp => ret (Some resp)
      | None =>
          let* jitter := random_uniform (1 # 10) 1 in
          sleep (request_delay pause jitter)
          >> request_loop url pause rest
      end
  end.

Definition request_with_retry (url : string) (max_retries : Z) (pause : Q)
  : M (option Response) :=
  let* r := request_loop url pause (Py.range_from 1 (max_retries + 1)) in
  match r with
  | Some resp => ret (Some resp)
  | None =>
      print ("Failed to fetch " +:+ url +:+ " after "
               +:+ Py.str_of_Z max_retries +:+ " attempts")
      >> ret None
  end.

(** *** getDrugPathways.py: the rate limiter and the single-shot request *)

(** The loop that removes old calls: it stops at the first timestamp
    younger than [period]. *)
Fixpoint evict (current_time period : Q) (queue : list Q) : list Q :=
  match queue with
  | [] => []
  | old_call :: rest =>
      if Qltb (current_time - old_call) period then queue
      else evict current_time period rest
  end.

Definition get_limiter : M RateLimiter := fun w => (Ok (rate_limiter w), w).
Definition put_calls (q : list Q) : M unit := fun w => (Ok tt, set_calls q w).

(** [RateLimiter.acquire]; the body runs under the limiter's lock, so
    acquisitions are serialised. *)
Definition acquire : M unit :=
  let* current_time := time_time in
  let* self := get_limiter in
  let queue := evict current_time (time_period self) (calls self) in
  put_calls queue >>
  (if Z.of_nat (length queue) >=? max_calls self
   then match queue with
        | oldest :: _ =>
            let sleep_time := (oldest + time_period self - current_time)%Q in
            if Qltb 0 sleep_time then sleep sleep_time else ret tt
        | [] => raise (IndexError "deque index out of range")
        end
   else ret tt) >>
  put_calls (queue ++ [current_time]).

Definition KEGG_BASE_URL : string := "http://rest.kegg.jp".

(** [ParallelDrugPathwayFinder.kegg_api_request] *)
Definition kegg_api_request (endpoint : string) : M (option string) :=
  acquire >>
  let url := KEGG_BASE_URL +:+ "/" +:+ endpoint in
  try_except
    (let* response := requests_get url in
     if status_code response =? 200 then ret (Some (text response))
     else if status_code response =? 404 then ret None
     else
       print ("Error " +:+ Py.str_of_Z (status_code response) +:+ " for " +:+ url)
       >> ret None)
    (fun e => print ("Exception for " +:+ url +:+ ": " +:+ exn_str e) >> ret None).

(** One line of [_extract_pathways_from_entry]: the state is the list
    built so far and the flag [in_pathway_section]. *)
Definition extract_pathways_step (st : list string * bool) (line : string)
  : list string * bool :=
  let '(pathways, in_pathway_section) := st in
  if Py.startswith line "PATHWAY" then
    let matches := re.findall re.hsa_digits line in
    (pathways ++ map (fun m => "path:" +:+ m) matches, true)
  else if in_pathway_section && Py.startswith line "  " then
    let matches := re.findall re.hsa_digits line in
    (pathways ++ map (fun m => "path:" +:+ m) matches, in_pathway_section)
  else if negb (Py.startswith line "  ") then (pathways, false)
  else (pathways, in_pathway_section).

Definition _extract_pathways_from_entry (entry_text : string) : list string :=
  fst (fold_left extract_pathways_step (Py.split LF entry_text) ([], false)).

(** The pairs one drug entry contributes in [process_drug_batch]. *)
Definition drug_pairs (pathway_ids : list string) (drug_id : string)
  (drug_data : option string) : list (string * string) :=
  match drug_data with
  | Some data =>
      if Py.truthy data
      then map (fun pathway_id => (drug_id, pathway_id))
             (List.filter (fun pathway_id => bool_decide (pathway_id ∈ pathway_ids))
                (_extract_pathways_from_entry data))
      else []
  | None => []
  end.

Fixpoint process_drug_batch_from (pathway_ids : list string)
  (pairs : list (string * string)) (drug_batch : list string)
  : M (list (string * string)) :=
  match drug_batch with
  | [] => ret pairs
  | drug_id :: rest =>
      let* drug_data := kegg_api_request ("get/" +:+ drug_id) in
      process_drug_batch_from pathway_ids
        (pairs ++ drug_pairs pathway_ids drug_id drug_data) rest
  end.

(** [ParallelDrugPathwayFinder.process_drug_batch]; [pathway_ids] is
    [self.pathway_ids]. *)
Definition process_drug_batch (pathway_ids drug_batch : list string)
  : M (list (string * string)) :=
  process_drug_batch_from pathway_ids [] drug_batch.

(** *** getDiseasePathways.py: the per-disease worker *)

(** Truth value of what the retry helpers return: [None] is false, and a
    [Response] is true when its status is not an HTTP error. *)
Definition response_truthy (response : option Response) : bool :=
  match response with
  | Some r => negb ((400 <=? status_code r) && (status_code r <? 600))
  | None => false
  end.

Definition response_text (response : option Response) : string :=
  match response with Some r => text r | None => "" end.

(** One line of a [link] answer: two tab-separated fields, the second a
    pathway whose [path:] prefix is deleted. *)
Definition add_link_line (pathways : gset string) (line : string) : gset string :=
  match Py.split TAB line with
  | [_; pathway] => {[ Py.delete pathway "path:" ]} ∪ pathways
  | _ => pathways
  end.

Definition add_search (pathways : gset string) (pathway_part : string) : gset string :=
  if Py.truthy pathway_part
  then match re.search re.hsa_5digits pathway_part with
       | Some m => {[ m ]} ∪ pathways
       | None => pathways
       end
  else pathways.

(** One line of the scan of the disease entry (Method 2). *)
Definition entry_step (st : gset string * bool) (line : string) : gset string * bool :=
  let '(pathways, in_pathway_section) := st in
  if Py.startswith line "PATHWAY" then
    (add_search pathways (Py.strip (Py.delete line "PATHWAY")), true)
  else if Py.startswith line "  " && in_pathway_section then
    (add_search pathways (Py.strip line), in_pathway_section)
  else if negb (Py.startswith line "  ") && in_pathway_section then
    (pathways, false)
  else (pathways, in_pathway_section).

(** The loop over the genes of the disease (third source). *)
Fixpoint gene_loop (lines : list string) (gene_count : Z) (pathways : gset string)
  : M (gset string) :=
  match lines with
  | [] => ret pathways
  | line :: rest =>
      match Py.split TAB line with
      | [_; gene] =>
          let gene_count := gene_count + 1 in
          (if gene_count mod 5 =? 0 then sleep 1 else ret tt) >>
          let* gene_response :=
            make_request_with_retry ("https://rest.kegg.jp/link/pathway/" +:+ gene) 20 1 in
          let pathways :=
            if response_truthy gene_response
               && Py.truthy (Py.strip (response_text gene_response))
            then fold_left add_link_line
                   (Py.split LF (Py.strip (response_text gene_response))) pathways
            else pathways in
          gene_loop rest gene_count pathways
      | _ => gene_loop rest gene_count pathways
      end
  end.

(** [list(s)] for a set of strings: Python fixes no order. *)
Variable listing : gset string -> list string.

Definition get_disease_pathways (disease_id : string) : M (list string * string) :=
  let pathways : gset string := ∅ in
  let* response :=
    make_request_with_retry ("https://rest.kegg.jp/link/pathway/" +:+ disease_id) 20 1 in
  let pathways :=
    if response_truthy response && Py.truthy (Py.strip (response_text response))
    then fold_left add_link_line
           (Py.split LF (Py.strip (response_text response))) pathways
    else pathways in
  let* response :=
    make_request_with_retry ("https://rest.kegg.jp/get/" +:+ disease_id) 20 1 in
  let pathways :=
    if response_truthy response && Py.truthy (Py.strip (response_text response))
    then fst (fold_left entry_step
                (Py.split LF (Py.strip (response_text response))) (pathways, false))
    else pathways in
  let* response :=
    make_request_with_retry ("https://rest.kegg.jp/link/hsa/" +:+ disease_id) 20 1 in
  let* pathways :=
    if response_truthy response && Py.truthy (Py.strip (response_text response))
    then gene_loop (Py.split LF (Py.strip (response_text response))) 0 pathways
    else ret pathways in
  ret (listing pathways, disease_id).

(** *** getDiseasePathways.py: the fan-out worker *)

(** The loop of [process_diseases_chunk] over a per-disease function
    [worker]; the script runs it with [get_disease_pathways].  The [try]
    covers the call, the [append] and the pause, and an [append] already
    done stays done when the pause raises. *)
Fixpoint process_chunk_from (worker : string -> M (list string * string))
  (chunk_id : Z) (results : list (string * list string)) (disease_ids : list string)
  : M (list (string * list string)) :=
  match disease_ids with
  | [] => ret results
  | disease_id :: rest =>
      let on_error (results : list (string * list string)) (e : exn) :=
        print ("Process " +:+ Py.str_of_Z chunk_id +:+ ": Error processing "
                 +:+ disease_id +:+ ": " +:+ exn_str e)
        >> ret (results ++ [(disease_id, [])]) in
      let* results :=
        try_except
          (let* r := worker disease_id in
           let results := results ++ [(disease_id, fst r)] in
           try_except
             (let* jitter := random_uniform 0 (1 # 2) in
              sleep ((1 # 2) + jitter)%Q >> ret results)
             (on_error results))
          (on_error results) in
      process_chunk_from worker chunk_id results rest
  end.

Definition process_diseases_chunk_with (worker : string -> M (list string * string))
  (disease_ids : list string) (chunk_id : Z) : M (list (string * list string)) :=
  process_chunk_from worker chunk_id [] disease_ids.

Definition process_diseases_chunk (disease_ids : list string) (chunk_id : Z)
  : M (list (string * list string)) :=
  process_diseases_chunk_with get_disease_pathways disease_ids chunk_id.

End Environment.

(** ** getDiseasePathways.py: the file sink and the pipeline *)

Definition NL : string := String LF EmptyString.

Definition insert_sql (disease_id pathway : string) : string :=
  let pathway_with_prefix := "path:" +:+ pathway in
  "INSERT INTO DiseasePathways (disease_id, pathway_id) VALUES ('"
    +:+ disease_id +:+ "', '" +:+ pathway_with_prefix +:+ "');" +:+ NL.

(** The state of [write_sql_file]: the strings written to the file so
    far, [insert_count], [diseases_with_pathways] and
    [diseases_without_pathways]. *)
Definition sink_state : Type := list string * Z * Z * Z.

Definition write_insert (disease_id : string) (st : list string * Z) (pathway : string)
  : list string * Z :=
  let '(sql_file, insert_count) := st in
  (sql_file ++ [insert_sql disease_id pathway], insert_count + 1).

Definition write_result (st : sink_state) (r : string * list string) : sink_state :=
  let '(sql_file, insert_count, with_pathways, without_pathways) := st in
  let '(disease_id, pathways) := r in
  match pathways with
  | _ :: _ =>
      let '(sql_file, insert_count) :=
        fold_left (write_insert disease_id) pathways (sql_file, insert_count) in
      (sql_file, insert_count, with_pathways + 1, without_pathways)
  | [] => (sql_file, insert_count, with_pathways, without_pathways + 1)
  end.

Definition sql_header : list string :=
  [ "BEGIN TRANSACTION;" +:+ NL +:+ NL;
    "DELETE FROM DiseasePathways;" +:+ NL;
    "-- Inserting disease-pathway relationships" +:+ NL +:+ NL ].

Definition sql_footer : list string := [ NL +:+ "COMMIT;" +:+ NL ].

(** [write_sql_file]: the strings written to [output_file], in order, and
    the three counters returned. *)
Definition write_sql_file (results : list (string * list string))
  : list string * (Z * Z * Z) :=
  let '(sql_file, insert_count, with_pathways, without_pathways) :=
    fold_left write_result results (sql_header, 0, 0, 0) in
  (sql_file ++ sql_footer, (insert_count, with_pathways, without_pathways)).

(** The text of the file: the writes, concatenated. *)
Definition file_text (writes : list string) : string :=
  fold_right String.append EmptyString writes.

Section Pipeline.

Variable net : string -> nat -> outcome.
Variable rnd : nat -> Q.
Variable listing : gset string -> list string.

(** [main] from the disease list on: an empty list ends the run; otherwise
    the list is cut into chunks of [max(1, len // n_workers)] diseases,
    every chunk goes through [process_diseases_chunk], the results are
    flattened in chunk order and handed to [write_sql_file], whose file and
    counts are the result.  The chunks are run here one after the other
    through one world; how the pool interleaves them is not modelled. *)
Definition disease_chunks (diseases : list string) (n_workers : Z)
  : list (list string) :=
  let chunk_size := Z.max 1 (Z.of_nat (length diseases) / n_workers) in
  Py.slices (Z.to_nat chunk_size) diseases.

Fixpoint starmap_chunks (process_args : list (list string * Z))
  : M (list (list (string * list string))) :=
  match process_args with
  | [] => ret []
  | (chunk, idx) :: rest =>
      let* r := process_diseases_chunk net rnd listing chunk idx in
      let* rs := starmap_chunks rest in
      ret (r :: rs)
  end.

Definition enumerate {A} (l : list A) : list (A * Z) :=
  combine l (Py.range (Z.of_nat (length l))).

Definition main_from (diseases : list string) (n_workers : Z)
  : M (option (list string * (Z * Z * Z))) :=
  match diseases with
  | [] => print "Failed to fetch diseases, exiting." >> ret None
  | _ :: _ =>
      if n_workers =? 0 then raise (Exception "integer division or modulo by zero")
      else
        let disease_chunks := disease_chunks diseases n_workers in
        if n_workers <? 1
        then raise (ValueError "Number of processes must be at least 1")
        else
          let process_args := enumerate disease_chunks in
          let* chunk_results := starmap_chunks process_args in
          let all_results := concat chunk_results in
          ret (Some (write_sql_file all_results))
  end.

End Pipeline.

(** ** The database sinks *)

(** A relationship table of SQLite: rows [(id, (left, right))] in
    insertion order, the counter of [AUTOINCREMENT], and whether the
    table was created with [UNIQUE(left, right)]. *)
Record Table : Type :=
  { rows : list (Z * (string * string)); last_id : Z; unique_pairs : bool }.

Record Database : Type :=
  { DrugPathways : option Table; DiseaseCompounds : option Table }.

Definition has_pair (t : Table) (pair : string * string) : bool :=
  existsb (fun row => bool_decide (snd row = pair)) (rows t).

(** [INSERT OR IGNORE INTO t (left, right) VALUES (?, ?)]: a row that
    would break the table's [UNIQUE] constraint is skipped.  SQLite draws
    the id before it meets the constraint, so the counter of
    [AUTOINCREMENT] moves for a skipped row as well. *)
Definition insert_or_ignore (t : Table) (pair : string * string) : Table :=
  if unique_pairs t && has_pair t pair
  then {| rows := rows t;
          last_id := last_id t + 1;
          unique_pairs := unique_pairs t |}
  else {| rows := rows t ++ [(last_id t + 1, pair)];
          last_id := last_id t + 1;
          unique_pairs := unique_pairs t |}.

(** [executemany] of that statement. *)
Definition executemany (t : Table) (batch : list (string * string)) : Table :=
  fold_left insert_or_ignore batch t.

(** [CREATE TABLE IF NOT EXISTS ... UNIQUE(left, right)] *)
Definition create_if_not_exists (t : option Table) : Table :=
  match t with
  | Some t => t
  | None => {| rows := []; last_id := 0; unique_pairs := true |}
  end.

Definition row_count (t : option Table) : Z :=
  match t with Some t => Z.of_nat (length (rows t)) | None => 0 end.

Section DrugSink.

(** [list(self.drug_pathway_pairs)]: Python fixes no order. *)
Variable pair_listing : gset (string * string) -> list (string * string).

(** [ParallelDrugPathwayFinder.save_results]: the database afterwards and
    the [total_count] it reads back. *)
Definition save_results (drug_pathway_pairs : gset (string * string)) (db : Database)
  : Database * Z :=
  let unique_pairs := pair_listing drug_pathway_pairs in
  let table := create_if_not_exists (DrugPathways db) in
  let batch_size := 1000%nat in
  let table := fold_left executemany (Py.slices batch_size unique_pairs) table in
  let db := {| DrugPathways := Some table; DiseaseCompounds := DiseaseCompounds db |} in
  (db, row_count (DrugPathways db)).

End DrugSink.

(** [ensure_tables] of the SMILES script, for the relationship table. *)
Definition ensure_tables (db : Database) : Database :=
  {| DrugPathways := DrugPathways db;
     DiseaseCompounds := Some (create_if_not_exists (DiseaseCompounds db)) |}.

(** [save_chunk]: [True] and the rows inserted, or [False] and nothing
    changed when the statement fails because the table is missing. *)
Definition save_chunk (chunk : list (string * string)) (db : Database) : bool * Database :=
  match DiseaseCompounds db with
  | Some table =>
      (true, {| DrugPathways := DrugPathways db;
                DiseaseCompounds := Some (executemany table chunk) |})
  | None => (false, db)
  end.

(** A world at the start of a run. *)
Definition world0 : World :=
  {| requests := []; stdout := []; randoms := 0; sleeps := []; clock := 0;
     rate_limiter := {| max_calls := 50; time_period := 60; calls := [] |} |}.

(** ** A caller of the rate limiter *)

Definition pass_time (g : Q) (w : World) : World :=
  {| requests := requests w; stdout := stdout w;
     randoms := randoms w; sleeps := sleeps w;
     clock := (clock w + g)%Q; rate_limiter := rate_limiter w |}.

(** The caller is busy elsewhere for [g] seconds. *)
Definition idle (g : Q) : M unit := fun w => (Ok tt, pass_time g w).

(** One acquisition after each gap of [gaps]; for each, the time it was
    asked for and the time it completed. *)
Fixpoint acquisitions (gaps : list Q) : M (list (Q * Q)) :=
  match gaps with
  | [] => ret []
  | g :: rest =>
      idle g >>
      let* asked := time_time in
      acquire >>
      let* completed := time_time in
      let* others := acquisitions rest in
      ret ((asked, completed) :: others)
  end.

Definition fresh_limiter (m : Z) (period : Q) : RateLimiter :=
  {| max_calls := m; time_period := period; calls := [] |}.

Definition with_limiter (l : RateLimiter) (w : World) : World :=
  {| requests := requests w; stdout := stdout w;
     randoms := randoms w; sleeps := sleeps w;
     clock := clock w; rate_limiter := l |}.

(** ** Servers and random sources used as examples *)

Definition ok_response : Response := {| status_code := 200; text := "D00001" |}.
Definition blank_response : Response := {| status_code := 200; text := " " +:+ NL |}.
Definition busy_response : Response := {| status_code := 503; text := "busy" |}.

(** Answers 503 to the first [n_fail] requests and [good] afterwards. *)
Definition flaky_server (n_fail : nat) (good : Response) : string -> nat -> outcome :=
  fun _ n => if (n <? n_fail)%nat then Answers busy_response else Answers good.

(** Every request raises. *)
Definition down_server : string -> nat -> outcome :=
  fun _ _ => Fails (Exception "connection refused").

(** Every request is answered 200 with a blank body. *)
Definition blank_server : string -> nat -> outcome :=
  fun _ _ => Answers blank_response.

(** [random.random()] returning one half every time. *)
Definition half : nat -> Q := fun _ => (1 # 2)%Q.

(** A flat-file record whose [PATHWAY] section has a header and three
    continuation lines and is closed by a line that is not indented and
    begins with [PATHWAY] itself. *)
Definition record_lines : list string :=
  [ "ENTRY       D00001";
    "PATHWAY     hsa04930  Type II diabetes mellitus";
    "            hsa04910  Insulin signaling pathway";
    "            hsa04911  Insulin secretion";
    "            hsa04912  GnRH signaling pathway";
    "PATHWAY     hsa04950  Maturity onset diabetes of the young";
    "///" ].

(** The same record closed by an ordinary header. *)
Definition plain_record_lines : list string :=
  [ "ENTRY       D00001";
    "PATHWAY     hsa04930  Type II diabetes mellitus";
    "            hsa04910  Insulin signaling pathway";
    "            hsa04911  Insulin secretion";
    "            hsa04912  GnRH signaling pathway";
    "DBLINKS     PubChem: 7847072";
    "///" ].

(** A database without the relationship tables, and pairs to store. *)
Definition empty_db : Database := {| DrugPathways := None; DiseaseCompounds := None |}.


Definition example_chunk : list (string * string) :=
  [ ("H00001", "C00031"); ("H00002", "C00031"); ("H00001", "C00031") ].

(** The mock server of the end-to-end scenario: the pathway-link endpoint
    names hsa04910, the entry has a [PATHWAY] section naming hsa04930, and
    every other endpoint answers with an empty body. *)
Definition link_answer : Response :=
  {| status_code := 200; text := "H00001" +:+ String TAB "path:hsa04910" +:+ NL |}.

Definition entry_answer : Response :=
  {| status_code := 200;
     text := "ENTRY       H00001                      Disease" +:+ NL
             +:+ "NAME        B-cell acute lymphoblastic leukemia" +:+ NL
             +:+ "PATHWAY     hsa04930  Type II diabetes mellitus" +:+ NL
             +:+ "DBLINKS     ICD-11: 2A70" +:+ NL
             +:+ "///" +:+ NL |}.

Definition no_data : Response := {| status_code := 200; text := EmptyString |}.

Definition mock_net : string -> nat -> outcome :=
  fun url _ =>
    if String.eqb url "https://rest.kegg.jp/link/pathway/H00001" then Answers link_answer
    else if String.eqb url "https://rest.kegg.jp/get/H00001" then Answers entry_answer
    else Answers no_data.

(** A per-disease function that raises for one disease. *)
Definition fussy_worker (disease_id : string) : M (list string * string) :=
  if String.eqb disease_id "H00002" then raise (Exception "unexpected answer")
  else ret (["hsa04930"], disease_id).


Definition join_lines (lines : list string) : string :=
  match lines with
  | [] => EmptyString
  | l :: ls => fold_left (fun acc line => acc +:+ NL +:+ line) ls l
  end.

(** ** Vocabulary of the statements *)

(** The codes [_extract_pathways_from_entry] takes from one scanned line. *)
Definition line_codes (line : string) : list string :=
  map (fun m => "path:" +:+ m) (re.findall re.hsa_digits line).

(** The code the disease-script scan takes from one scanned piece of text:
    the first match, if there is one. *)
Definition first_code (part : string) : gset string :=
  match re.search re.hsa_5digits part with
  | Some m => {[ m ]}
  | None => ∅
  end.

Definition no_header (line : string) : Prop := Py.startswith line "PATHWAY" = false.

(** The INSERT statements a result list calls for: one per pathway of
    each disease, in order. *)
Definition inserts_of (results : list (string * list string)) : list string :=
  flat_map (fun r => map (insert_sql (fst r)) (snd r)) results.

Definition has_pathways (r : string * list string) : bool :=
  match snd r with [] => false | _ :: _ => true end.




(** A failed attempt for [make_request_with_retry]: a status other than
    200, or an exception. *)
Definition fails_plain (o : outcome) : bool :=
  match o with
  | Answers r => negb (status_code r =? 200)
  | Fails _ => true
  end.

(** A failed attempt for [request_with_retry]: as above, or a 200 whose
    body is blank. *)
Definition fails_or_blank (o : outcome) : bool :=
  match o with
  | Answers r => negb ((status_code r =? 200) && Py.truthy (Py.strip (text r)))
  | Fails _ => true
  end.

(** The requests issued between two worlds. *)
Definition issued (w w' : World) (urls : list string) : Prop :=
  requests w' = requests w ++ urls.

(** The delays slept between two worlds. *)
Definition slept (w w' : World) (delays : list Q) : Prop :=
  sleeps w' = sleeps w ++ delays.

(** The delays of [n] consecutive failed attempts when [r0] random draws
    were consumed before: one fresh draw each, nothing else varies. *)
Definition retry_delays (rnd : nat -> Q) (initial_delay : Q) (r0 n : nat) : list Q :=
  map (fun i => retry_delay initial_delay (uniform_of 0 1 (rnd (r0 + i)%nat))) (seq 0 n).

Definition request_delays (rnd : nat -> Q) (pause : Q) (r0 n : nat) : list Q :=
  map (fun i => request_delay pause (uniform_of (1 # 10) 1 (rnd (r0 + i)%nat))) (seq 0 n).

(** What a run of the helper leaves behind, apart from the lines printed. *)
Definition after_attempts (w w' : World) (url : string) (n : nat) (delays : list Q) : Prop :=
  issued w w' (repeat url n)
  /\ slept w w' delays
  /\ randoms w' = (randoms w + length delays)%nat
  /\ rate_limiter w' = rate_limiter w.

(** What holds after [i] acquisitions on a limiter that was fresh, when
    the first was asked for at [t1] and none has waited: the first
    timestamp is still at the head of a full-length queue, or a period has
    passed since. *)
Definition since_first (m : Z) (period t1 : Q) (i : nat) (w : World) : Prop :=
  max_calls (rate_limiter w) = m
  /\ time_period (rate_limiter w) = period
  /\ (length (calls (rate_limiter w)) <= i)%nat
  /\ ((length (calls (rate_limiter w)) = i /\ hd_error (calls (rate_limiter w)) = Some t1
       /\ (t1 <= clock w)%Q)
      \/ (t1 + period <= clock w)%Q).

(** The line [process_diseases_chunk] prints for a disease that raised. *)
Definition error_line (chunk_id : Z) (disease_id : string) (e : exn) : string :=
  "Process " +:+ Py.str_of_Z chunk_id +:+ ": Error processing "
    +:+ disease_id +:+ ": " +:+ exn_str e.

(** The pause [process_diseases_chunk] makes after a disease. *)
Definition chunk_pause (rnd : nat -> Q) (w : World) : Q :=
  ((1 # 2) + uniform_of 0 (1 # 2) (rnd (randoms w)))%Q.

(** The URL [kegg_api_request] fetches for an endpoint. *)
Definition kegg_url (endpoint : string) : string := KEGG_BASE_URL +:+ "/" +:+ endpoint.

(** A log of requests made of retried requests only, the first being
    request number [n0] of the run: the log is a sequence of blocks, each
    block the attempts at one URL; inside a block every failed attempt but
    the [limit]-th is followed by another attempt at the same URL. *)
Inductive retried (net : string -> nat -> outcome) (limit : nat)
  : nat -> list string -> Prop :=
| retried_none n0 : retried net limit n0 []
| retried_block n0 url n rest :
    (1 <= n <= limit)%nat ->
    (forall i, (i + 1 < n)%nat -> fails_plain (net url (n0 + i)%nat) = true) ->
    (fails_plain (net url (n0 + (n - 1))%nat) = true -> n = limit) ->
    retried net limit (n0 + n)%nat rest ->
    retried net limit n0 (repeat url n ++ rest).

(** ** More of getDrugPathways.py *)

(** One line of [_extract_drug_targets]. *)
Definition extract_targets_step (st : list string * bool) (line : string)
  : list string * bool :=
  let '(targets, in_target_section) := st in
  if Py.startswith line "TARGET" then
    let matches := re.findall re.hsa_colon_digits line in
    (targets ++ matches, true)
  else if in_target_section && Py.startswith line "  " then
    let matches := re.findall re.hsa_colon_digits line in
    (targets ++ matches, in_target_section)
  else if negb (Py.startswith line "  ") then (targets, false)
  else (targets, in_target_section).

Definition _extract_drug_targets (drug_entry : string) : list string :=
  fst (fold_left extract_targets_step (Py.split LF drug_entry) ([], false)).

(** One line of [_extract_drugs_from_pathway]. *)
Definition extract_drugs_step (st : list string * bool) (line : string)
  : list string * bool :=
  let '(drugs, in_drug_section) := st in
  if Py.startswith line "DRUG" then
    let matches := re.findall re.D_digits line in
    (drugs ++ matches, true)
  else if in_drug_section && Py.startswith line "  " then
    let matches := re.findall re.D_digits line in
    (drugs ++ matches, in_drug_section)
  else if negb (Py.startswith line "  ") then (drugs, false)
  else (drugs, in_drug_section).

Definition _extract_drugs_from_pathway (pathway_entry : string) : list string :=
  fst (fold_left extract_drugs_step (Py.split LF pathway_entry) ([], false)).

Section DrugWorkers.

Variable net : string -> nat -> outcome.

(** The pairs one pathway entry contributes in [process_pathway_batch]. *)
Definition pathway_pairs (drug_ids : list string) (pathway_id : string)
  (pathway_data : option string) : list (string * string) :=
  match pathway_data with
  | Some data =>
      if Py.truthy data
      then map (fun drug_id => (drug_id, pathway_id))
             (List.filter (fun drug_id => bool_decide (drug_id ∈ drug_ids))
                (_extract_drugs_from_pathway data))
      else []
  | None => []
  end.

Fixpoint process_pathway_batch_from (drug_ids : list string)
  (pairs : list (string * string)) (pathway_batch : list string)
  : M (list (string * string)) :=
  match pathway_batch with
  | [] => ret pairs
  | pathway_id :: rest =>
      let* pathway_data := kegg_api_request net ("get/" +:+ pathway_id) in
      process_pathway_batch_from drug_ids
        (pairs ++ pathway_pairs drug_ids pathway_id pathway_data) rest
  end.

(** [ParallelDrugPathwayFinder.process_pathway_batch]; [drug_ids] is
    [self.drug_ids]. *)
Definition process_pathway_batch (drug_ids pathway_batch : list string)
  : M (list (string * string)) :=
  process_pathway_batch_from drug_ids [] pathway_batch.



End DrugWorkers.

(** The loop at the end of [method5_disease_connections]: drugs are
    connected to the pathways of their diseases; [disease_pathways] is the
    dictionary built from the disease entries. *)
Definition connect_drugs (disease_drug_pairs : list (string * string))
  (disease_pathways : gmap string (list string)) (pathway_ids : list string)
  : list (string * string) :=
  flat_map
    (fun pair : string * string =>
       let '(disease_id, drug_id) := pair in
       match disease_pathways !! disease_id with
       | Some pathways =>
           map (fun pathway_id => (drug_id, pathway_id))
             (List.filter (fun pathway_id => bool_decide (pathway_id ∈ pathway_ids))
                pathways)
       | None => []
       end)
    disease_drug_pairs.

(** ** More of getDiseasePathways.py *)

(** One line of the disease list: two tab-separated fields, the first
    beginning with [H]. *)
Definition keep_disease (diseases : list string) (line : string) : list string :=
  match Py.split TAB line with
  | [disease_id; _] =>
      if Py.startswith disease_id "H" then diseases ++ [disease_id] else diseases
  | _ => diseases
  end.

Section DiseaseList.

Variable net : string -> nat -> outcome.
Variable rnd : nat -> Q.

Definition get_kegg_diseases : M (list string) :=
  let* response := make_request_with_retry net rnd "https://rest.kegg.jp/list/disease" 20 1 in
  if negb (response_truthy response)
  then print "Could not retrieve disease list" >> ret []
  else ret (fold_left keep_disease
              (Py.split LF (Py.strip (response_text response))) []).

End DiseaseList.

(** ** More of getSMILESforDrugsAndCompounds.py *)

(** ASCII part of the line boundaries of [str.splitlines]: LF, VT, FF, CR,
    FS, GS, RS. *)
Definition is_linebreak (c : ascii) : bool :=
  let n := nat_of_ascii c in
  ((10 <=? n)%nat && (n <=? 13)%nat) || ((28 <=? n)%nat && (n <=? 30)%nat).

Definition CR : ascii := "013"%char.

(** The pieces between line boundaries, the last being what follows the
    last boundary; [skip_lf] says that the character before was a CR, whose
    LF belongs to the same boundary. *)
Fixpoint line_pieces (skip_lf : bool) (s : string) : list string :=
  match s with
  | EmptyString => [EmptyString]
  | String c s' =>
      if skip_lf && Ascii.eqb c LF then line_pieces false s'
      else if is_linebreak c then EmptyString :: line_pieces (Ascii.eqb c CR) s'
      else match line_pieces false s' with
           | w :: ws => String c w :: ws
           | [] => [String c EmptyString]
           end
  end.

Fixpoint drop_last_empty (pieces : list string) : list string :=
  match pieces with
  | [] => []
  | [last_piece] => if Py.truthy last_piece then [last_piece] else []
  | piece :: rest => piece :: drop_last_empty rest
  end.

(** [s.splitlines()]: no empty last line. *)
Definition splitlines (s : string) : list string := drop_last_empty (line_pieces false s).

(** [sub in s] for strings. *)
Fixpoint contains (sub s : string) : bool :=
  match s with
  | EmptyString => String.prefix sub EmptyString
  | String _ s' => String.prefix sub s || contains sub s'
  end.

(** [s.split(sep)] for a non-empty string [sep]; [skip] counts the
    characters of an occurrence of [sep] still to be passed. *)
Fixpoint split_str_from (sep : string) (skip : nat) (s : string) : list string :=
  match s with
  | EmptyString => [EmptyString]
  | String c s' =>
      match skip with
      | S k => split_str_from sep k s'
      | O =>
          if String.prefix sep s
          then EmptyString :: split_str_from sep (String.length sep - 1) s'
          else match split_str_from sep 0 s' with
               | w :: ws => String c w :: ws
               | [] => [String c EmptyString]
               end
      end
  end.

Definition split_str (sep s : string) : list string := split_str_from sep 0 s.

(** The first field of a line of a [list] answer. *)
Definition first_field (line : string) : string :=
  match Py.split TAB line with
  | field :: _ => field
  | [] => EmptyString
  end.

(** The loop of [extract_pubchem_id] over the lines of the entry. *)
Fixpoint find_pubchem (lines : list string) : option string :=
  match lines with
  | [] => None
  | line :: rest =>
      if contains "PubChem:" line
      then match split_str "PubChem:" line with
           | _ :: field :: _ => Some (Py.strip field)
           | _ => find_pubchem rest
           end
      else find_pubchem rest
  end.

(** The rows of [DrugStructures] and [CompoundStructures]: an identifier,
    which is the primary key, and a SMILES string. *)
Definition structures : Type := list (string * string).

(** [INSERT OR REPLACE INTO ... VALUES (?, ?)]: a row with the same key is
    deleted and the new row is added. *)
Definition insert_or_replace (table : structures) (key smiles : string) : structures :=
  List.filter (fun row => negb (String.eqb (fst row) key)) table ++ [(key, smiles)].

(** [SELECT smiles ... WHERE id = key] *)
Definition select_smiles (table : structures) (key : string) : option string :=
  match List.filter (fun row => String.eqb (fst row) key) table with
  | row :: _ => Some (snd row)
  | [] => None
  end.

(** [get_db_connection()]: [sqlite3.connect] returns a connection or
    raises; [connecting] is the exception it raises, if any. *)
Definition get_db_connection (connecting : option exn) : M unit :=
  match connecting with
  | Some e => raise e
  | None => ret tt
  end.

(** [conn.execute] of the statement and [conn.commit()]: [executing] is
    the exception the database raises for them, if any (a missing table, a
    locked file). *)
Definition execute_insert_or_replace (executing : option exn) (table : structures)
  (key smiles : string) : M structures :=
  match executing with
  | Some e => raise e
  | None => ret (insert_or_replace table key smiles)
  end.

(** [insert_drug_structures] and [insert_compound_structures]: the table
    afterwards and the flag returned; after [rollback] the table is as it
    was. *)
Definition insert_drug_structures (executing : option exn) (table : structures)
  (drug_id smiles : string) : M (structures * bool) :=
  try_except
    (let* table := execute_insert_or_replace executing table drug_id smiles in
     ret (table, true))
    (fun e =>
       print ("Insert drug " +:+ drug_id +:+ " failed: " +:+ exn_str e)
       >> ret (table, false)).

Definition insert_compound_structures (executing : option exn) (table : structures)
  (comp_id smiles : string) : M (structures * bool) :=
  try_except
    (let* table := execute_insert_or_replace executing table comp_id smiles in
     ret (table, true))
    (fun e =>
       print ("Insert compound " +:+ comp_id +:+ " failed: " +:+ exn_str e)
       >> ret (table, false)).

Section SmilesFetchers.

Variable net : string -> nat -> outcome.
Variable rnd : nat -> Q.

(** [os.path.join], which depends on the platform. *)
Variable os_path_join : string -> string -> string.

(** [open(path, "w")] and the write: the exception raised for that path,
    if any (a directory of the path that does not exist, no permission). *)
Variable open_error : string -> option exn.

(** What the fetchers do with the answer of the helper:
    [resp.text if resp and resp.status_code == 200 else None]. *)
Definition text_if_ok (resp : option Response) : option string :=
  match resp with
  | Some r => if response_truthy resp && (status_code r =? 200) then Some (text r) else None
  | None => None
  end.

(** Truth value of an optional string: [None] and [""] are false. *)
Definition some_text (t : option string) : bool :=
  match t with Some s => Py.truthy s | None => false end.

Definition fetch_from_pubchem (cid : string) : M (option string) :=
  let url := "https://pubchem.ncbi.nlm.nih.gov/rest/pug/compound/cid/" +:+ cid +:+ "/SDF" in
  let* resp := request_with_retry net rnd url 20 1 in
  ret (text_if_ok resp).

Definition extract_pubchem_id (entry_id : string) : M (option string) :=
  let* resp := request_with_retry net rnd ("https://rest.kegg.jp/get/" +:+ entry_id) 20 1 in
  if negb (response_truthy resp) then ret None
  else ret (find_pubchem (splitlines (response_text resp))).

Definition get_kegg_list (path : string) : M (list string) :=
  let url := "https://rest.kegg.jp/list/" +:+ path in
  let* resp := request_with_retry net rnd url 20 1 in
  if response_truthy resp
  then ret (map first_field (splitlines (Py.strip (response_text resp))))
  else ret [].

Definition get_kegg_compounds : M (list string) := get_kegg_list "compound".
Definition get_kegg_drugs : M (list string) := get_kegg_list "drug".

(** [get_mol_file]; [files] maps the paths that exist to their contents,
    and the result carries the files afterwards.  A write that fails
    raises, and leaves the files as they were. *)
Definition get_mol_file (entry_id : string) (files : gmap string string)
  : M (option string * gmap string string) :=
  let file_path := os_path_join "mol_files" (entry_id +:+ ".mol") in
  match files !! file_path with
  | Some _ => ret (Some file_path, files)
  | None =>
      let* resp := request_with_retry net rnd
                     ("https://rest.kegg.jp/get/" +:+ entry_id +:+ "/mol") 20 1 in
      let text := text_if_ok resp in
      let* text :=
        if negb (some_text text)
        then
          let* cid := extract_pubchem_id entry_id in
          if some_text cid
          then fetch_from_pubchem (match cid with Some c => c | None => EmptyString end)
          else ret text
        else ret text in
      match text with
      | Some body =>
          if Py.truthy body
          then match open_error file_path with
               | Some e => raise e
               | None => ret (Some file_path, <[ file_path := body ]> files)
               end
          else print ("No Molfile available for " +:+ entry_id) >> ret (None, files)
      | None => print ("No Molfile available for " +:+ entry_id) >> ret (None, files)
      end
  end.

End SmilesFetchers.

(** ** Vocabulary of the further statements *)

(** A code [lit\d+]: the literal followed by at least one digit and
    nothing else. *)
Definition all_digits (s : string) : bool :=
  forallb Py.isdigit (list_ascii_of_string s).

Definition is_code (lit code : string) : Prop :=
  exists digits, code = lit +:+ digits /\ digits <> EmptyString /\ all_digits digits = true.

(** The sum of a list of durations. *)
Definition total (delays : list Q) : Q := fold_right Qplus 0%Q delays.

(** The state of the limiter is in order: the timestamps ascend, none is
    later than the clock, and there are at most [max_calls + 1] of them,
    the oldest being a period old when there are that many. *)
Definition limiter_in_order (w : World) : Prop :=
  let self := rate_limiter w in
  Sorted Qle (calls self)
  /\ Forall (fun t => (t <= clock w)%Q) (calls self)
  /\ Z.of_nat (length (calls self)) <= max_calls self + 1
  /\ (Z.of_nat (length (calls self)) = max_calls self + 1 ->
      forall oldest, hd_error (calls self) = Some oldest ->
                     (oldest + time_period self <= clock w)%Q).

(** [c in s] for a character. *)
Definition has_char (c : ascii) (s : string) : bool :=
  existsb (Ascii.eqb c) (list_ascii_of_string s).

(** No character of [s] is a line boundary. *)
Definition one_line (s : string) : bool :=
  forallb (fun c => negb (is_linebreak c)) (list_ascii_of_string s).

(** [os.path.join] of POSIX for a relative second part, used in examples. *)
Definition posix_join (a b : string) : string := a +:+ "/" +:+ b.

(** A server for the Molfile examples: KEGG has no Molfile for the entry,
    the entry names PubChem compound 7847072, and PubChem has the file. *)
Definition pubchem_net : string -> nat -> outcome :=
  fun url _ =>
    if String.eqb url "https://rest.kegg.jp/get/D00001"
    then Answers {| status_code := 200;
                    text := "ENTRY       D00001" +:+ NL
                            +:+ "DBLINKS     CAS: 50-99-7" +:+ NL
                            +:+ "            PubChem: 7847072" +:+ NL |}
    else if String.eqb url
              "https://pubchem.ncbi.nlm.nih.gov/rest/pug/compound/cid/7847072/SDF"
    then Answers {| status_code := 200; text := "7847072" +:+ NL +:+ "  -OEChem-" +:+ NL |}
    else Answers {| status_code := 404; text := EmptyString |}.

(** *** getSMILESforDrugsAndCompounds.py: the disease-compound mapping *)

(** The [dict] from a disease to its set of pathways; the keys are in the
    order of their first insertion, which is the order of [items()]. *)
Definition pathway_dict : Type := list (string * gset string).

(** [if disease_id not in d: d[disease_id] = set()] and then
    [d[disease_id].add(pathway_id)] *)
Fixpoint add_pathway (disease_pathways : pathway_dict) (disease_id pathway_id : string)
  : pathway_dict :=
  match disease_pathways with
  | [] => [(disease_id, ∅ ∪ {[ pathway_id ]})]
  | (key, pathways) :: rest =>
      if String.eqb key disease_id then (key, pathways ∪ {[ pathway_id ]}) :: rest
      else (key, pathways) :: add_pathway rest disease_id pathway_id
  end.

(** The loop over [cursor.fetchall()]. *)
Definition read_mappings (fetched : list (string * string)) : pathway_dict :=
  fold_left (fun disease_pathways row => add_pathway disease_pathways (fst row) (snd row))
    fetched [].

(** The local variables of the loops of [get_disease_compounds], and the
    database the chunks go to. *)
Record mapping_state : Type :=
  { current_chunk : list (string * string);
    chunk_num : Z;
    total_processed : Z;
    database : Database }.

(** [save_chunk] with the line it logs. *)
Definition save_chunk_logging (chunk : list (string * string)) (num : Z) (db : Database)
  : M (bool * Database) :=
  let saved := save_chunk chunk db in
  (if fst saved
   then print ("Saved chunk " +:+ Py.str_of_Z num +:+ " with "
                 +:+ Py.str_of_Z (Z.of_nat (length chunk)) +:+ " associations")
   else print ("Failed to save chunk " +:+ Py.str_of_Z num
                 +:+ ": no such table: DiseaseCompounds"))
  >> ret saved.

Section Mapping.

Variable net : string -> nat -> outcome.
Variable rnd : nat -> Q.
Variable chunk_size : Z.

(** [current_chunk.append(...)] and the flush of a full chunk. *)
Definition append_pair (st : mapping_state) (pair : string * string) : M mapping_state :=
  let chunk := current_chunk st ++ [pair] in
  if chunk_size <=? Z.of_nat (length chunk)
  then
    let num := chunk_num st + 1 in
    let* saved := save_chunk_logging chunk num (database st) in
    let processed := total_processed st + Z.of_nat (length chunk) in
    (if num mod 10 =? 0
     then print ("Processed " +:+ Py.str_of_Z processed +:+ " associations...")
     else ret tt)
    >> ret {| current_chunk := []; chunk_num := num;
              total_processed := processed; database := snd saved |}
  else ret {| current_chunk := chunk; chunk_num := chunk_num st;
              total_processed := total_processed st; database := database st |}.

(** [for disease_id, pathways in disease_pathways.items()] *)
Fixpoint disease_loop (hsa_pathway_id compound_id : string) (items : pathway_dict)
  (st : mapping_state) : M mapping_state :=
  match items with
  | [] => ret st
  | (disease_id, pathways) :: rest =>
      let* st := (if bool_decide (hsa_pathway_id ∈ pathways)
                  then append_pair st (disease_id, compound_id)
                  else ret st) in
      disease_loop hsa_pathway_id compound_id rest st
  end.

(** The body of [for ln in cp.text.splitlines()]. *)
Definition link_line (disease_pathways : pathway_dict) (st : mapping_state) (ln : string)
  : M mapping_state :=
  match Py.split TAB ln with
  | [pathway_id; compound_id] =>
      let compound_id := if Py.startswith compound_id "cpd:"
                         then Py.drop 4 compound_id else compound_id in
      if Py.startswith pathway_id "path:map"
      then
        let map_num := Py.drop 8 pathway_id in
        let hsa_pathway_id := "path:hsa" +:+ map_num in
        disease_loop hsa_pathway_id compound_id disease_pathways st
      else ret st
  | _ => ret st
  end.

Fixpoint link_lines (disease_pathways : pathway_dict) (lines : list string)
  (st : mapping_state) : M mapping_state :=
  match lines with
  | [] => ret st
  | ln :: rest =>
      let* st := link_line disease_pathways st ln in
      link_lines disease_pathways rest st
  end.

(** [if current_chunk: ...] after the loop. *)
Definition save_remaining (st : mapping_state) : M mapping_state :=
  match current_chunk st with
  | [] => ret st
  | _ :: _ =>
      let num := chunk_num st + 1 in
      let* saved := save_chunk_logging (current_chunk st) num (database st) in
      ret {| current_chunk := current_chunk st; chunk_num := num;
             total_processed := total_processed st + Z.of_nat (length (current_chunk st));
             database := snd saved |}
  end.

(** [get_disease_compounds] for what the connection does ([connecting])
    and for what the [SELECT] on [DiseasePathways] gives, rows or an
    exception: the list returned, which is always empty, and the database
    afterwards.  The connection is opened before the [try], so its
    exception is not handled.  Inside the [try] an exception can only come
    from before the first chunk, so the handler hands back the database as
    it was. *)
Definition get_disease_compounds_sized (connecting : option exn)
  (selected : result (list (string * string)))
  (db : Database) : M (list (string * string) * Database) :=
  get_db_connection connecting >>
  try_except
    (print "Getting disease-pathway mappings from database..." >>
     match selected with
     | Raised e => raise e
     | Ok fetched =>
         let disease_pathways := read_mappings fetched in
         print ("Found " +:+ Py.str_of_Z (Z.of_nat (length disease_pathways))
                  +:+ " diseases with pathway mappings") >>
         print "Fetching compound-pathway links from KEGG..." >>
         let* cp := request_with_retry net rnd "https://rest.kegg.jp/link/compound/pathway" 20 1 in
         if negb (response_truthy cp)
         then print "Failed to fetch compound-pathway data" >> ret ([], db)
         else
           let* st := link_lines disease_pathways (splitlines (response_text cp))
                        {| current_chunk := []; chunk_num := 0;
                           total_processed := 0; database := db |} in
           let* st := save_remaining st in
           print ("Total processed: " +:+ Py.str_of_Z (total_processed st)
                    +:+ " disease-compound links") >>
           ret ([], database st)
     end)
    (fun e => print ("Error getting disease-compounds: " +:+ exn_str e) >> ret ([], db)).

End Mapping.

Definition get_disease_compounds (net : string -> nat -> outcome) (rnd : nat -> Q)
  : option exn -> result (list (string * string)) -> Database
    -> M (list (string * string) * Database) :=
  get_disease_compounds_sized net rnd 50000.

(** The pairs the loops of [get_disease_compounds] append, in order. *)
Definition line_associations (disease_pathways : pathway_dict) (ln : string)
  : list (string * string) :=
  match Py.split TAB ln with
  | [pathway_id; compound_id] =>
      if Py.startswith pathway_id "path:map"
      then map (fun item => (fst item,
                             if Py.startswith compound_id "cpd:"
                             then Py.drop 4 compound_id else compound_id))
             (List.filter
                (fun item => bool_decide ("path:hsa" +:+ Py.drop 8 pathway_id ∈ snd item))
                disease_pathways)
      else []
  | _ => []
  end.

Definition associations (disease_pathways : pathway_dict) (lines : list string)
  : list (string * string) :=
  flat_map (line_associations disease_pathways) lines.






(** A file system in which every file can be written. *)
Definition writable : string -> option exn := fun _ => None.

(** A server for the mapping examples: every request is answered with
    two links of the glycolysis map. *)
Definition link_server : string -> nat -> outcome :=
  fun _ _ =>
    Answers {| status_code := 200;
               text := "path:map00010" +:+ String TAB "cpd:C00022" +:+ NL
                       +:+ "path:map00010" +:+ String TAB "cpd:C00031" +:+ NL |}.

(** *** getSMILESforDrugsAndCompounds.py: the per-item processors *)

(** The two structure tables of the database. *)
Record structure_tables : Type :=
  { DrugStructures : structures; CompoundStructures : structures }.

(** The loop of [get_smiles_from_pubchem], which stops at the first line
    holding [PubChem:] and indexes the split without a test. *)
Fixpoint first_pubchem (lines : list string) : result (option string) :=
  match lines with
  | [] => Ok None
  | ln :: rest =>
      if contains "PubChem:" ln
      then match split_str "PubChem:" ln with
           | _ :: field :: _ => Ok (Some (Py.strip field))
           | _ => Raised (IndexError "list index out of range")
           end
      else first_pubchem rest
  end.

Section Processors.

Variable net : string -> nat -> outcome.
Variable rnd : nat -> Q.
Variable os_path_join : string -> string -> string.
Variable open_error : string -> option exn.

(** RDKit: [Chem.MolToSmiles(Chem.MolFromMolFile(...))] on the content of
    a file, [Ok None] when no molecule is read, or the exception raised. *)
Variable rdkit_smiles : string -> result (option string).

(** pubchempy: the [canonical_smiles] of the compounds
    [pcp.get_compounds(cid, 'cid')] returns, or the exception raised. *)
Variable pcp_get_compounds : string -> result (list (option string)).

(** The characters between [MOL] and [SMILES] in the message logged by
    [mol_to_smiles], which are not ASCII. *)
Variable arrow : string.

(** What [sqlite3.connect] and the [INSERT] raise, if anything. *)
Variable connecting : option exn.
Variable executing : option exn.

Definition mol_to_smiles (mol_file : string) (files : gmap string string)
  : M (option string) :=
  let converted := match files !! mol_file with
                   | Some content => rdkit_smiles content
                   | None => Raised (Exception ("Bad input file " +:+ mol_file))
                   end in
  match converted with
  | Ok smiles => ret smiles
  | Raised e =>
      print ("MOL" +:+ arrow +:+ "SMILES error " +:+ mol_file +:+ ": " +:+ exn_str e)
      >> ret None
  end.

Definition get_smiles_from_pubchem (kegg_id : string) : M (option string) :=
  let* resp := request_with_retry net rnd ("https://rest.kegg.jp/get/" +:+ kegg_id) 20 1 in
  if negb (response_truthy resp) then ret None
  else
    match first_pubchem (splitlines (response_text resp)) with
    | Raised e => raise e
    | Ok pubchem_id =>
        if some_text pubchem_id
        then
          match pcp_get_compounds (match pubchem_id with Some c => c | None => EmptyString end)
          with
          | Ok (compound :: _) => ret compound
          | Ok [] => ret None
          | Raised e =>
              print ("PubChem lookup failed for "
                       +:+ (match pubchem_id with Some c => c | None => EmptyString end)
                       +:+ ": " +:+ exn_str e)
              >> ret None
          end
        else ret None
    end.

(** The body shared by [process_drug] and [process_compound], up to the
    insertion: the files afterwards and the structure found. *)
Definition find_structure (entry_id : string) (files : gmap string string)
  : M (gmap string string * option string) :=
  let* fetched := get_mol_file net rnd os_path_join open_error entry_id files in
  let mf := fst fetched in
  let files := snd fetched in
  let* sm := (if some_text mf
              then mol_to_smiles (match mf with Some f => f | None => EmptyString end) files
              else ret None) in
  let* sm := (if negb (some_text sm) then get_smiles_from_pubchem entry_id else ret sm) in
  ret (files, sm).

(** [process_drug]; the connection is opened before the [try], which has
    a [finally] that closes it and no [except]: an exception of the body
    goes on to the caller. *)
Definition process_drug (drug_id : string) (files : gmap string string)
  (tables : structure_tables) : M (gmap string string * structure_tables) :=
  get_db_connection connecting >>
  let* found := find_structure drug_id files in
  match snd found with
  | Some sm =>
      if Py.truthy sm
      then
        let* inserted := insert_drug_structures executing (DrugStructures tables)
                           drug_id sm in
        ret (fst found,
             {| DrugStructures := fst inserted;
                CompoundStructures := CompoundStructures tables |})
      else ret (fst found, tables)
  | None => ret (fst found, tables)
  end.

Definition process_compound (comp_id : string) (files : gmap string string)
  (tables : structure_tables) : M (gmap string string * structure_tables) :=
  get_db_connection connecting >>
  let* found := find_structure comp_id files in
  match snd found with
  | Some sm =>
      if Py.truthy sm
      then
        let* inserted := insert_compound_structures executing (CompoundStructures tables)
                           comp_id sm in
        ret (fst found,
             {| DrugStructures := DrugStructures tables;
                CompoundStructures := fst inserted |})
      else ret (fst found, tables)
  | None => ret (fst found, tables)
  end.

End Processors.

(** A converter for the examples: every file is the molecule [O]. *)
Definition water_converter : string -> result (option string) :=
  fun _ => Ok (Some "O").

Definition no_compounds : string -> result (list (option string)) :=
  fun _ => Ok [].

(** * Properties *)

Lemma Qltb_true x y : Qltb x y = true <-> (x < y)%Q.
Proof.
  unfold Qltb. rewrite negb_true_iff, <- not_true_iff_false, Qle_bool_iff.
  split; [apply Qnot_le_lt | apply Qlt_not_le].
Qed.

Lemma Qltb_false x y : Qltb x y = false <-> (y <= x)%Q.
Proof. unfold Qltb. rewrite negb_false_iff. apply Qle_bool_iff. Qed.

Lemma Qmin_py_cases a b :
  ((b < a)%Q /\ Qmin_py a b = b) \/ ((a <= b)%Q /\ Qmin_py a b = a).
Proof.
  unfold Qmin_py. destruct (Qltb b a) eqn:E.
  - left. split; [now apply Qltb_true | reflexivity].
  - right. split; [now apply Qltb_false | reflexivity].
Qed.

Lemma uniform_of_window a b r :
  (a <= b)%Q -> (0 <= r < 1)%Q ->
  (a <= uniform_of a b r)%Q /\ (a < b -> uniform_of a b r < b)%Q.
Proof. unfold uniform_of. intros Hab [H0 H1]. split; [nra | intros; nra]. Qed.

Lemma retry_delay_nonneg d0 r :
  (0 <= d0)%Q -> (0 <= r)%Q -> Qltb (retry_delay d0 (uniform_of 0 1 r)) 0 = false.
Proof.
  intros Hd Hr. apply Qltb_false. unfold retry_delay, uniform_of.
  destruct (Qmin_py_cases (d0 + (0 + (1 - 0) * r)) 60) as [[_ ->] | [_ ->]]; lra.
Qed.

Lemma request_delay_nonneg d0 r :
  (0 <= d0)%Q -> (0 <= r)%Q -> Qltb (request_delay d0 (uniform_of (1 # 10) 1 r)) 0 = false.
Proof.
  intros Hd Hr. apply Qltb_false. unfold request_delay, uniform_of. lra.
Qed.

Section RetryFacts.

Variable net : string -> nat -> outcome.
Variable rnd : nat -> Q.
Hypothesis rnd_unit : forall i, (0 <= rnd i < 1)%Q.

Lemma make_request_attempt_fails url mr a w :
  fails_plain (net url (length (requests w))) = true ->
  exists line, make_request_attempt net url mr a w
               = (Ok None, add_stdout line (add_request url w)).
Proof.
  intros Hf. unfold make_request_attempt, try_except, bind, requests_get, print, ret.
  destruct (net url (length (requests w))) as [r | e]; simpl in Hf |- *.
  - apply negb_true_iff in Hf. rewrite Hf. eauto.
  - eauto.
Qed.

Lemma make_request_attempt_succeeds url mr a w r :
  net url (length (requests w)) = Answers r -> status_code r = 200 ->
  make_request_attempt net url mr a w = (Ok (Some r), add_request url w).
Proof.
  intros Hn Hs. unfold make_request_attempt, try_except, bind, requests_get.
  rewrite Hn, Hs. reflexivity.
Qed.

Lemma retry_delays_S d0 r0 n :
  retry_delays rnd d0 r0 (S n)
  = retry_delay d0 (uniform_of 0 1 (rnd r0)) :: retry_delays rnd d0 (S r0) n.
Proof.
  unfold retry_delays. simpl. rewrite Nat.add_0_r. f_equal.
  rewrite <- seq_shift, map_map. apply map_ext. intros i.
  now rewrite Nat.add_succ_r.
Qed.

Lemma after_attempts_step w w1 w' url n d delays :
  requests w1 = requests w ++ [url] ->
  sleeps w1 = sleeps w ++ [d] ->
  randoms w1 = S (randoms w) ->
  rate_limiter w1 = rate_limiter w ->
  after_attempts w1 w' url n delays ->
  after_attempts w w' url (S n) (d :: delays).
Proof.
  intros Hr Hs Hn Hl (Hr' & Hs' & Hn' & Hl'). unfold after_attempts, issued, slept in *.
  rewrite Hr', Hs', Hn', Hl', Hr, Hs, Hn, Hl. simpl.
  rewrite <- !app_assoc. simpl. repeat split; try reflexivity. lia.
Qed.

Lemma make_request_loop_all_fail url mr d0 attempts : forall w,
  (0 <= d0)%Q ->
  (forall i, (i < length attempts)%nat ->
             fails_plain (net url (length (requests w) + i)) = true) ->
  exists w', make_request_loop net rnd url mr d0 attempts w = (Ok None, w')
             /\ after_attempts w w' url (length attempts)
                  (retry_delays rnd d0 (randoms w) (length attempts)).
Proof.
  induction attempts as [| a rest IH]; intros w Hd Hf.
  - exists w. split; [reflexivity |].
    unfold after_attempts, issued, slept. simpl. rewrite !app_nil_r.
    repeat split; lia.
  - destruct (make_request_attempt_fails url mr a w) as [line Hstep].
    { rewrite <- (Nat.add_0_r (length (requests w))). apply Hf. simpl. lia. }
    set (w1 := add_stdout line (add_request url w)) in *.
    set (d := retry_delay d0 (uniform_of 0 1 (rnd (randoms w)))).
    set (w2 := add_sleep d (next_random w1)).
    destruct (IH w2 Hd) as (w' & Hrun & Hafter).
    { intros i Hi. replace (length (requests w2) + i)%nat
        with (length (requests w) + S i)%nat.
      - apply Hf. simpl. lia.
      - subst w2 w1. simpl. rewrite length_app. simpl. lia. }
    exists w'. split.
    + cbn [make_request_loop]. unfold bind at 1. rewrite Hstep.
      unfold bind, random_uniform, sleep. fold w1. cbn [randoms next_random].
      replace (randoms w1) with (randoms w) by reflexivity.
      rewrite (retry_delay_nonneg d0 _ Hd (proj1 (rnd_unit _))).
      exact Hrun.
    + cbn [length]. rewrite retry_delays_S.
      eapply after_attempts_step; [ | | | | exact Hafter]; reflexivity.
Qed.

Lemma make_request_loop_success url mr d0 r attempts : forall j w,
  (0 <= d0)%Q ->
  (j < length attempts)%nat ->
  (forall i, (i < j)%nat -> fails_plain (net url (length (requests w) + i)) = true) ->
  net url (length (requests w) + j) = Answers r ->
  status_code r = 200 ->
  exists w', make_request_loop net rnd url mr d0 attempts w = (Ok (Some r), w')
             /\ after_attempts w w' url (S j) (retry_delays rnd d0 (randoms w) j).
Proof.
  induction attempts as [| a rest IH]; intros j w Hd Hj Hf Hn Hs; [simpl in Hj; lia |].
  destruct j as [| j].
  - rewrite Nat.add_0_r in Hn.
    exists (add_request url w). split.
    + cbn [make_request_loop]. unfold bind.
      rewrite (make_request_attempt_succeeds url mr a w r Hn Hs). reflexivity.
    + unfold after_attempts, issued, slept. simpl. rewrite app_nil_r.
      repeat split; lia.
  - destruct (make_request_attempt_fails url mr a w) as [line Hstep].
    { rewrite <- (Nat.add_0_r (length (requests w))). apply Hf. lia. }
    set (w1 := add_stdout line (add_request url w)) in *.
    set (d := retry_delay d0 (uniform_of 0 1 (rnd (randoms w)))).
    set (w2 := add_sleep d (next_random w1)).
    assert (Hlen : forall i, (length (requests w2) + i = length (requests w) + S i)%nat).
    { intros i. subst w2 w1. simpl. rewrite length_app. simpl. lia. }
    destruct (IH j w2 Hd) as (w' & Hrun & Hafter).
    { simpl in Hj. lia. }
    { intros i Hi. rewrite Hlen. apply Hf. lia. }
    { rewrite Hlen. exact Hn. }
    { exact Hs. }
    exists w'. split.
    + cbn [make_request_loop]. unfold bind at 1. rewrite Hstep.
      unfold bind, random_uniform, sleep. fold w1. cbn [randoms next_random].
      replace (randoms w1) with (randoms w) by reflexivity.
      rewrite (retry_delay_nonneg d0 _ Hd (proj1 (rnd_unit _))).
      exact Hrun.
    + rewrite retry_delays_S.
      eapply after_attempts_step; [ | | | | exact Hafter]; reflexivity.
Qed.

Lemma length_range_from a b : length (Py.range_from a b) = Z.to_nat (b - a).
Proof. unfold Py.range_from. now rewrite length_map, length_seq. Qed.

Lemma after_attempts_stdout w w' url n delays line :
  after_attempts w w' url n delays ->
  after_attempts w (add_stdout line w') url n delays.
Proof. unfold after_attempts, issued, slept. simpl. tauto. Qed.

(** [make_request_with_retry]: the first 200 is returned at once. *)
Lemma make_request_with_retry_success url mr d0 r j w :
  (0 <= d0)%Q ->
  Z.of_nat j < mr ->
  (forall i, (i < j)%nat -> fails_plain (net url (length (requests w) + i)) = true) ->
  net url (length (requests w) + j) = Answers r ->
  status_code r = 200 ->
  exists w', make_request_with_retry net rnd url mr d0 w = (Ok (Some r), w')
             /\ after_attempts w w' url (S j) (retry_delays rnd d0 (randoms w) j).
Proof.
  intros Hd Hj Hf Hn Hs.
  destruct (make_request_loop_success url mr d0 r (Py.range mr) j w Hd)
    as (w' & Hrun & Hafter); try assumption.
  { unfold Py.range. rewrite length_range_from. lia. }
  exists w'. split; [| exact Hafter].
  unfold make_request_with_retry, bind. now rewrite Hrun.
Qed.

(** [make_request_with_retry]: when every attempt fails, all of
    [range(max_retries)] is used up and [None] comes back. *)
Lemma make_request_with_retry_exhausts url mr d0 w :
  (0 <= d0)%Q ->
  (forall i, (i < Z.to_nat mr)%nat ->
             fails_plain (net url (length (requests w) + i)) = true) ->
  exists w', make_request_with_retry net rnd url mr d0 w = (Ok None, w')
             /\ after_attempts w w' url (Z.to_nat mr)
                  (retry_delays rnd d0 (randoms w) (Z.to_nat mr)).
Proof.
  intros Hd Hf.
  assert (Hlen : length (Py.range mr) = Z.to_nat mr).
  { unfold Py.range. rewrite length_range_from. f_equal. lia. }
  destruct (make_request_loop_all_fail url mr d0 (Py.range mr) w Hd)
    as (w' & Hrun & Hafter).
  { rewrite Hlen. exact Hf. }
  rewrite Hlen in Hafter.
  eexists. split.
  - unfold make_request_with_retry, bind. rewrite Hrun. unfold print. reflexivity.
  - now apply after_attempts_stdout.
Qed.

(** The same for the helper of the SMILES script. *)

Lemma request_attempt_fails url a w :
  fails_or_blank (net url (length (requests w))) = true ->
  exists line, request_attempt net url a w
               = (Ok None, add_stdout line (add_request url w)).
Proof.
  intros Hf. unfold request_attempt, try_except, bind, requests_get, print, ret.
  destruct (net url (length (requests w))) as [r | e]; simpl in Hf |- *.
  - apply negb_true_iff in Hf. rewrite Hf. eauto.
  - eauto.
Qed.

Lemma request_attempt_succeeds url a w r :
  net url (length (requests w)) = Answers r ->
  status_code r = 200 -> Py.strip (text r) <> EmptyString ->
  exists line, request_attempt net url a w
               = (Ok (Some r), add_stdout line (add_request url w)).
Proof.
  intros Hn Hs Hb. unfold request_attempt, try_except, bind, requests_get, print, ret.
  rewrite Hn, Hs. simpl.
  destruct (Py.strip (text r)); [congruence |]. simpl. eauto.
Qed.

Lemma request_delays_S d0 r0 n :
  request_delays rnd d0 r0 (S n)
  = request_delay d0 (uniform_of (1 # 10) 1 (rnd r0)) :: request_delays rnd d0 (S r0) n.
Proof.
  unfold request_delays. simpl. rewrite Nat.add_0_r. f_equal.
  rewrite <- seq_shift, map_map. apply map_ext. intros i.
  now rewrite Nat.add_succ_r.
Qed.

Lemma request_loop_all_fail url d0 attempts : forall w,
  (0 <= d0)%Q ->
  (forall i, (i < length attempts)%nat ->
             fails_or_blank (net url (length (requests w) + i)) = true) ->
  exists w', request_loop net rnd url d0 attempts w = (Ok None, w')
             /\ after_attempts w w' url (length attempts)
                  (request_delays rnd d0 (randoms w) (length attempts)).
Proof.
  induction attempts as [| a rest IH]; intros w Hd Hf.
  - exists w. split; [reflexivity |].
    unfold after_attempts, issued, slept. simpl. rewrite !app_nil_r.
    repeat split; lia.
  - destruct (request_attempt_fails url a w) as [line Hstep].
    { rewrite <- (Nat.add_0_r (length (requests w))). apply Hf. simpl. lia. }
    set (w1 := add_stdout line (add_request url w)) in *.
    set (d := request_delay d0 (uniform_of (1 # 10) 1 (rnd (randoms w)))).
    set (w2 := add_sleep d (next_random w1)).
    destruct (IH w2 Hd) as (w' & Hrun & Hafter).
    { intros i Hi. replace (length (requests w2) + i)%nat
        with (length (requests w) + S i)%nat.
      - apply Hf. simpl. lia.
      - subst w2 w1. simpl. rewrite length_app. simpl. lia. }
    exists w'. split.
    + cbn [request_loop]. unfold bind at 1. rewrite Hstep.
      unfold bind, random_uniform, sleep. fold w1. cbn [randoms next_random].
      replace (randoms w1) with (randoms w) by reflexivity.
      rewrite (request_delay_nonneg d0 _ Hd (proj1 (rnd_unit _))).
      exact Hrun.
    + cbn [length]. rewrite request_delays_S.
      eapply after_attempts_step; [ | | | | exact Hafter]; reflexivity.
Qed.

Lemma request_loop_success url d0 r attempts : forall j w,
  (0 <= d0)%Q ->
  (j < length attempts)%nat ->
  (forall i, (i < j)%nat -> fails_or_blank (net url (length (requests w) + i)) = true) ->
  net url (length (requests w) + j) = Answers r ->
  status_code r = 200 -> Py.strip (text r) <> EmptyString ->
  exists w', request_loop net rnd url d0 attempts w = (Ok (Some r), w')
             /\ after_attempts w w' url (S j) (request_delays rnd d0 (randoms w) j).
Proof.
  induction attempts as [| a rest IH]; intros j w Hd Hj Hf Hn Hs Hb; [simpl in Hj; lia |].
  destruct j as [| j].
  - rewrite Nat.add_0_r in Hn.
    destruct (request_attempt_succeeds url a w r Hn Hs Hb) as [line Hstep].
    eexists. split.
    + cbn [request_loop]. unfold bind. rewrite Hstep. reflexivity.
    + unfold after_attempts, issued, slept. simpl. rewrite app_nil_r.
      repeat split; lia.
  - destruct (request_attempt_fails url a w) as [line Hstep].
    { rewrite <- (Nat.add_0_r (length (requests w))). apply Hf. lia. }
    set (w1 := add_stdout line (add_request url w)) in *.
    set (d := request_delay d0 (uniform_of (1 # 10) 1 (rnd (randoms w)))).
    set (w2 := add_sleep d (next_random w1)).
    assert (Hlen : forall i, (length (requests w2) + i = length (requests w) + S i)%nat).
    { intros i. subst w2 w1. simpl. rewrite length_app. simpl. lia. }
    destruct (IH j w2 Hd) as (w' & Hrun & Hafter).
    { simpl in Hj. lia. }
    { intros i Hi. rewrite Hlen. apply Hf. lia. }
    { rewrite Hlen. exact Hn. }
    { exact Hs. }
    { exact Hb. }
    exists w'. split.
    + cbn [request_loop]. unfold bind at 1. rewrite Hstep.
      unfold bind, random_uniform, sleep. fold w1. cbn [randoms next_random].
      replace (randoms w1) with (randoms w) by reflexivity.
      rewrite (request_delay_nonneg d0 _ Hd (proj1 (rnd_unit _))).
      exact Hrun.
    + rewrite request_delays_S.
      eapply after_attempts_step; [ | | | | exact Hafter]; reflexivity.
Qed.

Lemma request_with_retry_success url mr d0 r j w :
  (0 <= d0)%Q ->
  Z.of_nat j < mr ->
  (forall i, (i < j)%nat -> fails_or_blank (net url (length (requests w) + i)) = true) ->
  net url (length (requests w) + j) = Answers r ->
  status_code r = 200 -> Py.strip (text r) <> EmptyString ->
  exists w', request_with_retry net rnd url mr d0 w = (Ok (Some r), w')
             /\ after_attempts w w' url (S j) (request_delays rnd d0 (randoms w) j).
Proof.
  intros Hd Hj Hf Hn Hs Hb.
  destruct (request_loop_success url d0 r (Py.range_from 1 (mr + 1)) j w Hd)
    as (w' & Hrun & Hafter); try assumption.
  { rewrite length_range_from. lia. }
  exists w'. split; [| exact Hafter].
  unfold request_with_retry, bind. now rewrite Hrun.
Qed.

Lemma request_with_retry_exhausts url mr d0 w :
  (0 <= d0)%Q ->
  (forall i, (i < Z.to_nat mr)%nat ->
             fails_or_blank (net url (length (requests w) + i)) = true) ->
  exists w', request_with_retry net rnd url mr d0 w = (Ok None, w')
             /\ after_attempts w w' url (Z.to_nat mr)
                  (request_delays rnd d0 (randoms w) (Z.to_nat mr)).
Proof.
  intros Hd Hf.
  assert (Hlen : length (Py.range_from 1 (mr + 1)) = Z.to_nat mr).
  { rewrite length_range_from. f_equal. lia. }
  destruct (request_loop_all_fail url d0 (Py.range_from 1 (mr + 1)) w Hd)
    as (w' & Hrun & Hafter).
  { rewrite Hlen. exact Hf. }
  rewrite Hlen in Hafter.
  eexists. split.
  - unfold request_with_retry, bind. rewrite Hrun. unfold print. reflexivity.
  - now apply after_attempts_stdout.
Qed.

End RetryFacts.

Lemma half_unit : forall i, (0 <= half i < 1)%Q.
Proof. intros i. unfold half. split; [discriminate | reflexivity]. Qed.

Lemma request_attempt_some net url a w r w' :
  request_attempt net url a w = (Ok (Some r), w') ->
  status_code r = 200 /\ Py.strip (text r) <> EmptyString.
Proof.
  unfold request_attempt, try_except, bind, requests_get, print, ret.
  destruct (net url (length (requests w))) as [r0 | e]; [| discriminate].
  destruct (status_code r0 =? 200) eqn:Es; simpl; [| discriminate].
  destruct (Py.strip (text r0)) eqn:Eb; simpl; [discriminate |].
  intros H. injection H as <- _. split; [now apply Z.eqb_eq | now rewrite Eb].
Qed.

Lemma request_loop_some net rnd url pause attempts : forall w r w',
  request_loop net rnd url pause attempts w = (Ok (Some r), w') ->
  status_code r = 200 /\ Py.strip (text r) <> EmptyString.
Proof.
  induction attempts as [| a rest IH]; intros w r w'; [discriminate |].
  cbn [request_loop]. unfold bind at 1.
  destruct (request_attempt net url a w) as [[[r0 |] | e] w1] eqn:Ea.
  - unfold ret. intros H. injection H as <- _. eapply request_attempt_some, Ea.
  - unfold bind, random_uniform, sleep.
    destruct (Qltb _ 0); [discriminate |]. apply IH.
  - discriminate.
Qed.

(** C10 — the SMILES-script helper hands back a response only when its
    status is 200 and its body is not blank; against a server that answers
    every attempt with 200 and a blank body it counts each answer as a
    failure, makes all [max_retries] attempts and returns [None]. *)
Theorem request_with_retry_needs_body
  (net : string -> nat -> outcome) (rnd : nat -> Q) (url : string)
  (max_retries : Z) (pause : Q) (w : World) :
  (forall resp w',
      request_with_retry net rnd url max_retries pause w = (Ok (Some resp), w') ->
      status_code resp = 200 /\ Py.strip (text resp) <> EmptyString)
  /\ ((forall i, (0 <= rnd i < 1)%Q) -> (0 <= pause)%Q ->
      (forall n, exists resp, net url n = Answers resp /\ status_code resp = 200
                              /\ Py.strip (text resp) = EmptyString) ->
      (forall n, fails_or_blank (net url n) = true)
      /\ exists w', request_with_retry net rnd url max_retries pause w = (Ok None, w')
                    /\ issued w w' (repeat url (Z.to_nat max_retries))).
Proof.
  split.
  - intros resp w'. unfold request_with_retry, bind.
    destruct (request_loop net rnd url pause _ w) as [[[r0 |] | e] w1] eqn:El;
      unfold ret, print; try discriminate.
    intros H. injection H as <- _. eapply request_loop_some, El.
  - intros Hrnd Hp Hblank.
    assert (Hf : forall n, fails_or_blank (net url n) = true).
    { intros n. destruct (Hblank n) as (resp & -> & Hs & Hb). simpl.
      rewrite Hs, Hb. reflexivity. }
    split; [exact Hf |].
    destruct (request_with_retry_exhausts net rnd Hrnd url max_retries pause w Hp)
      as (w' & Hrun & Hafter & _).
    { intros i _. apply Hf. }
    exists w'. split; assumption.
Qed.

Lemma request_with_retry_needs_body_witness :
  (status_code ok_response = 200 /\ Py.strip (text ok_response) <> EmptyString)
  /\ exists w', request_with_retry blank_server half "https://rest.kegg.jp/get/D00001/mol" 3 1 world0
                = (Ok None, w')
                /\ issued world0 w' (repeat "https://rest.kegg.jp/get/D00001/mol" 3).
Proof.
  split.
  - eapply (proj1 (request_with_retry_needs_body (flaky_server 1 ok_response) half
                     "https://rest.kegg.jp/get/D00001/mol" 3 1 world0)).
    vm_compute. reflexivity.
  - destruct (request_with_retry_needs_body blank_server half
                "https://rest.kegg.jp/get/D00001/mol" 3 1 world0) as [_ H].
    destruct (H half_unit) as [_ (w' & Hrun & Hiss)].
    + discriminate.
    + intros n. exists blank_response. repeat split; reflexivity.
    + exists w'. split; [exact Hrun | exact Hiss].
Defined.

Lemma fails_plain_or_blank o : fails_plain o = true -> fails_or_blank o = true.
Proof.
  destruct o as [r | e]; simpl; [| trivial].
  intros H. apply negb_true_iff in H. now rewrite H.
Qed.

(** C1, as stated, fails for the SMILES-script helper: the first attempt
    is answered with status 200, yet the helper does not return that
    response, because its body is blank. *)
Lemma blank_200_is_not_returned :
  blank_server "https://rest.kegg.jp/get/D00001/mol" 0 = Answers blank_response
  /\ status_code blank_response = 200
  /\ (1 <= 3)%Z
  /\ fst (request_with_retry blank_server half "https://rest.kegg.jp/get/D00001/mol" 3 1 world0)
     = Ok None.
Proof. repeat split; try reflexivity. discriminate. Qed.

(** C1 (amended) — [make_request_with_retry] returns the response of
    attempt [k] when the attempts before it fail (status other than 200, or
    an exception) and attempt [k] has status 200; [request_with_retry] does
    so when attempt [k] also has a body that is not blank, a blank 200
    counting as a failure.  When all [max_retries] attempts fail, either
    helper makes exactly [max_retries] requests and returns [None].  The
    base delay is not negative. *)
Theorem retry_helpers_first_success_or_none
  (net : string -> nat -> outcome) (rnd : nat -> Q) (url : string)
  (max_retries : Z) (delay : Q) (w : World) :
  (forall i, (0 <= rnd i < 1)%Q) -> (0 <= delay)%Q ->
  (forall (k : nat) (resp : Response),
      (1 <= k)%nat -> Z.of_nat k <= max_retries ->
      net url (length (requests w) + (k - 1))%nat = Answers resp ->
      status_code resp = 200 ->
      ((forall i, (i < k - 1)%nat ->
                  fails_plain (net url (length (requests w) + i)%nat) = true) ->
       exists w', make_request_with_retry net rnd url max_retries delay w
                  = (Ok (Some resp), w')
                  /\ issued w w' (repeat url k))
      /\ ((forall i, (i < k - 1)%nat ->
                     fails_or_blank (net url (length (requests w) + i)%nat) = true) ->
          Py.strip (text resp) <> EmptyString ->
          exists w', request_with_retry net rnd url max_retries delay w
                     = (Ok (Some resp), w')
                     /\ issued w w' (repeat url k)))
  /\ (0 <= max_retries ->
      ((forall i, (i < Z.to_nat max_retries)%nat ->
                  fails_plain (net url (length (requests w) + i)%nat) = true) ->
       exists w' n, make_request_with_retry net rnd url max_retries delay w = (Ok None, w')
                    /\ Z.of_nat n = max_retries /\ issued w w' (repeat url n))
      /\ ((forall i, (i < Z.to_nat max_retries)%nat ->
                     fails_or_blank (net url (length (requests w) + i)%nat) = true) ->
          exists w' n, request_with_retry net rnd url max_retries delay w = (Ok None, w')
                       /\ Z.of_nat n = max_retries /\ issued w w' (repeat url n))).
Proof.
  intros Hrnd Hd. split.
  - intros k resp Hk Hle Hn Hs.
    assert (Hk' : k = S (k - 1)) by lia.
    split.
    + intros Hf.
      destruct (make_request_with_retry_success net rnd Hrnd url max_retries delay
                  resp (k - 1) w Hd) as (w' & Hrun & Hiss & _); try assumption; [lia |].
      exists w'. rewrite Hk'. split; assumption.
    + intros Hf Hb.
      destruct (request_with_retry_success net rnd Hrnd url max_retries delay
                  resp (k - 1) w Hd) as (w' & Hrun & Hiss & _); try assumption; [lia |].
      exists w'. rewrite Hk'. split; assumption.
  - intros Hm. split; intros Hf.
    + destruct (make_request_with_retry_exhausts net rnd Hrnd url max_retries delay w Hd Hf)
        as (w' & Hrun & Hiss & _).
      exists w', (Z.to_nat max_retries). repeat split; [assumption | lia | assumption].
    + destruct (request_with_retry_exhausts net rnd Hrnd url max_retries delay w Hd Hf)
        as (w' & Hrun & Hiss & _).
      exists w', (Z.to_nat max_retries). repeat split; [assumption | lia | assumption].
Qed.

Lemma retry_helpers_first_success_or_none_witness :
  (exists w', make_request_with_retry (flaky_server 2 ok_response) half
                "https://rest.kegg.jp/get/H00001" 20 1 world0 = (Ok (Some ok_response), w')
              /\ issued world0 w' (repeat "https://rest.kegg.jp/get/H00001" 3))
  /\ (exists w', request_with_retry (flaky_server 2 ok_response) half
                   "https://rest.kegg.jp/get/H00001" 20 1 world0 = (Ok (Some ok_response), w')
                 /\ issued world0 w' (repeat "https://rest.kegg.jp/get/H00001" 3))
  /\ (exists w' n, make_request_with_retry down_server half
                     "https://rest.kegg.jp/get/H00001" 20 1 world0 = (Ok None, w')
                   /\ Z.of_nat n = 20 /\ issued world0 w' (repeat "https://rest.kegg.jp/get/H00001" n))
  /\ (exists w' n, request_with_retry down_server half
                     "https://rest.kegg.jp/get/H00001" 20 1 world0 = (Ok None, w')
                   /\ Z.of_nat n = 20 /\ issued world0 w' (repeat "https://rest.kegg.jp/get/H00001" n)).
Proof.
  assert (Hd : (0 <= 1)%Q) by discriminate.
  destruct (retry_helpers_first_success_or_none (flaky_server 2 ok_response) half
              "https://rest.kegg.jp/get/H00001" 20 1 world0 half_unit Hd) as [Hok _].
  destruct (Hok 3%nat ok_response) as [H1 H2]; [lia | lia | reflexivity | reflexivity |].
  destruct (retry_helpers_first_success_or_none down_server half
              "https://rest.kegg.jp/get/H00001" 20 1 world0 half_unit Hd) as [_ Hko].
  destruct Hko as [H3 H4]; [lia |].
  split; [| split; [| split]].
  - apply H1. intros i Hi. destruct i as [| [| i]]; [reflexivity | reflexivity | simpl in Hi; lia].
  - apply H2; [| discriminate].
    intros i Hi. destruct i as [| [| i]]; [reflexivity | reflexivity | simpl in Hi; lia].
  - apply H3. intros i _. reflexivity.
  - apply H4. intros i _. reflexivity.
Defined.

Lemma nth_error_map_seq {A} (f : nat -> A) n : forall a i,
  (i < n)%nat -> nth_error (map f (seq a n)) i = Some (f (a + i)%nat).
Proof.
  induction n as [| n IH]; intros a i Hi; [lia |].
  destruct i as [| i]; simpl.
  - now rewrite Nat.add_0_r.
  - rewrite IH by lia. now rewrite Nat.add_succ_r.
Qed.

(** C8 — after a failed attempt, whatever its number, the disease-script
    helper sleeps [min(base + jitter, 60)] with a fresh
    [jitter = random.uniform(0, 1)] in [0,1), and the SMILES-script helper
    sleeps [base + jitter] with a fresh [jitter = random.uniform(0.1, 1.0)]
    in [0.1,1.0) and no cap: the base never grows with the attempts. *)
Theorem retry_delay_is_base_plus_jitter
  (net : string -> nat -> outcome) (rnd : nat -> Q) (url : string)
  (max_retries : Z) (base : Q) (w : World) :
  (forall i, (0 <= rnd i < 1)%Q) -> (0 <= base)%Q ->
  (forall n, fails_plain (net url n) = true) ->
  exists w1 w2 delays1 delays2,
    make_request_with_retry net rnd url max_retries base w = (Ok None, w1)
    /\ slept w w1 delays1 /\ length delays1 = Z.to_nat max_retries
    /\ request_with_retry net rnd url max_retries base w = (Ok None, w2)
    /\ slept w w2 delays2 /\ length delays2 = Z.to_nat max_retries
    /\ forall attempt, (attempt < Z.to_nat max_retries)%nat ->
         let jitter1 := uniform_of 0 1 (rnd (randoms w + attempt)%nat) in
         let jitter2 := uniform_of (1 # 10) 1 (rnd (randoms w + attempt)%nat) in
         nth_error delays1 attempt = Some (Qmin_py (base + jitter1) 60)
         /\ (0 <= jitter1 < 1)%Q
         /\ (Qmin_py (base + jitter1) 60 <= 60)%Q
         /\ (Qmin_py (base + jitter1) 60 < base + 1)%Q
         /\ nth_error delays2 attempt = Some (base + jitter2)%Q
         /\ ((1 # 10) <= jitter2 < 1)%Q
         /\ (60 <= base -> 60 < base + jitter2)%Q.
Proof.
  intros Hrnd Hb Hf.
  destruct (make_request_with_retry_exhausts net rnd Hrnd url max_retries base w Hb)
    as (w1 & Hrun1 & _ & Hs1 & _); [intros; apply Hf |].
  destruct (request_with_retry_exhausts net rnd Hrnd url max_retries base w Hb)
    as (w2 & Hrun2 & _ & Hs2 & _); [intros; apply fails_plain_or_blank, Hf |].
  exists w1, w2, (retry_delays rnd base (randoms w) (Z.to_nat max_retries)),
    (request_delays rnd base (randoms w) (Z.to_nat max_retries)).
  repeat (split; [first [assumption | unfold retry_delays, request_delays;
                                      now rewrite length_map, length_seq] |]).
  intros attempt Ha jitter1 jitter2.
  pose proof (Hrnd (randoms w + attempt)%nat) as [Hr0 Hr1].
  assert (Hj1 : (0 <= jitter1 < 1)%Q) by (subst jitter1; unfold uniform_of; split; lra).
  assert (Hj2 : ((1 # 10) <= jitter2 < 1)%Q) by (subst jitter2; unfold uniform_of; split; lra).
  split; [| split; [| split; [| split; [| split; [| split]]]]].
  - unfold retry_delays. now rewrite nth_error_map_seq.
  - exact Hj1.
  - destruct (Qmin_py_cases (base + jitter1) 60) as [[_ ->] | [H ->]]; lra.
  - destruct (Qmin_py_cases (base + jitter1) 60) as [[H ->] | [_ ->]]; lra.
  - unfold request_delays. now rewrite nth_error_map_seq.
  - exact Hj2.
  - lra.
Qed.

Lemma retry_delay_is_base_plus_jitter_witness :
  exists w1 w2,
    make_request_with_retry down_server half "https://rest.kegg.jp/get/H00001" 3 1 world0
    = (Ok None, w1)
    /\ sleeps w1 = [Qmin_py (1 + uniform_of 0 1 (1 # 2)) 60;
                    Qmin_py (1 + uniform_of 0 1 (1 # 2)) 60;
                    Qmin_py (1 + uniform_of 0 1 (1 # 2)) 60]
    /\ request_with_retry down_server half "https://rest.kegg.jp/get/H00001" 3 1 world0
       = (Ok None, w2)
    /\ sleeps w2 = [(1 + uniform_of (1 # 10) 1 (1 # 2))%Q;
                    (1 + uniform_of (1 # 10) 1 (1 # 2))%Q;
                    (1 + uniform_of (1 # 10) 1 (1 # 2))%Q].
Proof.
  assert (Hd : (0 <= 1)%Q) by discriminate.
  destruct (retry_delay_is_base_plus_jitter down_server half
              "https://rest.kegg.jp/get/H00001" 3 1 world0 half_unit Hd)
    as (w1 & w2 & d1 & d2 & Hr1 & Hs1 & Hl1 & Hr2 & Hs2 & Hl2 & Hall).
  { intros n. reflexivity. }
  exists w1, w2.
  destruct (Hall 0%nat) as (Ha0 & _ & _ & _ & Hb0 & _); [simpl; lia |].
  destruct (Hall 1%nat) as (Ha1 & _ & _ & _ & Hb1 & _); [simpl; lia |].
  destruct (Hall 2%nat) as (Ha2 & _ & _ & _ & Hb2 & _); [simpl; lia |].
  unfold slept in Hs1, Hs2. simpl in Hs1, Hs2.
  destruct d1 as [| x1 [| x2 [| x3 [| ? ?]]]]; try discriminate Hl1.
  destruct d2 as [| y1 [| y2 [| y3 [| ? ?]]]]; try discriminate Hl2.
  simpl in Ha0, Ha1, Ha2, Hb0, Hb1, Hb2.
  injection Ha0 as ->. injection Ha1 as ->. injection Ha2 as ->.
  injection Hb0 as ->. injection Hb1 as ->. injection Hb2 as ->.
  repeat split; assumption.
Defined.

(** ** The section extractors *)

Lemma indented_not_header line :
  Py.startswith line "  " = true -> Py.startswith line "PATHWAY" = false.
Proof.
  destruct line as [| c l]; [discriminate |].
  unfold Py.startswith. cbn [String.prefix].
  destruct (ascii_dec " "%char c) as [<- |]; [| intros H; discriminate H].
  intros _. reflexivity.
Qed.

Lemma extract_step_header acc b line :
  Py.startswith line "PATHWAY" = true ->
  extract_pathways_step (acc, b) line = (acc ++ line_codes line, true).
Proof. intros H. unfold extract_pathways_step. now rewrite H. Qed.

Lemma extract_step_continuation acc line :
  Py.startswith line "  " = true ->
  extract_pathways_step (acc, true) line = (acc ++ line_codes line, true).
Proof.
  intros H. unfold extract_pathways_step.
  now rewrite (indented_not_header line H), H.
Qed.

Lemma extract_step_closing acc b line :
  no_header line -> Py.startswith line "  " = false ->
  extract_pathways_step (acc, b) line = (acc, false).
Proof.
  intros H1 H2. unfold extract_pathways_step.
  rewrite H1, H2, andb_false_r. reflexivity.
Qed.

Lemma extract_outside lines : forall acc,
  Forall no_header lines ->
  fold_left extract_pathways_step lines (acc, false) = (acc, false).
Proof.
  induction lines as [| line rest IH]; intros acc HF; [reflexivity |].
  inversion HF as [| ? ? Hl Hrest]; subst. cbn [fold_left].
  replace (extract_pathways_step (acc, false) line) with (acc, false); [now apply IH |].
  unfold extract_pathways_step. rewrite Hl. simpl.
  now destruct (Py.startswith line "  ").
Qed.

Lemma add_search_first_code pathways part :
  add_search pathways part = first_code part ∪ pathways.
Proof.
  unfold add_search, first_code. destruct part as [| c l]; simpl Py.truthy; cbv iota.
  - change (re.search re.hsa_5digits EmptyString) with (@None string).
    now rewrite union_empty_l_L.
  - destruct (re.search re.hsa_5digits (String c l)); [reflexivity |].
    now rewrite union_empty_l_L.
Qed.

Lemma entry_step_header pathways b line :
  Py.startswith line "PATHWAY" = true ->
  entry_step (pathways, b) line
  = (first_code (Py.strip (Py.delete line "PATHWAY")) ∪ pathways, true).
Proof.
  intros H. unfold entry_step. rewrite H. now rewrite add_search_first_code.
Qed.

Lemma entry_step_continuation pathways line :
  Py.startswith line "  " = true ->
  entry_step (pathways, true) line = (first_code (Py.strip line) ∪ pathways, true).
Proof.
  intros H. unfold entry_step.
  rewrite (indented_not_header line H), H. simpl. now rewrite add_search_first_code.
Qed.

Lemma entry_step_closing pathways b line :
  no_header line -> Py.startswith line "  " = false ->
  entry_step (pathways, b) line = (pathways, false).
Proof.
  intros H1 H2. unfold entry_step. rewrite H1, H2. simpl. now destruct b.
Qed.

Lemma entry_outside lines : forall pathways,
  Forall no_header lines ->
  fold_left entry_step lines (pathways, false) = (pathways, false).
Proof.
  induction lines as [| line rest IH]; intros pathways HF; [reflexivity |].
  inversion HF as [| ? ? Hl Hrest]; subst. cbn [fold_left].
  replace (entry_step (pathways, false) line) with (pathways, false); [now apply IH |].
  unfold entry_step. rewrite Hl, !andb_false_r. reflexivity.
Qed.

(** C3, as stated, fails: the line that closes the section is not
    indented, and the extractor still takes a code from it when that line
    begins with [PATHWAY] itself. *)
Lemma closing_header_is_scanned :
  Py.split LF (join_lines record_lines) = record_lines
  /\ _extract_pathways_from_entry (join_lines record_lines)
     = ["path:hsa04930"; "path:hsa04910"; "path:hsa04911"; "path:hsa04912"; "path:hsa04950"]
  /\ Py.startswith "PATHWAY     hsa04950  Maturity onset diabetes of the young" "  " = false
  /\ re.findall re.hsa_digits "PATHWAY     hsa04930  Type II diabetes mellitus"
     ++ re.findall re.hsa_digits "            hsa04910  Insulin signaling pathway"
     ++ re.findall re.hsa_digits "            hsa04911  Insulin secretion"
     ++ re.findall re.hsa_digits "            hsa04912  GnRH signaling pathway"
     = ["hsa04930"; "hsa04910"; "hsa04911"; "hsa04912"].
Proof. repeat split; vm_compute; reflexivity. Qed.

Lemma split_not_blank (s : string) (lines : list string) :
  Py.split LF s = lines -> (2 <= length lines)%nat -> Py.truthy s = true.
Proof.
  destruct s as [| c s]; [| reflexivity].
  intros <-. cbn. lia.
Qed.

(** [get_disease_pathways] against a server whose two link lists are
    empty: the pathways are those of the scan of the stripped entry. *)
Lemma get_disease_pathways_entry_only
  (net : string -> nat -> outcome) (rnd : nat -> Q) (listing : gset string -> list string)
  (disease_id : string) (entry : Response) (w : World) :
  (forall i, (0 <= rnd i < 1)%Q) ->
  (forall n, net ("https://rest.kegg.jp/link/pathway/" +:+ disease_id) n = Answers no_data) ->
  (forall n, net ("https://rest.kegg.jp/get/" +:+ disease_id) n = Answers entry) ->
  (forall n, net ("https://rest.kegg.jp/link/hsa/" +:+ disease_id) n = Answers no_data) ->
  status_code entry = 200 ->
  Py.truthy (Py.strip (text entry)) = true ->
  exists w',
    get_disease_pathways net rnd listing disease_id w
    = (Ok (listing (fst (fold_left entry_step (Py.split LF (Py.strip (text entry)))
                           (∅, false))), disease_id), w')
    /\ issued w w' [ "https://rest.kegg.jp/link/pathway/" +:+ disease_id;
                     "https://rest.kegg.jp/get/" +:+ disease_id;
                     "https://rest.kegg.jp/link/hsa/" +:+ disease_id ].
Proof.
  intros Hrnd Hlink Hget Hhsa Hstatus Hbody.
  assert (Hd : (0 <= 1)%Q) by discriminate.
  destruct (make_request_with_retry_success net rnd Hrnd
              ("https://rest.kegg.jp/link/pathway/" +:+ disease_id) 20 1 no_data 0 w Hd)
    as (w1 & Hrun1 & Hiss1 & _); [lia | intros; lia | apply Hlink | reflexivity |].
  destruct (make_request_with_retry_success net rnd Hrnd
              ("https://rest.kegg.jp/get/" +:+ disease_id) 20 1 entry 0 w1 Hd)
    as (w2 & Hrun2 & Hiss2 & _); [lia | intros; lia | apply Hget | exact Hstatus |].
  destruct (make_request_with_retry_success net rnd Hrnd
              ("https://rest.kegg.jp/link/hsa/" +:+ disease_id) 20 1 no_data 0 w2 Hd)
    as (w3 & Hrun3 & Hiss3 & _); [lia | intros; lia | apply Hhsa | reflexivity |].
  exists w3. split.
  - unfold get_disease_pathways. unfold bind at 1. rewrite Hrun1.
    unfold bind at 1. rewrite Hrun2. unfold bind at 1. rewrite Hrun3.
    assert (Htruthy : response_truthy (Some entry) = true)
      by (unfold response_truthy; now rewrite Hstatus).
    rewrite Htruthy. cbn [response_text andb]. rewrite Hbody. reflexivity.
  - unfold issued in *. rewrite Hiss3, Hiss2, Hiss1. cbn [repeat]. now rewrite <- !app_assoc.
Qed.

(** C3 (amended) — for a record in which the lines scanned hold a line
    beginning with [PATHWAY], then exactly three lines beginning with two
    spaces, then a line that is not indented, and no other line beginning
    with [PATHWAY]: [_extract_pathways_from_entry], which scans the lines
    of the text as it is, returns exactly the matches of [hsa\d+] in those
    four lines, in order and each prefixed with [path:]; the scan of
    [get_disease_pathways], which goes over the lines of the stripped
    text, adds exactly the first match of [hsa\d{5}] of each of those four
    lines (the header without the word [PATHWAY]), and these are the
    pathways the function returns when the two link lists of the disease
    are empty; nothing comes from the closing line or from later lines. *)
Theorem pathway_section_four_lines
  (entry_text : string) (pre post : list string) (header c1 c2 c3 closing : string)
  (pathways : gset string) :
  Py.startswith header "PATHWAY" = true ->
  Py.startswith c1 "  " = true ->
  Py.startswith c2 "  " = true ->
  Py.startswith c3 "  " = true ->
  Py.startswith closing "  " = false ->
  Forall no_header (pre ++ closing :: post) ->
  (Py.split LF entry_text = pre ++ header :: c1 :: c2 :: c3 :: closing :: post ->
   _extract_pathways_from_entry entry_text
   = line_codes header ++ line_codes c1 ++ line_codes c2 ++ line_codes c3)
  /\ (Py.split LF (Py.strip entry_text)
      = pre ++ header :: c1 :: c2 :: c3 :: closing :: post ->
      fst (fold_left entry_step (Py.split LF (Py.strip entry_text)) (pathways, false))
      = first_code (Py.strip c3) ∪ (first_code (Py.strip c2) ∪ (first_code (Py.strip c1)
          ∪ (first_code (Py.strip (Py.delete header "PATHWAY")) ∪ pathways)))
      /\ forall (net : string -> nat -> outcome) (rnd : nat -> Q)
                (listing : gset string -> list string) (disease_id : string) (w : World),
           (forall i, (0 <= rnd i < 1)%Q) ->
           (forall n, net ("https://rest.kegg.jp/link/pathway/" +:+ disease_id) n
                      = Answers no_data) ->
           (forall n, net ("https://rest.kegg.jp/get/" +:+ disease_id) n
                      = Answers {| status_code := 200; text := entry_text |}) ->
           (forall n, net ("https://rest.kegg.jp/link/hsa/" +:+ disease_id) n
                      = Answers no_data) ->
           exists w',
             get_disease_pathways net rnd listing disease_id w
             = (Ok (listing
                      (first_code (Py.strip c3) ∪ (first_code (Py.strip c2)
                         ∪ (first_code (Py.strip c1)
                         ∪ (first_code (Py.strip (Py.delete header "PATHWAY")) ∪ ∅)))),
                    disease_id), w')).
Proof.
  intros Hh H1 H2 H3 Hc HF.
  apply Forall_app in HF as [Hpre Hpost].
  inversion Hpost as [| ? ? Hcl Hpost']; subst.
  assert (Hscan : forall start,
             fst (fold_left entry_step (pre ++ header :: c1 :: c2 :: c3 :: closing :: post)
                    (start, false))
             = first_code (Py.strip c3) ∪ (first_code (Py.strip c2)
                 ∪ (first_code (Py.strip c1)
                 ∪ (first_code (Py.strip (Py.delete header "PATHWAY")) ∪ start)))).
  { intros start. rewrite !fold_left_app, (entry_outside pre _ Hpre). cbn [fold_left].
    rewrite (entry_step_header _ _ _ Hh).
    rewrite (entry_step_continuation _ _ H1), (entry_step_continuation _ _ H2),
      (entry_step_continuation _ _ H3), (entry_step_closing _ _ _ Hcl Hc).
    now rewrite (entry_outside post _ Hpost'). }
  split.
  - intros Hsplit. unfold _extract_pathways_from_entry. rewrite Hsplit, !fold_left_app.
    rewrite (extract_outside pre [] Hpre). cbn [fold_left].
    rewrite (extract_step_header _ _ _ Hh).
    rewrite (extract_step_continuation _ _ H1), (extract_step_continuation _ _ H2),
      (extract_step_continuation _ _ H3), (extract_step_closing _ _ _ Hcl Hc).
    rewrite (extract_outside post _ Hpost'). simpl. now rewrite <- !app_assoc.
  - intros Hsplit. split; [rewrite Hsplit; apply Hscan |].
    intros net rnd listing disease_id w Hrnd Hlink Hget Hhsa.
    destruct (get_disease_pathways_entry_only net rnd listing disease_id
                {| status_code := 200; text := entry_text |} w Hrnd Hlink Hget Hhsa eq_refl)
      as (w' & Hrun & _).
    { cbn [text]. apply (split_not_blank _ _ Hsplit).
      rewrite length_app. cbn [length]. lia. }
    exists w'. rewrite Hrun. cbn [text]. now rewrite Hsplit, Hscan.
Qed.

Lemma pathway_section_four_lines_witness :
  _extract_pathways_from_entry (join_lines plain_record_lines)
  = ["path:hsa04930"; "path:hsa04910"; "path:hsa04911"; "path:hsa04912"]
  /\ fst (fold_left entry_step (Py.split LF (Py.strip (join_lines plain_record_lines)))
            (∅, false))
     = first_code (Py.strip "            hsa04912  GnRH signaling pathway")
         ∪ (first_code (Py.strip "            hsa04911  Insulin secretion")
         ∪ (first_code (Py.strip "            hsa04910  Insulin signaling pathway")
         ∪ (first_code (Py.strip (Py.delete "PATHWAY     hsa04930  Type II diabetes mellitus"
                                     "PATHWAY")) ∪ ∅))).
Proof.
  destruct (pathway_section_four_lines (join_lines plain_record_lines)
              ["ENTRY       D00001"] ["///"]
              "PATHWAY     hsa04930  Type II diabetes mellitus"
              "            hsa04910  Insulin signaling pathway"
              "            hsa04911  Insulin secretion"
              "            hsa04912  GnRH signaling pathway"
              "DBLINKS     PubChem: 7847072" ∅) as [Hdrug Hdisease];
    try reflexivity; [repeat constructor |].
  split; [apply Hdrug; reflexivity |].
  destruct Hdisease as [Hscan _]; [reflexivity | exact Hscan].
Defined.

(** A record whose first line is an indented copy of a header: the drug
    script, which scans the text as it is, does not see a header in it;
    the disease script strips the text first and takes its code. *)
Example leading_indent_is_stripped :
  let record := "  PATHWAY     hsa00001  First" +:+ NL +:+ join_lines plain_record_lines in
  _extract_pathways_from_entry record
  = ["path:hsa04930"; "path:hsa04910"; "path:hsa04911"; "path:hsa04912"]
  /\ fst (fold_left entry_step (Py.split LF (Py.strip record)) (∅, false))
     = {[ "hsa00001"; "hsa04930"; "hsa04910"; "hsa04911"; "hsa04912" ]}.
Proof. split; vm_compute; reflexivity. Qed.

(** ** The file sink *)

Ltac split_tuple :=
  repeat match goal with |- (_, _) = (_, _) => apply f_equal2 end.

Lemma write_insert_fold disease_id pathways : forall sql_file insert_count,
  fold_left (write_insert disease_id) pathways (sql_file, insert_count)
  = (sql_file ++ map (insert_sql disease_id) pathways,
     insert_count + Z.of_nat (length pathways)).
Proof.
  induction pathways as [| p ps IH]; intros f n.
  - simpl. now rewrite app_nil_r, Z.add_0_r.
  - cbn [fold_left write_insert]. rewrite IH. cbn [map length].
    rewrite <- app_assoc. cbn [app]. f_equal. lia.
Qed.

Lemma write_result_fold results : forall sql_file insert_count a b,
  fold_left write_result results (sql_file, insert_count, a, b)
  = (sql_file ++ inserts_of results,
     insert_count + Z.of_nat (length (inserts_of results)),
     a + Z.of_nat (length (List.filter has_pathways results)),
     b + Z.of_nat (length (List.filter (fun r => negb (has_pathways r)) results))).
Proof.
  induction results as [| [d ps] rest IH]; intros f n a b.
  - simpl. now rewrite app_nil_r, !Z.add_0_r.
  - cbn [fold_left]. unfold write_result at 2. destruct ps as [| p ps].
    + rewrite IH. unfold inserts_of.
      cbn [flat_map fst snd map app List.filter has_pathways negb length].
      split_tuple; reflexivity || lia.
    + rewrite write_insert_fold, IH. unfold inserts_of.
      cbn [flat_map fst snd List.filter has_pathways negb].
      rewrite <- app_assoc, !length_app, !length_map. cbn [length].
      split_tuple; reflexivity || lia.
Qed.

Lemma filter_partition_length {A} (f : A -> bool) l :
  (length (List.filter f l) + length (List.filter (fun x => negb (f x)) l))%nat = length l.
Proof.
  induction l as [| x l IH]; [reflexivity |].
  simpl. destruct (f x); simpl; lia.
Qed.

Lemma inserts_of_text results :
  inserts_of results
  = flat_map
      (fun r => map (fun pathway =>
                       "INSERT INTO DiseasePathways (disease_id, pathway_id) VALUES ('"
                         +:+ fst r +:+ "', 'path:" +:+ pathway +:+ "');" +:+ NL)
                  (snd r))
      results.
Proof.
  unfold inserts_of. induction results as [| r rest IH]; [reflexivity |].
  cbn [flat_map]. rewrite IH. f_equal.
Qed.

(** C6 — the file sink writes the transaction begin, the blanket DELETE
    (and a comment line), then one INSERT per pathway of every result, in
    order, each naming the disease and the pathway with the prefix [path:],
    then the commit; the counts it returns are the number of INSERT
    statements and the numbers of diseases with and without pathways, which
    add up to the number of results. *)
Theorem write_sql_file_layout (results : list (string * list string)) :
  let writes := fst (write_sql_file results) in
  let '(insert_count, with_pathways, without_pathways) := snd (write_sql_file results) in
  writes = ("BEGIN TRANSACTION;" +:+ NL +:+ NL)
             :: ("DELETE FROM DiseasePathways;" +:+ NL)
             :: ("-- Inserting disease-pathway relationships" +:+ NL +:+ NL)
             :: flat_map
                  (fun r =>
                     map (fun pathway =>
                            "INSERT INTO DiseasePathways (disease_id, pathway_id) VALUES ('"
                              +:+ fst r +:+ "', 'path:" +:+ pathway +:+ "');" +:+ NL)
                       (snd r))
                  results
             ++ [NL +:+ "COMMIT;" +:+ NL]
  /\ Z.of_nat (length writes) = insert_count + 4
  /\ insert_count = fold_right Z.add 0 (map (fun r => Z.of_nat (length (snd r))) results)
  /\ with_pathways = Z.of_nat (length (List.filter has_pathways results))
  /\ without_pathways
     = Z.of_nat (length (List.filter (fun r => negb (has_pathways r)) results))
  /\ with_pathways + without_pathways = Z.of_nat (length results).
Proof.
  unfold write_sql_file. rewrite write_result_fold. cbn [fst snd].
  split; [| split; [| split; [| split; [| split]]]].
  - unfold sql_header, sql_footer. cbn [app]. now rewrite inserts_of_text.
  - unfold sql_header, sql_footer. rewrite !length_app. cbn [length]. lia.
  - rewrite Z.add_0_l. unfold inserts_of.
    induction results as [| [d ps] rest IH]; [reflexivity |].
    cbn [flat_map map fold_right fst snd]. rewrite length_app, length_map. lia.
  - lia.
  - lia.
  - rewrite !Z.add_0_l, <- Nat2Z.inj_add. f_equal. apply filter_partition_length.
Qed.

(** The text of one statement, character for character. *)
Example write_sql_file_statement :
  fst (write_sql_file [("H00001", ["hsa04910"])])
  = [ "BEGIN TRANSACTION;" +:+ NL +:+ NL;
      "DELETE FROM DiseasePathways;" +:+ NL;
      "-- Inserting disease-pathway relationships" +:+ NL +:+ NL;
      "INSERT INTO DiseasePathways (disease_id, pathway_id) VALUES ('H00001', 'path:hsa04910');"
        +:+ NL;
      NL +:+ "COMMIT;" +:+ NL ].
Proof. vm_compute. reflexivity. Qed.

(** ** The database sinks *)












Lemma skipn_succ_mul {A} (n j : nat) (l : list A) :
  skipn (S j * n) l = skipn (j * n) (skipn n l).
Proof. rewrite skipn_skipn. f_equal. lia. Qed.

Lemma concat_slices_at {A} (n : nat) : forall k (l : list A),
  (length l <= k * n)%nat ->
  concat (map (fun i => firstn n (skipn i l)) (map (fun j => (j * n)%nat) (seq 0 k))) = l.
Proof.
  induction k as [| k IH]; intros l Hl.
  - destruct l; [reflexivity | simpl in Hl; lia].
  - cbn [seq map concat]. rewrite <- seq_shift, !map_map.
    rewrite (map_ext _ (fun j => firstn n (skipn (j * n) (skipn n l))))
      by (intros j; now rewrite skipn_succ_mul).
    rewrite <- (map_map (fun j => (j * n)%nat) (fun i => firstn n (skipn i (skipn n l)))).
    rewrite IH by (rewrite length_skipn; lia).
    cbn [Nat.mul skipn]. apply firstn_skipn.
Qed.

Lemma concat_slices {A} (n : nat) (l : list A) :
  (0 < n)%nat -> concat (Py.slices n l) = l.
Proof.
  intros Hn. unfold Py.slices, Py.starts. apply concat_slices_at.
  pose proof (Nat.div_mod_eq (length l + n - 1) n) as Hd.
  pose proof (Nat.mod_upper_bound (length l + n - 1) n) as Hm.
  nia.
Qed.


Section DrugSinkFacts.

Variable pair_listing : gset (string * string) -> list (string * string).


Lemma save_results_other pairs db :
  DiseaseCompounds (fst (save_results pair_listing pairs db)) = DiseaseCompounds db.
Proof. reflexivity. Qed.

End DrugSinkFacts.



Lemma Database_eq db db' :
  DrugPathways db = DrugPathways db' -> DiseaseCompounds db = DiseaseCompounds db' ->
  db = db'.
Proof. destruct db, db'. simpl. now intros -> ->. Qed.



(** The counter after each run of a chunk of three pairs, one of them a
    repetition: SQLite draws an id for every pair offered. *)
Example save_chunk_counter :
  option_map last_id
    (DiseaseCompounds (snd (save_chunk example_chunk (ensure_tables empty_db)))) = Some 3
  /\ option_map last_id
       (DiseaseCompounds
          (snd (save_chunk example_chunk
                  (snd (save_chunk example_chunk (ensure_tables empty_db)))))) = Some 6.
Proof. split; reflexivity. Qed.

Example save_chunk_counts :
  row_count (DiseaseCompounds (snd (save_chunk example_chunk (ensure_tables empty_db)))) = 2
  /\ row_count (DiseaseCompounds
                  (snd (save_chunk example_chunk
                          (snd (save_chunk example_chunk (ensure_tables empty_db)))))) = 2.
Proof. split; reflexivity. Qed.

(** ** The rate limiter *)

Lemma evict_shorter t period q : (length (evict t period q) <= length q)%nat.
Proof.
  induction q as [| x q IH]; [reflexivity |].
  cbn [evict]. destruct (Qltb (t - x) period); simpl in *; lia.
Qed.

Lemma evict_head_young t period q oldest rest :
  evict t period q = oldest :: rest -> (t - oldest < period)%Q.
Proof.
  induction q as [| x q IH]; [discriminate |].
  cbn [evict]. destruct (Qltb (t - x) period) eqn:E.
  - intros [= <- _]. now apply Qltb_true.
  - exact IH.
Qed.

Lemma evict_split t period q :
  exists dropped, q = dropped ++ evict t period q
                  /\ Forall (fun old_call => (period <= t - old_call)%Q) dropped.
Proof.
  induction q as [| x q (dropped & Hq & Hold)].
  - exists []. split; [reflexivity | constructor].
  - cbn [evict]. destruct (Qltb (t - x) period) eqn:E.
    + exists []. split; [reflexivity | constructor].
    + exists (x :: dropped). split; [cbn [app]; now f_equal |].
      constructor; [now apply Qltb_false | exact Hold].
Qed.

Lemma evict_all_or_old t period x q :
  evict t period (x :: q) = x :: q
  \/ ((period <= t - x)%Q /\ (length (evict t period (x :: q)) <= length q)%nat).
Proof.
  cbn [evict]. destruct (Qltb (t - x) period) eqn:E; [now left |].
  right. split; [now apply Qltb_false | apply evict_shorter].
Qed.

Lemma acquire_no_wait w :
  let queue := evict (clock w) (time_period (rate_limiter w)) (calls (rate_limiter w)) in
  Z.of_nat (length queue) < max_calls (rate_limiter w) ->
  acquire w = (Ok tt, set_calls (queue ++ [clock w]) (set_calls queue w)).
Proof.
  intros queue Hlt. unfold acquire, bind, time_time, get_limiter, put_calls.
  fold queue. destruct (Z.geb_spec (Z.of_nat (length queue)) (max_calls (rate_limiter w)));
    [lia | reflexivity].
Qed.

Lemma acquire_wait w oldest rest :
  let queue := evict (clock w) (time_period (rate_limiter w)) (calls (rate_limiter w)) in
  let sleep_time := (oldest + time_period (rate_limiter w) - clock w)%Q in
  queue = oldest :: rest ->
  max_calls (rate_limiter w) <= Z.of_nat (length queue) ->
  acquire w
  = (Ok tt, set_calls (queue ++ [clock w])
              (if Qltb 0 sleep_time then add_sleep sleep_time (set_calls queue w)
               else set_calls queue w)).
Proof.
  intros queue sleep_time Hq Hge. unfold acquire, bind, time_time, get_limiter, put_calls.
  fold queue. destruct (Z.geb_spec (Z.of_nat (length queue)) (max_calls (rate_limiter w)));
    [| lia].
  rewrite Hq. fold sleep_time. destruct (Qltb 0 sleep_time) eqn:E; [| reflexivity].
  unfold sleep. replace (Qltb sleep_time 0) with false; [reflexivity |].
  symmetry. apply Qltb_false. apply Qltb_true in E. now apply Qlt_le_weak.
Qed.

Lemma acquisitions_cons g rest w :
  acquisitions (g :: rest) w
  = match acquire (pass_time g w) with
    | (Ok _, w1) =>
        match acquisitions rest w1 with
        | (Ok others, w2) => (Ok ((clock (pass_time g w), clock w1) :: others), w2)
        | (Raised e, w2) => (Raised e, w2)
        end
    | (Raised e, w1) => (Raised e, w1)
    end.
Proof.
  cbn [acquisitions]. unfold bind, idle, time_time, ret.
  destruct (acquire (pass_time g w)) as [[[] | e] w1]; [| reflexivity].
  now destruct (acquisitions rest w1) as [[others | e] w2].
Qed.

(** While fewer than [m] acquisitions were made, the next one does not wait. *)
Lemma since_first_step m period t1 i g w :
  since_first m period t1 i w ->
  (0 <= g)%Q -> Z.of_nat i < m ->
  exists w1, acquire (pass_time g w) = (Ok tt, w1)
             /\ clock w1 = (clock w + g)%Q
             /\ since_first m period t1 (S i) w1.
Proof.
  intros (Hm & Hp & Hlen & Hcase) Hg Hi.
  set (u := pass_time g w).
  set (queue := evict (clock u) (time_period (rate_limiter u)) (calls (rate_limiter u))).
  assert (Hshort : (length queue <= length (calls (rate_limiter w)))%nat)
    by apply evict_shorter.
  exists (set_calls (queue ++ [clock u]) (set_calls queue u)). split; [| split].
  - apply acquire_no_wait. fold queue. cbn [rate_limiter u pass_time]. lia.
  - reflexivity.
  - unfold since_first. cbn [rate_limiter set_calls max_calls time_period calls clock].
    rewrite length_app. cbn [length].
    split; [exact Hm |]. split; [exact Hp |]. split; [lia |].
    destruct Hcase as [(Hfull & Hhd & Hle) | Hold].
    + destruct (calls (rate_limiter w)) as [| x q] eqn:Ecalls; [discriminate Hhd |].
      injection Hhd as ->.
      subst queue. cbn [rate_limiter u pass_time clock] in *. rewrite Ecalls, Hp in *.
      destruct (evict_all_or_old (clock w + g) period t1 q) as [-> | [Hge Hl]].
      * left. cbn [length app hd_error] in *. repeat split; [lia | lra].
      * right. lra.
    + right. cbn [u pass_time clock]. lra.
Qed.

Lemma since_first_steps m period t1 gaps : forall i w,
  since_first m period t1 i w ->
  Forall (fun g => (0 <= g)%Q) gaps ->
  Z.of_nat (i + length gaps) <= m ->
  exists times w', acquisitions gaps w = (Ok times, w')
                   /\ length times = length gaps
                   /\ (clock w <= clock w')%Q
                   /\ since_first m period t1 (i + length gaps) w'.
Proof.
  induction gaps as [| g rest IH]; intros i w Hinv Hg Hle.
  - exists [], w. cbn [length]. rewrite Nat.add_0_r.
    split; [reflexivity |]. split; [reflexivity |].
    split; [apply Qle_refl | exact Hinv].
  - inversion Hg as [| ? ? Hg0 Hrest]; subst. cbn [length] in Hle.
    destruct (since_first_step m period t1 i g w Hinv Hg0) as (w1 & Hacq & Hclk & Hinv1);
      [lia |].
    destruct (IH (S i) w1 Hinv1 Hrest) as (times & w' & Hrun & Hlen & Hmono & Hinv');
      [lia |].
    exists ((clock (pass_time g w), clock w1) :: times), w'.
    rewrite acquisitions_cons, Hacq, Hrun. cbn [length].
    rewrite Nat.add_succ_r.
    split; [reflexivity |]. split; [now rewrite Hlen |].
    split; [rewrite Hclk in Hmono; lra | exact Hinv'].
Qed.

(** The acquisition that finds the limiter used [m] times. *)
Lemma since_first_last m period t1 g w :
  since_first m period t1 (Z.to_nat m) w ->
  (0 <= g)%Q -> 1 <= m ->
  exists w1, acquire (pass_time g w) = (Ok tt, w1) /\ (t1 + period <= clock w1)%Q.
Proof.
  intros (Hm & Hp & Hlen & Hcase) Hg H1.
  set (u := pass_time g w).
  set (queue := evict (clock u) (time_period (rate_limiter u)) (calls (rate_limiter u))).
  assert (Hshort : (length queue <= length (calls (rate_limiter w)))%nat)
    by apply evict_shorter.
  assert (Hclk : clock u = (clock w + g)%Q) by reflexivity.
  destruct (Z.lt_ge_cases (Z.of_nat (length queue)) m) as [Hlt | Hge].
  - (* room was made: an old timestamp was evicted *)
    eexists. split; [apply acquire_no_wait; fold queue; cbn [rate_limiter u pass_time]; lia |].
    cbn [clock set_calls]. rewrite Hclk.
    destruct Hcase as [(Hfull & Hhd & Hle) | Hold]; [| lra].
    destruct (calls (rate_limiter w)) as [| x q] eqn:Ecalls; [discriminate Hhd |].
    injection Hhd as ->.
    subst queue. cbn [rate_limiter u pass_time clock] in *. rewrite Ecalls, Hp in *.
    destruct (evict_all_or_old (clock w + g) period t1 q) as [Hall | [Hold _]]; [| lra].
    rewrite Hall in Hlt. lia.
  - (* the queue is full: wait for the oldest timestamp to age *)
    destruct queue as [| oldest rest] eqn:Equeue; [cbn [length] in Hge; lia |].
    pose proof (evict_head_young _ _ _ _ _ Equeue) as Hyoung.
    eexists. split.
    { apply (acquire_wait u oldest rest); [exact Equeue |].
      fold queue. rewrite Equeue. cbn [rate_limiter u pass_time]. lia. }
    cbn [rate_limiter u pass_time clock] in Hyoung |- *. rewrite Hp in *.
    destruct Hcase as [(Hfull & Hhd & Hle) | Hold].
    + destruct (calls (rate_limiter w)) as [| x q] eqn:Ecalls; [discriminate Hhd |].
      injection Hhd as ->.
      assert (Holdest : oldest = t1 \/ (period <= clock w + g - t1)%Q).
      { unfold queue in Equeue. cbn [rate_limiter u pass_time clock] in Equeue.
        rewrite Ecalls, Hp in Equeue.
        destruct (evict_all_or_old (clock w + g) period t1 q) as [Hall | [Hold _]].
        - left. rewrite Hall in Equeue. now injection Equeue.
        - now right. }
      destruct (Qltb 0 (oldest + period - (clock w + g))) eqn:E;
        cbn [clock set_calls add_sleep pass_time]; rewrite ?Hclk.
      * apply Qltb_true in E. destruct Holdest as [-> | Hold]; lra.
      * apply Qltb_false in E. destruct Holdest as [-> | Hold]; lra.
    + destruct (Qltb 0 (oldest + period - (clock w + g))) eqn:E;
        cbn [clock set_calls add_sleep pass_time]; rewrite ?Hclk;
        [apply Qltb_true in E |]; lra.
Qed.

Lemma acquisitions_app a : forall b w ta w1 tb w2,
  acquisitions a w = (Ok ta, w1) ->
  acquisitions b w1 = (Ok tb, w2) ->
  acquisitions (a ++ b) w = (Ok (ta ++ tb), w2).
Proof.
  induction a as [| g a IH]; intros b w ta w1 tb w2 Ha Hb.
  - injection Ha as <- <-. exact Hb.
  - cbn [app]. rewrite acquisitions_cons in Ha |- *.
    destruct (acquire (pass_time g w)) as [[[] | e] u]; [| discriminate].
    destruct (acquisitions a u) as [[others | e] u'] eqn:Ea; [| discriminate].
    injection Ha as <- <-. now rewrite (IH b u others u' tb w2 Ea Hb).
Qed.

Lemma since_first_start m period g w :
  rate_limiter w = fresh_limiter m period -> 1 <= m ->
  exists w1, acquire (pass_time g w) = (Ok tt, w1)
             /\ clock w1 = (clock w + g)%Q
             /\ since_first m period (clock w + g) 1 w1.
Proof.
  intros Hfresh Hm.
  exists (set_calls ([] ++ [clock (pass_time g w)]) (set_calls [] (pass_time g w))).
  split; [| split].
  - rewrite acquire_no_wait; cbn [rate_limiter pass_time]; rewrite Hfresh;
      cbn [fresh_limiter calls max_calls time_period evict length]; [reflexivity | lia].
  - reflexivity.
  - unfold since_first. cbn [rate_limiter set_calls pass_time max_calls time_period calls clock].
    rewrite Hfresh. cbn [max_calls time_period fresh_limiter app length hd_error].
    repeat split; [lia |]. left. repeat split. apply Qle_refl.
Qed.

(** What an acquisition leaves behind: the timestamps that were not
    evicted and the time the call was asked for, and a clock that has
    reached the oldest of them plus the period when there was no room. *)
Lemma acquire_records w :
  0 < max_calls (rate_limiter w) ->
  exists w1,
    acquire w = (Ok tt, w1)
    /\ requests w1 = requests w
    /\ stdout w1 = stdout w
    /\ calls (rate_limiter w1)
       = evict (clock w) (time_period (rate_limiter w)) (calls (rate_limiter w)) ++ [clock w]
    /\ (clock w <= clock w1)%Q
    /\ (forall oldest rest,
           evict (clock w) (time_period (rate_limiter w)) (calls (rate_limiter w))
           = oldest :: rest ->
           max_calls (rate_limiter w) <= Z.of_nat (length (oldest :: rest)) ->
           (oldest + time_period (rate_limiter w) <= clock w1)%Q)
    /\ (Z.of_nat (length (evict (clock w) (time_period (rate_limiter w))
                            (calls (rate_limiter w))))
        < max_calls (rate_limiter w) ->
        clock w1 = clock w /\ sleeps w1 = sleeps w)
    /\ max_calls (rate_limiter w1) = max_calls (rate_limiter w)
    /\ time_period (rate_limiter w1) = time_period (rate_limiter w).
Proof.
  intros Hm.
  remember (evict (clock w) (time_period (rate_limiter w)) (calls (rate_limiter w)))
    as queue eqn:Hqueue.
  destruct (Z.lt_ge_cases (Z.of_nat (length queue)) (max_calls (rate_limiter w)))
    as [Hlt | Hge].
  - exists (set_calls (queue ++ [clock w]) (set_calls queue w)). split.
    { rewrite acquire_no_wait; rewrite <- Hqueue; [reflexivity | exact Hlt]. }
    cbn [requests stdout rate_limiter calls clock sleeps set_calls max_calls time_period].
    repeat split; try reflexivity; try apply Qle_refl.
    intros oldest rest -> Hfull. lia.
  - destruct queue as [| oldest rest]; [cbn [length] in Hge; lia |].
    exists (set_calls ((oldest :: rest) ++ [clock w])
              (if Qltb 0 (oldest + time_period (rate_limiter w) - clock w)
               then add_sleep (oldest + time_period (rate_limiter w) - clock w)
                      (set_calls (oldest :: rest) w)
               else set_calls (oldest :: rest) w)).
    split.
    { rewrite (acquire_wait w oldest rest); rewrite <- Hqueue; [reflexivity.. | exact Hge]. }
    destruct (Qltb 0 (oldest + time_period (rate_limiter w) - clock w)) eqn:E;
      cbn [requests stdout rate_limiter calls clock sleeps set_calls add_sleep
             max_calls time_period];
      (split; [reflexivity |]); (split; [reflexivity |]); (split; [reflexivity |]).
    + apply Qltb_true in E. split; [lra |].
      split; [| split; [intros Hlt; lia | split; reflexivity]].
      intros o r [= <- <-] _. lra.
    + apply Qltb_false in E. split; [lra |].
      split; [| split; [intros Hlt; lia | split; reflexivity]].
      intros o r [= <- <-] _. lra.
Qed.

Lemma Sorted_snoc l t :
  Sorted Qle l -> Forall (fun x => (x <= t)%Q) l -> Sorted Qle (l ++ [t]).
Proof.
  induction 1 as [| x l Hs IH Hhd]; intros HF.
  - repeat constructor.
  - inversion HF as [| ? ? Hx Hl]; subst. cbn [app]. constructor; [now apply IH |].
    destruct l as [| y l]; cbn [app]; constructor; [exact Hx |].
    now inversion Hhd.
Qed.

Lemma Sorted_suffix (dropped q : list Q) : Sorted Qle (dropped ++ q) -> Sorted Qle q.
Proof.
  induction dropped as [| x d IH]; [trivial |].
  cbn [app]. intros H. apply IH. now inversion H.
Qed.

Lemma limiter_in_order_step g w :
  limiter_in_order w -> 1 <= max_calls (rate_limiter w) -> (0 <= g)%Q ->
  exists w1, acquire (pass_time g w) = (Ok tt, w1)
             /\ (clock w + g <= clock w1)%Q
             /\ max_calls (rate_limiter w1) = max_calls (rate_limiter w)
             /\ limiter_in_order w1.
Proof.
  intros (Hsorted & Hpast & Hlen & Hfull) Hm Hg.
  destruct (rate_limiter w) as [m period q] eqn:Elim.
  cbn [max_calls time_period calls] in *.
  assert (Hu : rate_limiter (pass_time g w) = {| max_calls := m; time_period := period;
                                                 calls := q |}) by exact Elim.
  remember (evict (clock w + g) period q) as queue eqn:Hqueue.
  assert (Hev : evict (clock (pass_time g w)) (time_period (rate_limiter (pass_time g w)))
                  (calls (rate_limiter (pass_time g w))) = queue).
  { rewrite Hu. cbn [time_period calls clock pass_time]. now rewrite Hqueue. }
  destruct (evict_split (clock w + g) period q) as (dropped & Hq & _).
  rewrite <- Hqueue in Hq.
  assert (Hsorted' : Sorted Qle queue) by (apply (Sorted_suffix dropped); now rewrite <- Hq).
  assert (Hpast' : Forall (fun x => (x <= clock w + g)%Q) queue).
  { rewrite Hq in Hpast. apply Forall_app in Hpast as [_ Hpast].
    eapply Forall_impl; [exact Hpast |]. cbn beta. intros x Hx. lra. }
  assert (Hshort : Z.of_nat (length queue) <= m).
  { pose proof (evict_shorter (clock w + g) period q) as Hle. rewrite <- Hqueue in Hle.
    destruct (Z.eq_dec (Z.of_nat (length q)) (m + 1)) as [Heq | Hne]; [| lia].
    destruct q as [| x q'] eqn:Eqq; [cbn [length] in Heq; lia |].
    specialize (Hfull Heq x eq_refl).
    destruct (evict_all_or_old (clock w + g) period x q') as [Hall | [_ Hl]].
    - pose proof (evict_head_young _ _ _ _ _ Hall) as Hyoung. lra.
    - rewrite <- Hqueue in Hl. cbn [length] in Heq. lia. }
  destruct (Z.lt_ge_cases (Z.of_nat (length queue)) m) as [Hlt | Hge].
  - exists (set_calls (queue ++ [clock (pass_time g w)]) (set_calls queue (pass_time g w))).
    split.
    { rewrite acquire_no_wait; rewrite Hev; [reflexivity |]. now rewrite Hu. }
    split; [cbn [clock set_calls pass_time]; apply Qle_refl |].
    split; [cbn [rate_limiter set_calls max_calls pass_time]; now rewrite Elim |].
    unfold limiter_in_order.
    cbn [rate_limiter set_calls calls max_calls time_period clock pass_time].
    rewrite Elim. cbn [max_calls time_period]. rewrite length_app. cbn [length].
    split; [now apply Sorted_snoc |]. split.
    { apply Forall_app. split; [exact Hpast' | repeat constructor; apply Qle_refl]. }
    split; [lia |]. intros Heq. lia.
  - destruct queue as [| oldest rest]; [cbn [length] in Hge; lia |].
    pose proof (evict_head_young _ _ _ _ _ (eq_sym Hqueue)) as Hyoung.
    set (sleep_time := (oldest + period - (clock w + g))%Q).
    assert (Hpos : Qltb 0 sleep_time = true) by (apply Qltb_true; unfold sleep_time; lra).
    exists (set_calls ((oldest :: rest) ++ [clock (pass_time g w)])
              (add_sleep sleep_time (set_calls (oldest :: rest) (pass_time g w)))).
    split.
    { rewrite (acquire_wait (pass_time g w) oldest rest Hev)
        by (rewrite Hev, Hu; exact Hge).
      rewrite Hev, Hu. cbn [time_period clock pass_time]. fold sleep_time.
      now rewrite Hpos. }
    split; [cbn [clock set_calls add_sleep pass_time]; unfold sleep_time; lra |].
    split; [cbn [rate_limiter set_calls add_sleep max_calls pass_time]; now rewrite Elim |].
    unfold limiter_in_order.
    cbn [rate_limiter set_calls add_sleep calls max_calls time_period clock pass_time].
    rewrite Elim. cbn [max_calls time_period].
    rewrite length_app. cbn [length app hd_error]. cbn [length] in Hshort, Hge.
    split; [apply (Sorted_snoc (oldest :: rest)); assumption |]. split.
    { apply Forall_cons. split.
      - inversion Hpast' as [| ? ? Ho _]; subst. unfold sleep_time. lra.
      - apply Forall_app. split.
        + inversion Hpast' as [| ? ? _ Hr]; subst.
          eapply Forall_impl; [exact Hr |]. cbn beta. intros x Hx. unfold sleep_time. lra.
        + repeat constructor. unfold sleep_time. lra. }
    split; [lia |]. intros _ o [= <-]. unfold sleep_time. lra.
Qed.

(** C2, as stated, fails: with two calls allowed per 60 seconds and
    acquisitions asked for at times 0, 50 and 70, the third completes at
    70 without waiting, although the acquisition of time 50 is still
    inside its trailing window and 50 + 60 is later than 70. *)
Lemma third_call_with_room_does_not_wait :
  let run := acquisitions [0; 50; 20]%Q (with_limiter (fresh_limiter 2 60) world0) in
  fst run = Ok [(0, 0); (50, 50); (70, 70)]%Q
  /\ calls (rate_limiter (snd run)) = [50; 70]%Q
  /\ (70 - 50 < 60)%Q
  /\ (70 < 50 + 60)%Q.
Proof. repeat split. Qed.

(** One acquisition, [hist] being every timestamp the queue has held, in
    order: those no longer in the queue are a period old, and the
    acquisition completes no earlier than a period after the timestamp
    that is [max_calls] places from the end of [hist]. *)
Lemma acquire_window g w hist :
  limiter_in_order w -> 1 <= max_calls (rate_limiter w) -> (0 <= g)%Q ->
  (exists older, hist = older ++ calls (rate_limiter w)
                 /\ Forall (fun t => (t + time_period (rate_limiter w) <= clock w)%Q) older) ->
  exists w1,
    acquire (pass_time g w) = (Ok tt, w1)
    /\ (clock w + g <= clock w1)%Q
    /\ max_calls (rate_limiter w1) = max_calls (rate_limiter w)
    /\ time_period (rate_limiter w1) = time_period (rate_limiter w)
    /\ limiter_in_order w1
    /\ (exists older,
           hist ++ [(clock w + g)%Q] = older ++ calls (rate_limiter w1)
           /\ Forall (fun t => (t + time_period (rate_limiter w) <= clock w1)%Q) older)
    /\ (forall pre x post,
           hist = pre ++ x :: post ->
           Z.of_nat (S (length post)) = max_calls (rate_limiter w) ->
           (x + time_period (rate_limiter w) <= clock w1)%Q).
Proof.
  intros Hinv Hm Hg (older & Hhist & Hold).
  destruct (limiter_in_order_step g w Hinv Hm Hg) as (w1 & Hacq & Hclk & Hmax & Hinv1).
  assert (Hm' : 0 < max_calls (rate_limiter (pass_time g w)))
    by (cbn [rate_limiter pass_time]; lia).
  destruct (acquire_records (pass_time g w) Hm')
    as (w1' & Hacq' & _ & _ & Hcalls & _ & Hwait & _ & _ & Hperiod).
  rewrite Hacq in Hacq'. injection Hacq' as <-.
  cbn [rate_limiter pass_time clock] in Hcalls, Hwait, Hperiod.
  destruct (evict_split (clock w + g) (time_period (rate_limiter w))
              (calls (rate_limiter w))) as (dropped & Hq & Hdropped).
  remember (evict (clock w + g) (time_period (rate_limiter w)) (calls (rate_limiter w)))
    as queue eqn:Hqueue.
  assert (Hshort : Z.of_nat (length queue) <= max_calls (rate_limiter w)).
  { destruct Hinv1 as (_ & _ & Hlen & _). rewrite Hcalls, Hmax, length_app in Hlen.
    cbn [length] in Hlen. lia. }
  assert (Hall : Forall (fun t => (t + time_period (rate_limiter w) <= clock w1)%Q)
                   (older ++ dropped)).
  { apply Forall_app. split.
    - eapply Forall_impl; [exact Hold |]. cbn beta. intros t Ht. lra.
    - eapply Forall_impl; [exact Hdropped |]. cbn beta. intros t Ht. lra. }
  assert (Hsplit : hist = (older ++ dropped) ++ queue)
    by (rewrite Hhist, Hq at 1; now rewrite app_assoc).
  exists w1. split; [exact Hacq |]. split; [exact Hclk |]. split; [exact Hmax |].
  split; [exact Hperiod |]. split; [exact Hinv1 |]. split.
  - exists (older ++ dropped). split; [| exact Hall].
    rewrite Hcalls, Hsplit. now rewrite <- app_assoc.
  - intros pre x post Hpre Hpost. rewrite Hsplit in Hpre.
    symmetry in Hpre. apply List.app_eq_app in Hpre as (l & [[Ho Hx] | [Hp Hx]]).
    + destruct l as [| y l].
      * rewrite app_nil_l in Hx. apply (Hwait x post Hx). cbn [length]. lia.
      * exfalso. rewrite Hx, length_app in Hshort. cbn [length] in Hshort. lia.
    + destruct l as [| y l].
      * rewrite app_nil_l in Hx. apply (Hwait x post (eq_sym Hx)). cbn [length]. lia.
      * cbn [app] in Hx. injection Hx as <- Hx. rewrite Hp in Hall.
        apply Forall_app in Hall as [_ Hall]. now inversion Hall.
Qed.

Lemma acquisitions_windows gaps : forall hist w,
  limiter_in_order w -> 1 <= max_calls (rate_limiter w) ->
  Forall (fun g => (0 <= g)%Q) gaps ->
  (exists older, hist = older ++ calls (rate_limiter w)
                 /\ Forall (fun t => (t + time_period (rate_limiter w) <= clock w)%Q) older) ->
  exists times w',
    acquisitions gaps w = (Ok times, w')
    /\ length times = length gaps
    /\ forall before t after pre x post,
         times = before ++ t :: after ->
         hist ++ map fst before = pre ++ x :: post ->
         Z.of_nat (S (length post)) = max_calls (rate_limiter w) ->
         (x + time_period (rate_limiter w) <= snd t)%Q.
Proof.
  induction gaps as [| g rest IH]; intros hist w Hinv Hm Hgaps Hhist.
  - exists [], w. split; [reflexivity |]. split; [reflexivity |].
    intros before t after pre x post Htimes. now destruct before.
  - inversion Hgaps as [| ? ? Hg Hrest]; subst.
    destruct (acquire_window g w hist Hinv Hm Hg Hhist)
      as (w1 & Hacq & Hclk & Hmax & Hperiod & Hinv1 & Hhist1 & Hbound).
    rewrite <- Hperiod in Hhist1.
    destruct (IH (hist ++ [(clock w + g)%Q]) w1 Hinv1) as (times & w' & Hrun & Hlen & Hall);
      [lia | exact Hrest | exact Hhist1 |].
    exists ((clock (pass_time g w), clock w1) :: times), w'.
    rewrite acquisitions_cons, Hacq, Hrun. split; [reflexivity |].
    split; [cbn [length]; now rewrite Hlen |].
    intros before t after pre x post Htimes Hpre Hpost.
    destruct before as [| t0 before].
    + cbn [app] in Htimes. injection Htimes as <- _. cbn [map] in Hpre.
      rewrite app_nil_r in Hpre. cbn [snd]. now apply (Hbound pre x post).
    + cbn [app] in Htimes. injection Htimes as <- Htimes.
      cbn [map fst pass_time clock] in Hpre.
      rewrite <- Hperiod.
      apply (Hall before t after pre x post Htimes); [| now rewrite Hmax].
      rewrite <- Hpre, <- app_assoc. reflexivity.
Qed.

(** C2 (amended) — among the acquisitions made on a limiter with
    [max_calls >= 1], whether fresh or in any state acquisitions leave it
    in, the last of any [max_calls + 1] consecutive ones completes no
    earlier than [time_period] after the first of them was asked for.  In
    any state, [acquire] first evicts from the front of the queue the
    timestamps at least [time_period] old; if the queue then still holds
    [max_calls] timestamps it completes no earlier than the oldest retained
    timestamp plus [time_period], and otherwise it does not wait; it
    records the time at which it was asked. *)
Theorem limiter_spaces_every_window (gaps : list Q) (w : World) :
  limiter_in_order w ->
  1 <= max_calls (rate_limiter w) ->
  Forall (fun g => (0 <= g)%Q) gaps ->
  (exists times w',
      acquisitions gaps w = (Ok times, w')
      /\ length times = length gaps
      /\ forall i first last,
           nth_error times i = Some first ->
           nth_error times (i + Z.to_nat (max_calls (rate_limiter w))) = Some last ->
           (fst first + time_period (rate_limiter w) <= snd last)%Q)
  /\ forall u : World,
      let self := rate_limiter u in
      let queue := evict (clock u) (time_period self) (calls self) in
      (exists dropped,
          calls self = dropped ++ queue
          /\ Forall (fun old_call => (time_period self <= clock u - old_call)%Q) dropped)
      /\ (forall oldest rest, queue = oldest :: rest ->
                              (clock u - oldest < time_period self)%Q)
      /\ (forall oldest rest,
             queue = oldest :: rest -> max_calls self <= Z.of_nat (length queue) ->
             exists u', acquire u = (Ok tt, u')
                        /\ (oldest + time_period self <= clock u')%Q
                        /\ calls (rate_limiter u') = queue ++ [clock u])
      /\ (Z.of_nat (length queue) < max_calls self ->
          exists u', acquire u = (Ok tt, u')
                     /\ clock u' = clock u
                     /\ calls (rate_limiter u') = queue ++ [clock u]).
Proof.
  intros Hinv Hm Hgaps. split.
  - destruct (acquisitions_windows gaps (calls (rate_limiter w)) w Hinv Hm Hgaps)
      as (times & w' & Hrun & Hlen & Hall).
    { exists []. split; [reflexivity | constructor]. }
    exists times, w'. split; [exact Hrun |]. split; [exact Hlen |].
    intros i first last Hfirst Hlast.
    apply nth_error_split in Hlast as (before & after & Htimes & Hbefore).
    assert (Hi : nth_error before i = Some first).
    { rewrite Htimes, nth_error_app1 in Hfirst by lia. exact Hfirst. }
    apply nth_error_split in Hi as (b1 & mid & Hb & Hb1).
    apply (Hall before last after (calls (rate_limiter w) ++ map fst b1) (fst first)
             (map fst mid) Htimes).
    + rewrite Hb, map_app, <- app_assoc. reflexivity.
    + rewrite length_map. rewrite Hb, length_app in Hbefore. cbn [length] in Hbefore. lia.
  - intros u self queue. split; [| split; [| split]].
    + apply evict_split.
    + intros oldest rest Hq. eapply evict_head_young, Hq.
    + intros oldest rest Hq Hfull. eexists. split; [| split].
      * apply (acquire_wait u oldest rest Hq Hfull).
      * fold self. cbn [clock set_calls].
        destruct (Qltb 0 (oldest + time_period self - clock u)) eqn:E;
          cbn [clock add_sleep set_calls].
        -- lra.
        -- apply Qltb_false in E. lra.
      * reflexivity.
    + intros Hroom. eexists. split; [| split].
      * apply (acquire_no_wait u Hroom).
      * reflexivity.
      * reflexivity.
Qed.

Lemma limiter_spaces_every_window_witness :
  exists times w' first last,
    acquisitions [0; 1; 2; 70; 0; 0]%Q (with_limiter (fresh_limiter 2 60) world0)
    = (Ok times, w')
    /\ nth_error times 3 = Some first
    /\ nth_error times 5 = Some last
    /\ (fst first + 60 <= snd last)%Q.
Proof.
  destruct (limiter_spaces_every_window [0; 1; 2; 70; 0; 0]%Q
              (with_limiter (fresh_limiter 2 60) world0))
    as [(times & w' & Hrun & Hlen & Hbound) _].
  - unfold limiter_in_order. cbn. repeat split; [constructor | constructor | lia |].
    intros H. lia.
  - cbn. lia.
  - repeat constructor; discriminate.
  - destruct times as [| t0 [| t1 [| t2 [| first [| t4 [| last rest]]]]]];
      try discriminate Hlen.
    exists (t0 :: t1 :: t2 :: first :: t4 :: last :: rest), w', first, last.
    split; [exact Hrun |]. split; [reflexivity |]. split; [reflexivity |].
    apply (Hbound 3%nat first last); reflexivity.
Defined.

(** A window that is not the first one: the acquisitions asked for at
    130, 130 and 130 complete at 130, 130 and 190. *)
Example later_window_is_spaced :
  fst (acquisitions [0; 1; 2; 70; 0; 0]%Q (with_limiter (fresh_limiter 2 60) world0))
  = Ok [(0, 0); (1, 1); (3, 60); (130, 130); (130, 130); (130, 190)]%Q.
Proof. vm_compute. reflexivity. Qed.

Example limiter_waits_when_full :
  fst (acquisitions [0; 1; 2]%Q (with_limiter (fresh_limiter 2 60) world0))
  = Ok [(0, 0); (1, 1); (3, 60)]%Q.
Proof. vm_compute. reflexivity. Qed.

(** ** The fan-out workers *)

Section ChunkFacts.

Variable rnd : nat -> Q.
Hypothesis rnd_unit : forall i, (0 <= rnd i < 1)%Q.
Variable worker : string -> M (list string * string).

Lemma chunk_pause_ok w : Qltb (chunk_pause rnd w) 0 = false.
Proof.
  apply Qltb_false. unfold chunk_pause, uniform_of.
  destruct (rnd_unit (randoms w)) as [H0 _]. lra.
Qed.

(** A disease whose processing raises: the exception is caught there, a
    line is printed, an empty result is recorded and the loop goes on. *)
Lemma process_chunk_raised chunk_id results d rest e w w1 :
  worker d w = (Raised e, w1) ->
  process_chunk_from rnd worker chunk_id results (d :: rest) w
  = process_chunk_from rnd worker chunk_id (results ++ [(d, [])]) rest
      (add_stdout (error_line chunk_id d e) w1).
Proof.
  intros Hw. cbn [process_chunk_from]. unfold bind at 1, try_except at 1, bind at 1.
  rewrite Hw. reflexivity.
Qed.

(** A disease whose processing returns: its pathways are recorded, the
    worker pauses and the loop goes on. *)
Lemma process_chunk_returned chunk_id results d rest r w w1 :
  worker d w = (Ok r, w1) ->
  process_chunk_from rnd worker chunk_id results (d :: rest) w
  = process_chunk_from rnd worker chunk_id (results ++ [(d, fst r)]) rest
      (add_sleep (chunk_pause rnd w1) (next_random w1)).
Proof.
  intros Hw. cbn [process_chunk_from]. unfold bind at 1, try_except at 1, bind at 1.
  rewrite Hw. unfold try_except, bind, random_uniform, sleep.
  change (Qltb ((1 # 2) + uniform_of 0 (1 # 2) (rnd (randoms w1))) 0)
    with (Qltb (chunk_pause rnd w1) 0).
  rewrite chunk_pause_ok. reflexivity.
Qed.

Lemma process_chunk_completes chunk_id ids : forall results w,
  exists new w',
    process_chunk_from rnd worker chunk_id results ids w = (Ok (results ++ new), w')
    /\ map fst new = ids
    /\ Forall2 (fun d entry => entry = (d, []) \/ exists r u u', worker d u = (Ok r, u')
                                                               /\ entry = (d, fst r))
         ids new.
Proof.
  induction ids as [| d rest IH]; intros results w.
  - exists [], w. rewrite app_nil_r. repeat split. constructor.
  - destruct (worker d w) as [[r | e] w1] eqn:Hw.
    + rewrite (process_chunk_returned chunk_id results d rest r w w1 Hw).
      destruct (IH (results ++ [(d, fst r)]) (add_sleep (chunk_pause rnd w1) (next_random w1)))
        as (new & w' & Hrun & Hmap & Hall).
      exists ((d, fst r) :: new), w'. rewrite Hrun, <- app_assoc. cbn [app map fst].
      repeat split; [now rewrite Hmap |]. constructor; [| exact Hall].
      right. now exists r, w, w1.
    + rewrite (process_chunk_raised chunk_id results d rest e w w1 Hw).
      destruct (IH (results ++ [(d, [])]) (add_stdout (error_line chunk_id d e) w1))
        as (new & w' & Hrun & Hmap & Hall).
      exists ((d, []) :: new), w'. rewrite Hrun, <- app_assoc. cbn [app map fst].
      repeat split; [now rewrite Hmap |]. constructor; [| exact Hall]. now left.
Qed.

End ChunkFacts.

Lemma acquire_total w :
  0 < max_calls (rate_limiter w) ->
  exists w1, acquire w = (Ok tt, w1)
             /\ requests w1 = requests w
             /\ stdout w1 = stdout w
             /\ max_calls (rate_limiter w1) = max_calls (rate_limiter w).
Proof.
  intros Hm.
  set (queue := evict (clock w) (time_period (rate_limiter w)) (calls (rate_limiter w))).
  destruct (Z.lt_ge_cases (Z.of_nat (length queue)) (max_calls (rate_limiter w)))
    as [Hlt | Hge].
  - eexists. split; [apply (acquire_no_wait w Hlt) |]. repeat split.
  - destruct queue as [| oldest rest] eqn:Eq; [cbn [length] in Hge; lia |].
    eexists. split.
    { apply (acquire_wait w oldest rest); [exact Eq |]. fold queue. now rewrite Eq. }
    destruct (Qltb 0 _); repeat split.
Qed.

Section DrugBatchFacts.

Variable net : string -> nat -> outcome.

(** [kegg_api_request] passes the limiter and then fetches its URL once:
    the timestamp of the call is in the queue, the request waited for room
    when there was none, and what is returned is read off the one answer. *)
Lemma kegg_api_request_limited endpoint w :
  0 < max_calls (rate_limiter w) ->
  exists r w1 w',
    acquire w = (Ok tt, w1)
    /\ kegg_api_request net endpoint w = (Ok r, w')
    /\ issued w w' [kegg_url endpoint]
    /\ rate_limiter w' = rate_limiter w1
    /\ clock w' = clock w1
    /\ sleeps w' = sleeps w1
    /\ r = match net (kegg_url endpoint) (length (requests w)) with
           | Answers response =>
               if status_code response =? 200 then Some (text response) else None
           | Fails _ => None
           end.
Proof.
  intros Hm. destruct (acquire_records w Hm) as (w1 & Hacq & Hreq & _).
  unfold kegg_api_request, bind at 1. rewrite Hacq.
  unfold try_except, bind, requests_get, print, ret, issued.
  fold (kegg_url endpoint). rewrite Hreq.
  destruct (net (kegg_url endpoint) (length (requests w))) as [resp | e] eqn:En.
  - destruct (status_code resp =? 200) eqn:E200; [| destruct (status_code resp =? 404)];
      eexists; exists w1; eexists; (split; [reflexivity |]); (split; [reflexivity |]);
      cbn [requests add_request add_stdout rate_limiter clock sleeps];
      rewrite Hreq; repeat split.
  - eexists; exists w1; eexists. split; [reflexivity |]. split; [reflexivity |].
    cbn [requests add_request add_stdout rate_limiter clock sleeps]. rewrite Hreq.
    repeat split.
Qed.

(** [kegg_api_request] fetches its URL once, whatever comes back. *)
Lemma kegg_api_request_once endpoint w :
  0 < max_calls (rate_limiter w) ->
  exists r w', kegg_api_request net endpoint w = (Ok r, w')
               /\ issued w w' [kegg_url endpoint]
               /\ max_calls (rate_limiter w') = max_calls (rate_limiter w)
               /\ (fails_plain (net (kegg_url endpoint) (length (requests w))) = true ->
                   r = None)
               /\ (forall e, net (kegg_url endpoint) (length (requests w)) = Fails e ->
                             r = None
                             /\ last (stdout w')
                                = Some ("Exception for " +:+ kegg_url endpoint
                                          +:+ ": " +:+ exn_str e)).
Proof.
  intros Hm. destruct (acquire_total w Hm) as (w1 & Hacq & Hreq & Hout & Hmax).
  unfold kegg_api_request, bind at 1. rewrite Hacq.
  unfold try_except, bind, requests_get, print, ret, issued.
  fold (kegg_url endpoint). rewrite Hreq.
  destruct (net (kegg_url endpoint) (length (requests w))) as [resp | e] eqn:En.
  - destruct (status_code resp =? 200) eqn:E200; [| destruct (status_code resp =? 404)];
      eexists; eexists; (split; [reflexivity |]); cbn [requests add_request add_stdout rate_limiter];
      rewrite Hreq; (split; [reflexivity |]); (split; [exact Hmax |]);
      (split; [| intros e He; discriminate He]);
      cbn [fails_plain]; rewrite ?E200; intros H; try discriminate H; reflexivity.
  - eexists; eexists. split; [reflexivity |].
    cbn [requests add_request add_stdout rate_limiter stdout]. rewrite Hreq.
    split; [reflexivity |]. split; [exact Hmax |]. split; [reflexivity |].
    intros e' [= <-]. split; [reflexivity |]. apply last_snoc.
Qed.



End DrugBatchFacts.



Example fussy_chunk :
  fst (process_diseases_chunk_with half fussy_worker ["H00001"; "H00002"; "H00003"] 0 world0)
  = Ok [("H00001", ["hsa04930"]); ("H00002", []); ("H00003", ["hsa04930"])].
Proof. vm_compute. reflexivity. Qed.

Example fussy_chunk_log :
  stdout (snd (process_diseases_chunk_with half fussy_worker
                 ["H00001"; "H00002"; "H00003"] 0 world0))
  = ["Process 0: Error processing H00002: unexpected answer"].
Proof. vm_compute. reflexivity. Qed.

(** ** Which requests are retried *)

Section DiseaseWorkerFacts.

Variable net : string -> nat -> outcome.
Variable rnd : nat -> Q.
Variable listing : gset string -> list string.
Hypothesis rnd_unit : forall i, (0 <= rnd i < 1)%Q.

Lemma issued_trans w w1 w2 a b : issued w w1 a -> issued w1 w2 b -> issued w w2 (a ++ b).
Proof. unfold issued. intros H1 H2. now rewrite H2, H1, app_assoc. Qed.

Lemma fails_plain_false o :
  fails_plain o = false -> exists r, o = Answers r /\ status_code r = 200.
Proof.
  destruct o as [r | e]; simpl; [| discriminate].
  intros H. apply negb_false_iff, Z.eqb_eq in H. now exists r.
Qed.

(** Whatever the server does, the loop of the helper makes a block of
    attempts: it goes on after each failure and stops at the first success
    or when the attempts run out. *)
Lemma make_request_loop_block url mr d0 attempts : forall w,
  (0 <= d0)%Q ->
  exists r w' n,
    make_request_loop net rnd url mr d0 attempts w = (Ok r, w')
    /\ issued w w' (repeat url n)
    /\ (n <= length attempts)%nat
    /\ (forall i, (i + 1 < n)%nat ->
                  fails_plain (net url (length (requests w) + i)) = true)
    /\ match r with
       | Some _ => (1 <= n)%nat
                   /\ fails_plain (net url (length (requests w) + (n - 1))) = false
       | None => n = length attempts
                 /\ forall i, (i < n)%nat ->
                              fails_plain (net url (length (requests w) + i)) = true
       end.
Proof.
  induction attempts as [| a rest IH]; intros w Hd.
  - exists None, w, 0%nat. unfold issued. cbn [repeat length]. rewrite app_nil_r.
    repeat split; try lia; intros; lia.
  - destruct (fails_plain (net url (length (requests w)))) eqn:Ef.
    + destruct (make_request_attempt_fails net url mr a w Ef) as [line Hstep].
      set (w1 := add_stdout line (add_request url w)) in *.
      set (w2 := add_sleep (retry_delay d0 (uniform_of 0 1 (rnd (randoms w)))) (next_random w1)).
      assert (Hlen : forall i, (length (requests w2) + i = length (requests w) + S i)%nat).
      { intros i. subst w2 w1. simpl. rewrite length_app. simpl. lia. }
      destruct (IH w2 Hd) as (r & w' & n & Hrun & Hiss & Hn & Hbefore & Hlast).
      exists r, w', (S n). split; [| split; [| split; [| split]]].
      * cbn [make_request_loop]. unfold bind at 1. rewrite Hstep.
        unfold bind, random_uniform, sleep. fold w1. cbn [randoms next_random].
        replace (randoms w1) with (randoms w) by reflexivity.
        rewrite (retry_delay_nonneg d0 _ Hd (proj1 (rnd_unit _))). exact Hrun.
      * unfold issued in *. rewrite Hiss. subst w2 w1. simpl.
        now rewrite <- app_assoc.
      * cbn [length]. lia.
      * intros i Hi. destruct i as [| i]; [now rewrite Nat.add_0_r |].
        rewrite <- Hlen. apply Hbefore. lia.
      * destruct r as [resp |].
        -- destruct Hlast as [Hn1 Hok]. split; [lia |].
           replace (S n - 1)%nat with (S (n - 1)) by lia. now rewrite <- Hlen.
        -- destruct Hlast as [-> Hall]. split; [reflexivity |].
           intros i Hi. destruct i as [| i]; [now rewrite Nat.add_0_r |].
           rewrite <- Hlen. apply Hall. cbn [length] in Hi. lia.
    + destruct (fails_plain_false _ Ef) as (resp & Hn & Hs).
      exists (Some resp), (add_request url w), 1%nat. split; [| split; [| split; [| split]]].
      * cbn [make_request_loop]. unfold bind.
        now rewrite (make_request_attempt_succeeds net url mr a w resp Hn Hs).
      * reflexivity.
      * cbn [length]. lia.
      * intros i Hi. lia.
      * split; [lia |]. now rewrite Nat.add_0_r.
Qed.

(** A call of the helper with 20 attempts adds one retried block to the log. *)
Lemma make_request_with_retry_block url w :
  exists r w' n,
    make_request_with_retry net rnd url 20 1 w = (Ok r, w')
    /\ issued w w' (repeat url n)
    /\ forall rest, retried net 20 (length (requests w) + n) rest ->
                    retried net 20 (length (requests w)) (repeat url n ++ rest).
Proof.
  assert (Hd : (0 <= 1)%Q) by discriminate.
  destruct (make_request_loop_block url 20 1 (Py.range 20) w Hd)
    as (r & w' & n & Hrun & Hiss & Hn & Hbefore & Hlast).
  change (length (Py.range 20)) with 20%nat in *.
  assert (Hblock : forall rest, retried net 20 (length (requests w) + n) rest ->
                                retried net 20 (length (requests w)) (repeat url n ++ rest)).
  { intros rest Hrest. apply retried_block; [| exact Hbefore | | exact Hrest].
    - destruct r; [lia | destruct Hlast as [-> _]; lia].
    - intros Hf. destruct r; [destruct Hlast as [_ Hok]; congruence | now destruct Hlast]. }
  unfold make_request_with_retry, bind. rewrite Hrun. destruct r as [resp |].
  - exists (Some resp), w', n. repeat split; assumption.
  - eexists None, _, n. split; [reflexivity |]. split; [exact Hiss | exact Hblock].
Qed.

Lemma issued_length w w' urls :
  issued w w' urls -> length (requests w') = (length (requests w) + length urls)%nat.
Proof. unfold issued. intros ->. apply length_app. Qed.

Lemma gene_loop_retried lines : forall gene_count pathways w,
  exists found w' urls,
    gene_loop net rnd lines gene_count pathways w = (Ok found, w')
    /\ issued w w' urls
    /\ retried net 20 (length (requests w)) urls.
Proof.
  induction lines as [| line rest IH]; intros gene_count pathways w.
  - exists pathways, w, []. unfold issued. rewrite app_nil_r.
    repeat split. constructor.
  - cbn [gene_loop]. destruct (Py.split TAB line) as [| f1 [| gene [| f3 more]]]; try apply IH.
    set (w0 := if (gene_count + 1) mod 5 =? 0 then add_sleep 1 w else w).
    assert (Hw0 : requests w0 = requests w) by (subst w0; now destruct (_ =? 0)).
    assert (Hpause : (if (gene_count + 1) mod 5 =? 0 then sleep 1 else ret tt) w = (Ok tt, w0))
      by (subst w0; now destruct (_ =? 0)).
    unfold bind at 1. rewrite Hpause. unfold bind at 1.
    edestruct (make_request_with_retry_block ("https://rest.kegg.jp/link/pathway/" +:+ gene) w0)
      as (r & w1 & n & Hrun & Hiss & Hblock).
    rewrite Hrun.
    match goal with
    | |- context [gene_loop net rnd rest (gene_count + 1) ?P w1] =>
        destruct (IH (gene_count + 1) P w1) as (found & w' & urls & Hrest & Hiss' & Hret)
    end.
    exists found, w', (repeat ("https://rest.kegg.jp/link/pathway/" +:+ gene) n ++ urls).
    split; [exact Hrest |]. split.
    + unfold issued in *. now rewrite Hiss', Hiss, Hw0, app_assoc.
    + rewrite <- Hw0. apply Hblock.
      rewrite (issued_length _ _ _ Hiss), repeat_length in Hret. exact Hret.
Qed.

(** Every request of the disease worker is a retried request. *)
Lemma get_disease_pathways_retried d w :
  exists r w' urls,
    get_disease_pathways net rnd listing d w = (Ok r, w')
    /\ issued w w' urls
    /\ retried net 20 (length (requests w)) urls.
Proof.
  unfold get_disease_pathways.
  edestruct (make_request_with_retry_block ("https://rest.kegg.jp/link/pathway/" +:+ d) w)
    as (r1 & w1 & n1 & Hrun1 & Hiss1 & Hblock1).
  unfold bind at 1. rewrite Hrun1.
  edestruct (make_request_with_retry_block ("https://rest.kegg.jp/get/" +:+ d) w1)
    as (r2 & w2 & n2 & Hrun2 & Hiss2 & Hblock2).
  unfold bind at 1. rewrite Hrun2.
  edestruct (make_request_with_retry_block ("https://rest.kegg.jp/link/hsa/" +:+ d) w2)
    as (r3 & w3 & n3 & Hrun3 & Hiss3 & Hblock3).
  unfold bind at 1. rewrite Hrun3.
  pose proof (issued_length _ _ _ Hiss1) as Hl1. rewrite repeat_length in Hl1.
  pose proof (issued_length _ _ _ Hiss2) as Hl2. rewrite repeat_length in Hl2.
  pose proof (issued_length _ _ _ Hiss3) as Hl3. rewrite repeat_length in Hl3.
  assert (Hfinish : forall w' urls,
             issued w3 w' urls -> retried net 20 (length (requests w3)) urls ->
             issued w w' (repeat ("https://rest.kegg.jp/link/pathway/" +:+ d) n1
                            ++ repeat ("https://rest.kegg.jp/get/" +:+ d) n2
                            ++ repeat ("https://rest.kegg.jp/link/hsa/" +:+ d) n3 ++ urls)
             /\ retried net 20 (length (requests w))
                  (repeat ("https://rest.kegg.jp/link/pathway/" +:+ d) n1
                     ++ repeat ("https://rest.kegg.jp/get/" +:+ d) n2
                     ++ repeat ("https://rest.kegg.jp/link/hsa/" +:+ d) n3 ++ urls)).
  { intros w' urls Hiss Hret. split.
    - eapply issued_trans; [exact Hiss1 |]. eapply issued_trans; [exact Hiss2 |].
      eapply issued_trans; eassumption.
    - apply Hblock1. rewrite <- Hl1. apply Hblock2. rewrite <- Hl2. apply Hblock3.
      now rewrite <- Hl3. }
  destruct (response_truthy r3 && Py.truthy (Py.strip (response_text r3))).
  - match goal with
    | |- context [gene_loop net rnd ?L 0 ?P] =>
        destruct (gene_loop_retried L 0 P w3) as (found & w' & urls & Hgenes & Hiss & Hret)
    end.
    destruct (Hfinish w' urls Hiss Hret) as [Hi Hr].
    eexists; exists w'; eexists. unfold bind. rewrite Hgenes. unfold ret.
    split; [reflexivity |]. split; [exact Hi | exact Hr].
  - destruct (Hfinish w3 []) as [Hi Hr].
    { unfold issued. now rewrite app_nil_r. }
    { constructor. }
    eexists; exists w3; eexists. unfold bind, ret.
    split; [reflexivity |]. split; [exact Hi | exact Hr].
Qed.

Lemma get_disease_pathways_no_data d w :
  (forall url n, fails_plain (net url n) = true) ->
  exists w', get_disease_pathways net rnd listing d w = (Ok (listing ∅, d), w')
             /\ issued w w' (repeat ("https://rest.kegg.jp/link/pathway/" +:+ d) 20
                               ++ repeat ("https://rest.kegg.jp/get/" +:+ d) 20
                               ++ repeat ("https://rest.kegg.jp/link/hsa/" +:+ d) 20).
Proof.
  intros Hf. assert (Hd : (0 <= 1)%Q) by discriminate.
  destruct (make_request_with_retry_exhausts net rnd rnd_unit
              ("https://rest.kegg.jp/link/pathway/" +:+ d) 20 1 w Hd)
    as (w1 & Hrun1 & Hiss1 & _); [intros; apply Hf |].
  destruct (make_request_with_retry_exhausts net rnd rnd_unit
              ("https://rest.kegg.jp/get/" +:+ d) 20 1 w1 Hd)
    as (w2 & Hrun2 & Hiss2 & _); [intros; apply Hf |].
  destruct (make_request_with_retry_exhausts net rnd rnd_unit
              ("https://rest.kegg.jp/link/hsa/" +:+ d) 20 1 w2 Hd)
    as (w3 & Hrun3 & Hiss3 & _); [intros; apply Hf |].
  exists w3. split.
  - unfold get_disease_pathways. unfold bind at 1. rewrite Hrun1.
    cbn [response_truthy andb]. unfold bind at 1. rewrite Hrun2.
    cbn [response_truthy andb]. unfold bind at 1. rewrite Hrun3.
    cbn [response_truthy andb]. reflexivity.
  - change (Z.to_nat 20) with 20%nat in *.
    eapply issued_trans; [exact Hiss1 |]. eapply issued_trans; eassumption.
Qed.

End DiseaseWorkerFacts.

(** C9, as stated, fails for the worker of the drug script: its request
    is attempted once.  The server below answers 503 once and 200 from
    then on; the worker takes the 503 as no data and never asks again. *)
Lemma drug_request_is_not_retried :
  let run := process_drug_batch (flaky_server 1 ok_response) ["path:hsa04930"] ["D00001"] world0 in
  fst run = Ok []
  /\ requests (snd run) = ["http://rest.kegg.jp/get/D00001"]
  /\ flaky_server 1 ok_response "http://rest.kegg.jp/get/D00001" 1 = Answers ok_response.
Proof. repeat split. Qed.

(** C9 (amended) — every request of the disease worker is a retried
    request: whatever the server does, the requests [get_disease_pathways]
    issues come in blocks of attempts at one URL, and inside a block a
    failed attempt (status other than 200, or an exception) is followed by
    another attempt at the same URL unless it was the 20th; when no attempt
    succeeds, each of its three requests is attempted 20 times before the
    worker goes on without data.  The worker of the drug script asks through
    [kegg_api_request], which is rate-limited and makes exactly one
    attempt: it first passes [acquire], which records the time of the call
    in the queue and, when the queue has no room, lets the request wait
    until the oldest retained call is a period old; then it issues one
    request, and what it returns is read off that one answer, a failed one
    being no data at once. *)
Theorem disease_requests_retried_drug_requests_not
  (net : string -> nat -> outcome) (rnd : nat -> Q) (listing : gset string -> list string)
  (id endpoint : string) (w : World) :
  (forall i, (0 <= rnd i < 1)%Q) ->
  0 < max_calls (rate_limiter w) ->
  (exists r w' urls,
      get_disease_pathways net rnd listing id w = (Ok r, w')
      /\ issued w w' urls
      /\ retried net 20 (length (requests w)) urls)
  /\ ((forall url n, fails_plain (net url n) = true) ->
      exists w', get_disease_pathways net rnd listing id w = (Ok (listing ∅, id), w')
                 /\ issued w w' (repeat ("https://rest.kegg.jp/link/pathway/" +:+ id) 20
                                   ++ repeat ("https://rest.kegg.jp/get/" +:+ id) 20
                                   ++ repeat ("https://rest.kegg.jp/link/hsa/" +:+ id) 20))
  /\ (exists r w1 w',
         acquire w = (Ok tt, w1)
         /\ kegg_api_request net endpoint w = (Ok r, w')
         /\ issued w w' [kegg_url endpoint]
         /\ rate_limiter w' = rate_limiter w1
         /\ clock w' = clock w1
         /\ calls (rate_limiter w')
            = evict (clock w) (time_period (rate_limiter w)) (calls (rate_limiter w))
              ++ [clock w]
         /\ (forall oldest rest,
                evict (clock w) (time_period (rate_limiter w)) (calls (rate_limiter w))
                = oldest :: rest ->
                max_calls (rate_limiter w) <= Z.of_nat (length (oldest :: rest)) ->
                (oldest + time_period (rate_limiter w) <= clock w')%Q)
         /\ r = match net (kegg_url endpoint) (length (requests w)) with
                | Answers response =>
                    if status_code response =? 200 then Some (text response) else None
                | Fails _ => None
                end
         /\ (fails_plain (net (kegg_url endpoint) (length (requests w))) = true ->
             r = None)).
Proof.
  intros Hrnd Hm. split; [| split].
  - now apply get_disease_pathways_retried.
  - intros Hf. now apply get_disease_pathways_no_data.
  - destruct (kegg_api_request_limited net endpoint w Hm)
      as (r & w1 & w' & Hacq & Hrun & Hiss & Hlim & Hclk & _ & Hr).
    destruct (acquire_records w Hm) as (w1' & Hacq' & _ & _ & Hcalls & _ & Hwait & _).
    rewrite Hacq in Hacq'. injection Hacq' as <-.
    exists r, w1, w'. split; [exact Hacq |]. split; [exact Hrun |]. split; [exact Hiss |].
    split; [exact Hlim |]. split; [exact Hclk |].
    split; [now rewrite Hlim |]. split; [rewrite Hclk; exact Hwait |].
    split; [exact Hr |]. rewrite Hr.
    destruct (net (kegg_url endpoint) (length (requests w))) as [resp | e];
      [| reflexivity].
    cbn [fails_plain]. destruct (status_code resp =? 200); [intros H; discriminate H | reflexivity].
Qed.

Lemma disease_requests_retried_drug_requests_not_witness :
  (exists r w' urls,
      get_disease_pathways (flaky_server 2 ok_response) half elements "H00001" world0
      = (Ok r, w')
      /\ issued world0 w' urls
      /\ retried (flaky_server 2 ok_response) 20 0 urls)
  /\ (exists w', get_disease_pathways down_server half elements "H00001" world0
                 = (Ok (elements (∅ : gset string), "H00001"), w')
                 /\ length (requests w') = 60%nat)
  /\ (exists w', kegg_api_request down_server "get/D00001" world0 = (Ok None, w')
                 /\ requests w' = ["http://rest.kegg.jp/get/D00001"]
                 /\ calls (rate_limiter w') = [0%Q]).
Proof.
  destruct (disease_requests_retried_drug_requests_not (flaky_server 2 ok_response) half
              elements "H00001" "get/D00001" world0 half_unit) as [H0 _]; [reflexivity |].
  destruct (disease_requests_retried_drug_requests_not down_server half elements
              "H00001" "get/D00001" world0 half_unit)
    as (_ & H1 & (r & w1' & w2 & _ & Hrun2 & Hiss2 & _ & _ & Hcalls & _ & _ & Hnone));
    [reflexivity |].
  destruct H1 as (w1 & Hrun1 & Hiss1); [reflexivity |].
  split; [exact H0 |]. split.
  - exists w1. split; [exact Hrun1 |]. unfold issued in Hiss1. rewrite Hiss1. reflexivity.
  - exists w2. rewrite (Hnone eq_refl) in Hrun2.
    split; [exact Hrun2 |]. split; [exact Hiss2 | exact Hcalls].
Defined.

Example flaky_disease_run :
  requests (snd (get_disease_pathways (flaky_server 2 ok_response) half elements
                   "H00001" world0))
  = [ "https://rest.kegg.jp/link/pathway/H00001";
      "https://rest.kegg.jp/link/pathway/H00001";
      "https://rest.kegg.jp/link/pathway/H00001";
      "https://rest.kegg.jp/get/H00001";
      "https://rest.kegg.jp/link/hsa/H00001" ].
Proof. vm_compute. reflexivity. Qed.

(** ** The end-to-end scenario *)

Lemma write_sql_file_single d p ps :
  write_sql_file [(d, p :: ps)]
  = (sql_header ++ map (insert_sql d) (p :: ps) ++ sql_footer,
     (Z.of_nat (length (p :: ps)), 1, 0)).
Proof.
  unfold write_sql_file. rewrite write_result_fold. unfold inserts_of.
  cbn [flat_map fst snd List.filter has_pathways negb length].
  rewrite app_nil_r, length_map, <- app_assoc. reflexivity.
Qed.

Lemma listing_two (listing : gset string -> list string) (a b : string) :
  (forall X, listing X ≡ₚ elements X) -> a <> b ->
  listing {[ a; b ]} = [a; b] \/ listing {[ a; b ]} = [b; a].
Proof.
  intros Hl Hab. apply Permutation_length_2_inv. rewrite Hl.
  rewrite elements_disj_union by set_solver. now rewrite !elements_singleton.
Qed.

Section Scenario.

Variable rnd : nat -> Q.
Variable listing : gset string -> list string.
Hypothesis rnd_unit : forall i, (0 <= rnd i < 1)%Q.

Lemma get_disease_pathways_mock w :
  exists w', get_disease_pathways mock_net rnd listing "H00001" w
             = (Ok (listing {[ "hsa04910"; "hsa04930" ]}, "H00001"), w')
             /\ issued w w' [ "https://rest.kegg.jp/link/pathway/H00001";
                              "https://rest.kegg.jp/get/H00001";
                              "https://rest.kegg.jp/link/hsa/H00001" ].
Proof.
  assert (Hd : (0 <= 1)%Q) by discriminate.
  destruct (make_request_with_retry_success mock_net rnd rnd_unit
              "https://rest.kegg.jp/link/pathway/H00001" 20 1 link_answer 0 w Hd)
    as (w1 & Hrun1 & Hiss1 & _); [lia | intros; lia | reflexivity | reflexivity |].
  destruct (make_request_with_retry_success mock_net rnd rnd_unit
              "https://rest.kegg.jp/get/H00001" 20 1 entry_answer 0 w1 Hd)
    as (w2 & Hrun2 & Hiss2 & _); [lia | intros; lia | reflexivity | reflexivity |].
  destruct (make_request_with_retry_success mock_net rnd rnd_unit
              "https://rest.kegg.jp/link/hsa/H00001" 20 1 no_data 0 w2 Hd)
    as (w3 & Hrun3 & Hiss3 & _); [lia | intros; lia | reflexivity | reflexivity |].
  exists w3. split.
  - unfold get_disease_pathways. unfold bind at 1.
    change ("https://rest.kegg.jp/link/pathway/" +:+ "H00001")
      with "https://rest.kegg.jp/link/pathway/H00001".
    rewrite Hrun1. unfold bind at 1.
    change ("https://rest.kegg.jp/get/" +:+ "H00001") with "https://rest.kegg.jp/get/H00001".
    rewrite Hrun2. unfold bind at 1.
    change ("https://rest.kegg.jp/link/hsa/" +:+ "H00001")
      with "https://rest.kegg.jp/link/hsa/H00001".
    rewrite Hrun3.
    (* the three answers are closed terms: the scan is a computation *)
    reflexivity.
  - change [ "https://rest.kegg.jp/link/pathway/H00001";
             "https://rest.kegg.jp/get/H00001";
             "https://rest.kegg.jp/link/hsa/H00001" ]
      with (repeat "https://rest.kegg.jp/link/pathway/H00001" 1
              ++ repeat "https://rest.kegg.jp/get/H00001" 1
              ++ repeat "https://rest.kegg.jp/link/hsa/H00001" 1).
    eapply issued_trans; [exact Hiss1 |]. eapply issued_trans; eassumption.
Qed.

Lemma process_diseases_chunk_mock chunk_id w :
  exists w', process_diseases_chunk mock_net rnd listing ["H00001"] chunk_id w
             = (Ok [("H00001", listing {[ "hsa04910"; "hsa04930" ]})], w').
Proof.
  destruct (get_disease_pathways_mock w) as (w1 & Hrun & _).
  eexists. unfold process_diseases_chunk, process_diseases_chunk_with.
  rewrite (process_chunk_returned rnd rnd_unit _ chunk_id [] "H00001" [] _ w w1 Hrun).
  reflexivity.
Qed.

Lemma single_chunk n_workers :
  1 <= n_workers -> disease_chunks ["H00001"] n_workers = [["H00001"]].
Proof.
  intros Hn. unfold disease_chunks. cbn [length].
  replace (Z.max 1 (Z.of_nat 1 / n_workers)) with 1; [reflexivity |].
  symmetry. apply Z.max_l. apply Z.div_le_upper_bound; lia.
Qed.

Lemma main_from_mock n_workers w :
  1 <= n_workers ->
  exists w', main_from mock_net rnd listing ["H00001"] n_workers w
             = (Ok (Some (write_sql_file [("H00001", listing {[ "hsa04910"; "hsa04930" ]})])),
                w').
Proof.
  intros Hn. destruct (process_diseases_chunk_mock 0 w) as (w' & Hrun).
  exists w'. unfold main_from. cbv iota.
  destruct (Z.eqb_spec n_workers 0); [lia |].
  destruct (Z.ltb_spec n_workers 1); [lia |].
  rewrite (single_chunk n_workers Hn).
  change (enumerate [["H00001"]]) with [(["H00001"], 0)].
  cbn [starmap_chunks]. unfold bind at 1, bind at 1. rewrite Hrun. reflexivity.
Qed.

End Scenario.

(** C5 — for the disease list [["H00001"]] and the mock server (the
    pathway-link endpoint names hsa04910, the entry has a [PATHWAY] section
    naming hsa04930, the gene endpoints return no data), the worker computes
    the set {hsa04910, hsa04930} for H00001 and the SQL file holds exactly
    two INSERT statements, one for each pathway, between the header and the
    commit. *)
Theorem end_to_end_H00001
  (rnd : nat -> Q) (listing : gset string -> list string) (n_workers : Z) (w : World) :
  (forall i, (0 <= rnd i < 1)%Q) ->
  (forall X, listing X ≡ₚ elements X) ->
  1 <= n_workers ->
  exists pathways w1 w2,
    get_disease_pathways mock_net rnd listing "H00001" w = (Ok (pathways, "H00001"), w1)
    /\ pathways = listing {[ "hsa04910"; "hsa04930" ]}
    /\ (pathways = ["hsa04910"; "hsa04930"] \/ pathways = ["hsa04930"; "hsa04910"])
    /\ issued w w1 [ "https://rest.kegg.jp/link/pathway/H00001";
                     "https://rest.kegg.jp/get/H00001";
                     "https://rest.kegg.jp/link/hsa/H00001" ]
    /\ main_from mock_net rnd listing ["H00001"] n_workers w
       = (Ok (Some (sql_header ++ map (insert_sql "H00001") pathways ++ sql_footer,
                    (2, 1, 0))), w2)
    /\ length (map (insert_sql "H00001") pathways) = 2%nat
    /\ insert_sql "H00001" "hsa04910"
       = "INSERT INTO DiseasePathways (disease_id, pathway_id) VALUES ('H00001', 'path:hsa04910');"
           +:+ NL
    /\ insert_sql "H00001" "hsa04930"
       = "INSERT INTO DiseasePathways (disease_id, pathway_id) VALUES ('H00001', 'path:hsa04930');"
           +:+ NL.
Proof.
  intros Hrnd Hl Hn.
  destruct (get_disease_pathways_mock rnd listing Hrnd w) as (w1 & Hrun & Hiss).
  destruct (main_from_mock rnd listing Hrnd n_workers w Hn) as (w2 & Hmain).
  assert (Htwo : listing {[ "hsa04910"; "hsa04930" ]} = ["hsa04910"; "hsa04930"]
                 \/ listing {[ "hsa04910"; "hsa04930" ]} = ["hsa04930"; "hsa04910"])
    by (apply listing_two; [exact Hl | discriminate]).
  exists (listing {[ "hsa04910"; "hsa04930" ]}), w1, w2.
  split; [exact Hrun |]. split; [reflexivity |]. split; [exact Htwo |].
  split; [exact Hiss |]. split.
  - rewrite Hmain. destruct Htwo as [-> | ->]; now rewrite write_sql_file_single.
  - split; [| split; reflexivity].
    rewrite length_map. now destruct Htwo as [-> | ->].
Qed.

Lemma end_to_end_H00001_witness :
  exists pathways w1 w2,
    get_disease_pathways mock_net half elements "H00001" world0 = (Ok (pathways, "H00001"), w1)
    /\ (pathways = ["hsa04910"; "hsa04930"] \/ pathways = ["hsa04930"; "hsa04910"])
    /\ main_from mock_net half elements ["H00001"] 4 world0
       = (Ok (Some (sql_header ++ map (insert_sql "H00001") pathways ++ sql_footer,
                    (2, 1, 0))), w2).
Proof.
  destruct (end_to_end_H00001 half elements 4 world0 half_unit)
    as (pathways & w1 & w2 & Hrun & _ & Htwo & _ & Hmain & _).
  - intros X. reflexivity.
  - lia.
  - exists pathways, w1, w2. repeat split; assumption.
Defined.

(** * Further properties *)

(** ** The codes the extractors return *)

Lemma take_digits_all s : all_digits (re.take_digits s) = true.
Proof.
  induction s as [| c s IH]; [reflexivity |].
  cbn [re.take_digits]. destruct (Py.isdigit c) eqn:E; [| reflexivity].
  unfold all_digits in *. cbn [list_ascii_of_string forallb]. now rewrite E, IH.
Qed.

Lemma match_here_code lit s m :
  re.match_here (re.Digits1 lit) s = Some m -> is_code lit m.
Proof.
  cbn [re.match_here]. destruct (String.prefix lit s); [| discriminate].
  destruct (re.take_digits (Py.drop (String.length lit) s)) as [| c ds] eqn:E; [discriminate |].
  intros [= <-]. exists (String c ds). repeat split; [discriminate |].
  rewrite <- E. apply take_digits_all.
Qed.

Lemma findall_from_codes lit s : forall skip,
  Forall (is_code lit) (re.findall_from (re.Digits1 lit) skip s).
Proof.
  induction s as [| c s IH]; intros skip; [constructor |].
  cbn [re.findall_from]. destruct skip as [| k]; [| apply IH].
  destruct (re.match_here (re.Digits1 lit) (String c s)) as [m |] eqn:E; [| apply IH].
  constructor; [eapply match_here_code, E | apply IH].
Qed.

Lemma findall_codes lit s : Forall (is_code lit) (re.findall (re.Digits1 lit) s).
Proof. apply findall_from_codes. Qed.

(** A scan keeps a property of the list it builds when each step does. *)
Lemma scan_keeps {A} (P : list A -> Prop) (step : list A * bool -> string -> list A * bool) :
  (forall acc b line, P acc -> P (fst (step (acc, b) line))) ->
  forall lines acc b, P acc -> P (fst (fold_left step lines (acc, b))).
Proof.
  intros Hstep lines. induction lines as [| line rest IH]; intros acc b Hacc; [exact Hacc |].
  cbn [fold_left]. destruct (step (acc, b) line) as [acc' b'] eqn:E.
  apply IH. specialize (Hstep acc b line Hacc). now rewrite E in Hstep.
Qed.

Lemma extract_pathways_step_codes acc b line :
  Forall (fun c => exists code, c = "path:" +:+ code /\ is_code "hsa" code) acc ->
  Forall (fun c => exists code, c = "path:" +:+ code /\ is_code "hsa" code)
    (fst (extract_pathways_step (acc, b) line)).
Proof.
  intros Hacc.
  assert (Hnew : Forall (fun c => exists code, c = "path:" +:+ code /\ is_code "hsa" code)
                   (map (fun m => "path:" +:+ m) (re.findall re.hsa_digits line))).
  { apply Forall_map. eapply Forall_impl; [apply (findall_codes "hsa" line) |].
    intros code Hc. now exists code. }
  unfold extract_pathways_step.
  destruct (Py.startswith line "PATHWAY"); [apply Forall_app; now split |].
  destruct (b && Py.startswith line "  "); [apply Forall_app; now split |].
  now destruct (negb (Py.startswith line "  ")).
Qed.

Lemma extract_targets_step_codes acc b line :
  Forall (is_code "hsa:") acc ->
  Forall (is_code "hsa:") (fst (extract_targets_step (acc, b) line)).
Proof.
  intros Hacc. pose proof (findall_codes "hsa:" line) as Hnew.
  unfold extract_targets_step.
  destruct (Py.startswith line "TARGET"); [apply Forall_app; now split |].
  destruct (b && Py.startswith line "  "); [apply Forall_app; now split |].
  now destruct (negb (Py.startswith line "  ")).
Qed.

Lemma extract_drugs_step_codes acc b line :
  Forall (is_code "D") acc ->
  Forall (is_code "D") (fst (extract_drugs_step (acc, b) line)).
Proof.
  intros Hacc. pose proof (findall_codes "D" line) as Hnew.
  unfold extract_drugs_step.
  destruct (Py.startswith line "DRUG"); [apply Forall_app; now split |].
  destruct (b && Py.startswith line "  "); [apply Forall_app; now split |].
  now destruct (negb (Py.startswith line "  ")).
Qed.

(** X1 — whatever the text, the three extractors of the drug script return
    well-formed codes only: [_extract_pathways_from_entry] returns [path:]
    followed by [hsa] and at least one digit, [_extract_drug_targets]
    returns [hsa:] followed by at least one digit, and
    [_extract_drugs_from_pathway] returns [D] followed by at least one
    digit. *)
Theorem extractors_return_codes (entry_text : string) :
  Forall (fun c => exists code, c = "path:" +:+ code /\ is_code "hsa" code)
    (_extract_pathways_from_entry entry_text)
  /\ Forall (is_code "hsa:") (_extract_drug_targets entry_text)
  /\ Forall (is_code "D") (_extract_drugs_from_pathway entry_text).
Proof.
  split; [| split].
  - apply (scan_keeps _ extract_pathways_step); [| constructor].
    intros acc b line. apply extract_pathways_step_codes.
  - apply (scan_keeps _ extract_targets_step); [| constructor].
    intros acc b line. apply extract_targets_step_codes.
  - apply (scan_keeps _ extract_drugs_step); [| constructor].
    intros acc b line. apply extract_drugs_step_codes.
Qed.

Lemma targets_outside lines : forall acc,
  Forall (fun line => Py.startswith line "TARGET" = false) lines ->
  fold_left extract_targets_step lines (acc, false) = (acc, false).
Proof.
  induction lines as [| line rest IH]; intros acc HF; [reflexivity |].
  inversion HF as [| ? ? Hl Hrest]; subst. cbn [fold_left].
  replace (extract_targets_step (acc, false) line) with (acc, false); [now apply IH |].
  unfold extract_targets_step. rewrite Hl. simpl.
  now destruct (Py.startswith line "  ").
Qed.

Lemma drugs_outside lines : forall acc,
  Forall (fun line => Py.startswith line "DRUG" = false) lines ->
  fold_left extract_drugs_step lines (acc, false) = (acc, false).
Proof.
  induction lines as [| line rest IH]; intros acc HF; [reflexivity |].
  inversion HF as [| ? ? Hl Hrest]; subst. cbn [fold_left].
  replace (extract_drugs_step (acc, false) line) with (acc, false); [now apply IH |].
  unfold extract_drugs_step. rewrite Hl. simpl.
  now destruct (Py.startswith line "  ").
Qed.

(** X2 — an entry without the section yields nothing: when no line begins
    with [PATHWAY] (with [TARGET], with [DRUG]) the extractor of that
    section returns the empty list, whatever codes the text holds
    elsewhere. *)
Theorem extractors_tolerate_missing_section (entry_text : string) :
  (Forall no_header (Py.split LF entry_text) ->
   _extract_pathways_from_entry entry_text = [])
  /\ (Forall (fun line => Py.startswith line "TARGET" = false) (Py.split LF entry_text) ->
      _extract_drug_targets entry_text = [])
  /\ (Forall (fun line => Py.startswith line "DRUG" = false) (Py.split LF entry_text) ->
      _extract_drugs_from_pathway entry_text = []).
Proof.
  split; [| split]; intros HF.
  - unfold _extract_pathways_from_entry. now rewrite extract_outside.
  - unfold _extract_drug_targets. now rewrite targets_outside.
  - unfold _extract_drugs_from_pathway. now rewrite drugs_outside.
Qed.

Lemma extractors_tolerate_missing_section_witness :
  _extract_pathways_from_entry
    ("ENTRY       D00001" +:+ NL +:+ "COMMENT     see hsa04930" +:+ NL +:+ "  hsa04910") = []
  /\ _extract_drug_targets
       ("ENTRY       D00001" +:+ NL +:+ "COMMENT     see hsa:3630" +:+ NL +:+ "  hsa:3643") = []
  /\ _extract_drugs_from_pathway
       ("ENTRY       hsa04930" +:+ NL +:+ "COMMENT     see D00001" +:+ NL +:+ "  D00002") = [].
Proof.
  split; [| split].
  - apply (proj1 (extractors_tolerate_missing_section _)). repeat constructor.
  - apply (proj1 (proj2 (extractors_tolerate_missing_section _))). repeat constructor.
  - apply (proj2 (proj2 (extractors_tolerate_missing_section _))). repeat constructor.
Defined.

(** ** The rate limiter: when it raises, and the shape of its queue *)

(** X3 — [acquire] raises exactly when the limiter allows no call at all
    ([max_calls <= 0]) and no timestamp younger than the period is left in
    the queue: the test [qsize() >= max_calls] then passes on an empty
    queue and [queue[0]] raises [IndexError]; nothing is recorded for that
    call.  A limiter with [max_calls >= 1] never raises. *)
Theorem acquire_raises_iff (w : World) :
  let self := rate_limiter w in
  let queue := evict (clock w) (time_period self) (calls self) in
  ((exists e w', acquire w = (Raised e, w')) <-> (max_calls self <= 0 /\ queue = []))
  /\ (max_calls self <= 0 -> queue = [] ->
      acquire w = (Raised (IndexError "deque index out of range"), set_calls [] w))
  /\ (1 <= max_calls self -> exists w', acquire w = (Ok tt, w')).
Proof.
  intros self queue.
  assert (Hraise : max_calls self <= 0 -> queue = [] ->
                   acquire w = (Raised (IndexError "deque index out of range"),
                                set_calls [] w)).
  { intros Hm Hq. unfold acquire, bind, time_time, get_limiter, put_calls.
    fold self. fold queue. rewrite Hq. cbn [length].
    destruct (Z.geb_spec (Z.of_nat 0) (max_calls self)); [reflexivity | lia]. }
  split; [| split; [exact Hraise |]].
  - split.
    + intros (e & w' & Hrun).
      destruct (Z.lt_ge_cases (Z.of_nat (length queue)) (max_calls self)) as [Hlt | Hge].
      * rewrite (acquire_no_wait w Hlt) in Hrun. discriminate Hrun.
      * destruct queue as [| oldest rest] eqn:Eq; [cbn [length] in Hge; split; [lia | reflexivity] |].
        rewrite (acquire_wait w oldest rest Eq) in Hrun by (fold self; fold queue; now rewrite Eq).
        discriminate Hrun.
    + intros [Hm Hq]. eexists; eexists. now apply Hraise.
  - intros Hm. destruct (acquire_total w) as (w' & Hrun & _); [fold self; lia |].
    now exists w'.
Qed.

Lemma acquire_raises_iff_witness :
  acquire (with_limiter (fresh_limiter 0 60) world0)
  = (Raised (IndexError "deque index out of range"),
     set_calls [] (with_limiter (fresh_limiter 0 60) world0))
  /\ exists w', acquire world0 = (Ok tt, w').
Proof.
  split.
  - apply (proj1 (proj2 (acquire_raises_iff (with_limiter (fresh_limiter 0 60) world0))));
      [cbn; lia | reflexivity].
  - apply (proj2 (proj2 (acquire_raises_iff world0))). cbn. lia.
Defined.

(** X4 — the queue of a limiter with [max_calls >= 1] stays in order
    through any sequence of acquisitions made as time goes on: no
    acquisition raises, each completes no earlier than it was asked for,
    the timestamps stay in ascending order and never lie in the future, and
    the queue never holds more than [max_calls + 1] of them. *)
Theorem limiter_queue_stays_in_order (gaps : list Q) (w : World) :
  limiter_in_order w ->
  1 <= max_calls (rate_limiter w) ->
  Forall (fun g => (0 <= g)%Q) gaps ->
  exists times w',
    acquisitions gaps w = (Ok times, w')
    /\ length times = length gaps
    /\ Forall (fun t => (fst t <= snd t)%Q) times
    /\ limiter_in_order w'
    /\ Z.of_nat (length (calls (rate_limiter w'))) <= max_calls (rate_limiter w) + 1.
Proof.
  revert w. induction gaps as [| g rest IH]; intros w Hinv Hm Hg.
  - exists [], w. repeat split; [constructor | apply Hinv..].
  - inversion Hg as [| ? ? Hg0 Hrest]; subst.
    destruct (limiter_in_order_step g w Hinv Hm Hg0) as (w1 & Hacq & Hclk & Hmax & Hinv1).
    destruct (IH w1 Hinv1) as (times & w' & Hrun & Hlen & Hall & Hinv' & Hbound);
      [lia | exact Hrest |].
    exists ((clock (pass_time g w), clock w1) :: times), w'.
    rewrite acquisitions_cons, Hacq, Hrun. cbn [length].
    split; [reflexivity |]. split; [now rewrite Hlen |].
    split; [constructor; [exact Hclk | exact Hall] |].
    split; [exact Hinv' | now rewrite <- Hmax].
Qed.

Lemma limiter_queue_stays_in_order_witness :
  exists times w',
    acquisitions [0; 1; 2; 0]%Q (with_limiter (fresh_limiter 2 60) world0) = (Ok times, w')
    /\ Z.of_nat (length (calls (rate_limiter w'))) <= 2 + 1.
Proof.
  destruct (limiter_queue_stays_in_order [0; 1; 2; 0]%Q
              (with_limiter (fresh_limiter 2 60) world0))
    as (times & w' & Hrun & _ & _ & _ & Hbound).
  - unfold limiter_in_order. cbn. repeat split; [constructor | constructor | lia |].
    intros H. lia.
  - cbn. lia.
  - repeat constructor; discriminate.
  - exists times, w'. split; [exact Hrun | exact Hbound].
Defined.

Example limiter_queue_can_exceed_max_calls :
  calls (rate_limiter (snd (acquisitions [0; 1; 2]%Q
                              (with_limiter (fresh_limiter 2 60) world0))))
  = [0; 1; 3]%Q.
Proof. vm_compute. reflexivity. Qed.

(** ** How long a failing URL keeps the caller asleep *)

Lemma total_nil : total [] = 0%Q.
Proof. reflexivity. Qed.

Lemma total_cons d delays : total (d :: delays) = (d + total delays)%Q.
Proof. reflexivity. Qed.

Lemma make_request_attempt_keeps net url mr a w r w' :
  make_request_attempt net url mr a w = (r, w') ->
  clock w' = clock w /\ sleeps w' = sleeps w /\ randoms w' = randoms w.
Proof.
  unfold make_request_attempt, try_except, bind, requests_get, print, ret.
  destruct (net url (length (requests w))) as [resp | e].
  - destruct (status_code resp =? 200); intros [= <- <-]; repeat split.
  - intros [= <- <-]. repeat split.
Qed.

Lemma request_attempt_keeps net url a w r w' :
  request_attempt net url a w = (r, w') ->
  clock w' = clock w /\ sleeps w' = sleeps w /\ randoms w' = randoms w.
Proof.
  unfold request_attempt, try_except, bind, requests_get, print, ret.
  destruct (net url (length (requests w))) as [resp | e].
  - destruct ((status_code resp =? 200) && Py.truthy (Py.strip (text resp)));
      intros [= <- <-]; repeat split.
  - intros [= <- <-]. repeat split.
Qed.

(** The clock moves by what is slept, in both helpers. *)
Lemma make_request_loop_clock net rnd url mr d0 attempts : forall w r w',
  make_request_loop net rnd url mr d0 attempts w = (r, w') ->
  exists delays, sleeps w' = sleeps w ++ delays
                 /\ (clock w' == clock w + total delays)%Q.
Proof.
  induction attempts as [| a rest IH]; intros w r w'.
  - intros [= <- <-]. exists []. rewrite app_nil_r. split; [reflexivity |]. rewrite total_nil. lra.
  - cbn [make_request_loop]. unfold bind at 1.
    destruct (make_request_attempt net url mr a w) as [[[resp |] | e] w1] eqn:Ea;
      destruct (make_request_attempt_keeps _ _ _ _ _ _ _ Ea) as (Hc & Hs & _).
    + intros [= <- <-]. exists []. rewrite app_nil_r, Hc, Hs. split; [reflexivity |]. rewrite total_nil. lra.
    + unfold bind, random_uniform, sleep.
      destruct (Qltb _ 0).
      * intros [= <- <-]. exists []. cbn [sleeps clock next_random].
        rewrite app_nil_r, Hc, Hs. split; [reflexivity |]. rewrite total_nil. lra.
      * intros Hrun. destruct (IH _ _ _ Hrun) as (delays & Hs' & Hc').
        cbn [sleeps clock add_sleep next_random] in Hs', Hc'.
        eexists (_ :: delays). rewrite Hs', Hs, <- app_assoc. split; [reflexivity |].
        rewrite Hc', Hc, total_cons. lra.
    + intros [= <- <-]. exists []. rewrite app_nil_r, Hc, Hs. split; [reflexivity |]. rewrite total_nil. lra.
Qed.

Lemma request_loop_clock net rnd url d0 attempts : forall w r w',
  request_loop net rnd url d0 attempts w = (r, w') ->
  exists delays, sleeps w' = sleeps w ++ delays
                 /\ (clock w' == clock w + total delays)%Q.
Proof.
  induction attempts as [| a rest IH]; intros w r w'.
  - intros [= <- <-]. exists []. rewrite app_nil_r. split; [reflexivity |]. rewrite total_nil. lra.
  - cbn [request_loop]. unfold bind at 1.
    destruct (request_attempt net url a w) as [[[resp |] | e] w1] eqn:Ea;
      destruct (request_attempt_keeps _ _ _ _ _ _ Ea) as (Hc & Hs & _).
    + intros [= <- <-]. exists []. rewrite app_nil_r, Hc, Hs. split; [reflexivity |]. rewrite total_nil. lra.
    + unfold bind, random_uniform, sleep.
      destruct (Qltb _ 0).
      * intros [= <- <-]. exists []. cbn [sleeps clock next_random].
        rewrite app_nil_r, Hc, Hs. split; [reflexivity |]. rewrite total_nil. lra.
      * intros Hrun. destruct (IH _ _ _ Hrun) as (delays & Hs' & Hc').
        cbn [sleeps clock add_sleep next_random] in Hs', Hc'.
        eexists (_ :: delays). rewrite Hs', Hs, <- app_assoc. split; [reflexivity |].
        rewrite Hc', Hc, total_cons. lra.
    + intros [= <- <-]. exists []. rewrite app_nil_r, Hc, Hs. split; [reflexivity |]. rewrite total_nil. lra.
Qed.

Lemma total_bounds (lo hi : Q) (delays : list Q) :
  Forall (fun d => (lo <= d <= hi)%Q) delays ->
  (inject_Z (Z.of_nat (length delays)) * lo <= total delays
   <= inject_Z (Z.of_nat (length delays)) * hi)%Q.
Proof.
  induction 1 as [| d delays [Hlo Hhi] _ [IHlo IHhi]].
  - rewrite total_nil. cbn [length]. change (inject_Z (Z.of_nat 0)) with 0%Q. lra.
  - rewrite total_cons. cbn [length]. rewrite Nat2Z.inj_succ. unfold Z.succ.
    rewrite inject_Z_plus. change (inject_Z 1) with 1%Q. split; nra.
Qed.

Lemma retry_delays_window rnd d0 r0 n :
  (forall i, (0 <= rnd i < 1)%Q) -> (0 <= d0)%Q -> (d0 + 1 <= 60)%Q ->
  Forall (fun d => (d0 <= d <= d0 + 1)%Q) (retry_delays rnd d0 r0 n).
Proof.
  intros Hrnd Hd Hcap. unfold retry_delays. apply Forall_map, Forall_forall.
  intros i _. destruct (Hrnd (r0 + i)%nat) as [H0 H1].
  unfold retry_delay, uniform_of.
  destruct (Qmin_py_cases (d0 + (0 + (1 - 0) * rnd (r0 + i)%nat)) 60) as [[H ->] | [H ->]];
    split; lra.
Qed.

Lemma request_delays_window rnd d0 r0 n :
  (forall i, (0 <= rnd i < 1)%Q) ->
  Forall (fun d => (d0 + (1 # 10) <= d <= d0 + 1)%Q) (request_delays rnd d0 r0 n).
Proof.
  intros Hrnd. unfold request_delays. apply Forall_map, Forall_forall.
  intros i _. destruct (Hrnd (r0 + i)%nat) as [H0 H1].
  unfold request_delay, uniform_of. split; lra.
Qed.

(** X5 — a URL that fails on every attempt keeps the caller of a retry
    helper asleep for a time proportional to [max_retries]: between
    [max_retries * base] and [max_retries * (base + 1)] seconds in
    [make_request_with_retry] (for [base <= 59], below the cap), and
    between [max_retries * (base + 0.1)] and [max_retries * (base + 1)]
    seconds in [request_with_retry]; both sleep after the last attempt as
    well, once per attempt. *)
Theorem failing_url_sleeps
  (net : string -> nat -> outcome) (rnd : nat -> Q) (url : string)
  (max_retries : Z) (base : Q) (w : World) :
  (forall i, (0 <= rnd i < 1)%Q) ->
  (0 <= base)%Q -> (base + 1 <= 60)%Q -> 0 <= max_retries ->
  (forall n, fails_plain (net url n) = true) ->
  exists w1 w2,
    make_request_with_retry net rnd url max_retries base w = (Ok None, w1)
    /\ Z.of_nat (length (sleeps w1)) = Z.of_nat (length (sleeps w)) + max_retries
    /\ (inject_Z max_retries * base <= clock w1 - clock w
        <= inject_Z max_retries * (base + 1))%Q
    /\ request_with_retry net rnd url max_retries base w = (Ok None, w2)
    /\ Z.of_nat (length (sleeps w2)) = Z.of_nat (length (sleeps w)) + max_retries
    /\ (inject_Z max_retries * (base + (1 # 10)) <= clock w2 - clock w
        <= inject_Z max_retries * (base + 1))%Q.
Proof.
  intros Hrnd Hb Hcap Hm Hf.
  destruct (make_request_with_retry_exhausts net rnd Hrnd url max_retries base w Hb)
    as (w1 & Hrun1 & _ & Hs1 & _); [intros; apply Hf |].
  destruct (request_with_retry_exhausts net rnd Hrnd url max_retries base w Hb)
    as (w2 & Hrun2 & _ & Hs2 & _); [intros; apply fails_plain_or_blank, Hf |].
  exists w1, w2.
  assert (Hlen1 : length (retry_delays rnd base (randoms w) (Z.to_nat max_retries))
                  = Z.to_nat max_retries)
    by (unfold retry_delays; now rewrite length_map, length_seq).
  assert (Hlen2 : length (request_delays rnd base (randoms w) (Z.to_nat max_retries))
                  = Z.to_nat max_retries)
    by (unfold request_delays; now rewrite length_map, length_seq).
  assert (Hn : Z.of_nat (Z.to_nat max_retries) = max_retries) by lia.
  split; [exact Hrun1 |]. split; [rewrite Hs1, length_app, Hlen1; lia |]. split.
  { unfold make_request_with_retry, bind in Hrun1.
    destruct (make_request_loop net rnd url max_retries base (Py.range max_retries) w)
      as [[[r |] | e] u] eqn:El; try discriminate Hrun1.
    destruct (make_request_loop_clock _ _ _ _ _ _ _ _ _ El) as (delays & Hsd & Hcd).
    injection Hrun1 as <-. cbn [sleeps clock add_stdout] in Hs1 |- *.
    unfold slept in Hs1. cbn [sleeps add_stdout] in Hs1. rewrite Hsd in Hs1.
    apply app_inv_head in Hs1. subst delays.
    pose proof (total_bounds base (base + 1) _
                  (retry_delays_window rnd base (randoms w) (Z.to_nat max_retries)
                     Hrnd Hb Hcap)) as Hbounds.
    rewrite Hlen1, Hn in Hbounds. lra. }
  split; [exact Hrun2 |]. split; [rewrite Hs2, length_app, Hlen2; lia |].
  unfold request_with_retry, bind in Hrun2.
  destruct (request_loop net rnd url base (Py.range_from 1 (max_retries + 1)) w)
    as [[[r |] | e] u] eqn:El; try discriminate Hrun2.
  destruct (request_loop_clock _ _ _ _ _ _ _ _ El) as (delays & Hsd & Hcd).
  injection Hrun2 as <-. cbn [sleeps clock add_stdout] in Hs2 |- *.
  unfold slept in Hs2. cbn [sleeps add_stdout] in Hs2. rewrite Hsd in Hs2.
  apply app_inv_head in Hs2. subst delays.
  pose proof (total_bounds (base + (1 # 10)) (base + 1) _
                (request_delays_window rnd base (randoms w) (Z.to_nat max_retries) Hrnd))
    as Hbounds.
  rewrite Hlen2, Hn in Hbounds. lra.
Qed.

Lemma failing_url_sleeps_witness :
  exists w1 w2,
    make_request_with_retry down_server half "https://rest.kegg.jp/list/disease" 20 1 world0
    = (Ok None, w1)
    /\ (inject_Z 20 * 1 <= clock w1 - clock world0 <= inject_Z 20 * (1 + 1))%Q
    /\ request_with_retry down_server half "https://rest.kegg.jp/list/drug" 20 1 world0
       = (Ok None, w2).
Proof.
  destruct (failing_url_sleeps down_server half "https://rest.kegg.jp/list/disease" 20 1
              world0 half_unit) as (w1 & _ & Hrun1 & _ & Hclock & _);
    [discriminate | discriminate | lia | reflexivity |].
  destruct (failing_url_sleeps down_server half "https://rest.kegg.jp/list/drug" 20 1
              world0 half_unit) as (_ & w2 & _ & _ & _ & Hrun2 & _);
    [discriminate | discriminate | lia | reflexivity |].
  exists w1, w2. repeat split; try assumption; apply Hclock.
Defined.

(** ** The other workers of the drug script *)

Lemma drug_pairs_known pathway_ids drug_id data :
  Forall (fun pair => fst pair = drug_id /\ snd pair ∈ pathway_ids)
    (drug_pairs pathway_ids drug_id data).
Proof.
  unfold drug_pairs. destruct data as [d |]; [| constructor].
  destruct (Py.truthy d); [| constructor].
  apply Forall_map, Forall_forall. intros p Hp. apply list_elem_of_In in Hp.
  apply filter_In in Hp as [_ Hp]. apply bool_decide_eq_true in Hp. now split.
Qed.

Lemma pathway_pairs_known drug_ids pathway_id data :
  Forall (fun pair => fst pair ∈ drug_ids /\ snd pair = pathway_id)
    (pathway_pairs drug_ids pathway_id data).
Proof.
  unfold pathway_pairs. destruct data as [d |]; [| constructor].
  destruct (Py.truthy d); [| constructor].
  apply Forall_map, Forall_forall. intros p Hp. apply list_elem_of_In in Hp.
  apply filter_In in Hp as [_ Hp]. apply bool_decide_eq_true in Hp. now split.
Qed.

Section DrugWorkerFacts.

Variable net : string -> nat -> outcome.

Lemma process_drug_batch_known pathway_ids drug_batch : forall pairs w,
  0 < max_calls (rate_limiter w) ->
  exists new w',
    process_drug_batch_from net pathway_ids pairs drug_batch w = (Ok (pairs ++ new), w')
    /\ Forall (fun pair => fst pair ∈ drug_batch /\ snd pair ∈ pathway_ids) new.
Proof.
  induction drug_batch as [| d rest IH]; intros pairs w Hm.
  - exists [], w. rewrite app_nil_r. split; [reflexivity | constructor].
  - destruct (kegg_api_request_once net ("get/" +:+ d) w Hm) as (r & w1 & Hreq & _ & Hmax & _).
    destruct (IH (pairs ++ drug_pairs pathway_ids d r) w1) as (new & w' & Hrun & Hall);
      [lia |].
    exists (drug_pairs pathway_ids d r ++ new), w'. split.
    + cbn [process_drug_batch_from]. unfold bind. rewrite Hreq, Hrun.
      now rewrite <- app_assoc.
    + apply Forall_app. split.
      * eapply Forall_impl; [apply drug_pairs_known |]. cbn beta.
        intros pair [-> Hp]. split; [left | exact Hp].
      * eapply Forall_impl; [exact Hall |]. cbn beta.
        intros pair [Hd Hp]. split; [now right | exact Hp].
Qed.

Lemma process_pathway_batch_known drug_ids pathway_batch : forall pairs w,
  0 < max_calls (rate_limiter w) ->
  exists new w',
    process_pathway_batch_from net drug_ids pairs pathway_batch w = (Ok (pairs ++ new), w')
    /\ issued w w' (map (fun pathway_id => kegg_url ("get/" +:+ pathway_id)) pathway_batch)
    /\ Forall (fun pair => fst pair ∈ drug_ids /\ snd pair ∈ pathway_batch) new.
Proof.
  induction pathway_batch as [| p rest IH]; intros pairs w Hm.
  - exists [], w. unfold issued. rewrite !app_nil_r. repeat split. constructor.
  - destruct (kegg_api_request_once net ("get/" +:+ p) w Hm)
      as (r & w1 & Hreq & Hiss & Hmax & _).
    destruct (IH (pairs ++ pathway_pairs drug_ids p r) w1) as (new & w' & Hrun & Hiss' & Hall);
      [lia |].
    exists (pathway_pairs drug_ids p r ++ new), w'. split; [| split].
    + cbn [process_pathway_batch_from]. unfold bind. rewrite Hreq, Hrun.
      now rewrite <- app_assoc.
    + unfold issued in *. rewrite Hiss', Hiss, <- app_assoc. reflexivity.
    + apply Forall_app. split.
      * eapply Forall_impl; [apply pathway_pairs_known |]. cbn beta.
        intros pair [Hd ->]. split; [exact Hd | left].
      * eapply Forall_impl; [exact Hall |]. cbn beta.
        intros pair [Hd Hp]. split; [exact Hd | now right].
Qed.


End DrugWorkerFacts.

(** X6 — the batch workers of the drug script return known identifiers
    only: every pair of [process_drug_batch] joins a drug of the batch with
    a pathway of [self.pathway_ids], every pair of [process_pathway_batch]
    joins a drug of [self.drug_ids] with a pathway of the batch, and
    [process_pathway_batch] asks for each pathway of its batch once, in
    order. *)
Theorem batch_pairs_are_known
  (net : string -> nat -> outcome) (drug_ids pathway_ids batch : list string) (w : World) :
  0 < max_calls (rate_limiter w) ->
  (exists pairs w',
      process_drug_batch net pathway_ids batch w = (Ok pairs, w')
      /\ Forall (fun pair => fst pair ∈ batch /\ snd pair ∈ pathway_ids) pairs)
  /\ (exists pairs w',
         process_pathway_batch net drug_ids batch w = (Ok pairs, w')
         /\ issued w w' (map (fun pathway_id => kegg_url ("get/" +:+ pathway_id)) batch)
         /\ Forall (fun pair => fst pair ∈ drug_ids /\ snd pair ∈ batch) pairs).
Proof.
  intros Hm. split.
  - destruct (process_drug_batch_known net pathway_ids batch [] w Hm) as (new & w' & Hrun & H).
    now exists new, w'.
  - destruct (process_pathway_batch_known net drug_ids batch [] w Hm)
      as (new & w' & Hrun & Hiss & H).
    now exists new, w'.
Qed.

Lemma batch_pairs_are_known_witness :
  (exists pairs w',
      process_drug_batch mock_net ["path:hsa04930"] ["H00001"] world0 = (Ok pairs, w')
      /\ Forall (fun pair => fst pair ∈ ["H00001"] /\ snd pair ∈ ["path:hsa04930"]) pairs)
  /\ (exists pairs w',
         process_pathway_batch mock_net ["D00001"] ["hsa04930"] world0 = (Ok pairs, w')
         /\ issued world0 w' [kegg_url "get/hsa04930"]).
Proof.
  destruct (batch_pairs_are_known mock_net ["D00001"] ["path:hsa04930"] ["H00001"] world0)
    as [H1 _]; [reflexivity |].
  destruct (batch_pairs_are_known mock_net ["D00001"] ["path:hsa04930"] ["hsa04930"] world0)
    as [_ (pairs & w' & Hrun & Hiss & _)]; [reflexivity |].
  split; [exact H1 |]. exists pairs, w'. split; [exact Hrun | exact Hiss].
Defined.



(** X8 — the loop that ends [method5_disease_connections] pairs a drug
    with a pathway exactly when some disease of the drug has that pathway
    in its entry and the pathway is one of [self.pathway_ids]; a disease
    missing from the dictionary contributes nothing. *)
Theorem connect_drugs_joins
  (disease_drug_pairs : list (string * string))
  (disease_pathways : gmap string (list string)) (pathway_ids : list string)
  (drug_id pathway_id : string) :
  (drug_id, pathway_id) ∈ connect_drugs disease_drug_pairs disease_pathways pathway_ids
  <-> exists disease_id pathways,
        (disease_id, drug_id) ∈ disease_drug_pairs
        /\ disease_pathways !! disease_id = Some pathways
        /\ pathway_id ∈ pathways
        /\ pathway_id ∈ pathway_ids.
Proof.
  unfold connect_drugs. rewrite list_elem_of_In, in_flat_map. split.
  - intros ([disease d] & Hin & Hpair).
    destruct (disease_pathways !! disease) as [pathways |] eqn:Elook; [| contradiction].
    apply in_map_iff in Hpair as (p & [= <- <-] & Hp).
    apply filter_In in Hp as [Hp Hknown]. apply bool_decide_eq_true in Hknown.
    exists disease, pathways. rewrite !list_elem_of_In.
    repeat split; try assumption. now apply list_elem_of_In.
  - intros (disease & pathways & Hin & Hlook & Hp & Hknown).
    exists (disease, drug_id). split; [now apply list_elem_of_In |].
    rewrite Hlook. apply in_map_iff. exists pathway_id. split; [reflexivity |].
    apply filter_In. split; [now apply list_elem_of_In | now apply bool_decide_eq_true].
Qed.

(** ** The disease list, its chunks and the whole run *)

Lemma keep_disease_fold lines : forall acc,
  exists kept,
    fold_left keep_disease lines acc = acc ++ kept
    /\ forall id, id ∈ kept <->
                  exists line description,
                    line ∈ lines /\ Py.split TAB line = [id; description]
                    /\ Py.startswith id "H" = true.
Proof.
  induction lines as [| line rest IH]; intros acc.
  - exists []. rewrite app_nil_r. split; [reflexivity |]. intros id. split.
    + intros H. inversion H.
    + intros (l & _ & H & _). inversion H.
  - cbn [fold_left].
    assert (Hstep : exists here,
               keep_disease acc line = acc ++ here
               /\ forall id, id ∈ here <->
                             exists description, Py.split TAB line = [id; description]
                                                 /\ Py.startswith id "H" = true).
    { unfold keep_disease.
      destruct (Py.split TAB line) as [| f1 [| f2 [| f3 more]]] eqn:Es;
        try (exists []; rewrite app_nil_r; split; [reflexivity |]; intros id; split;
             [intros H; inversion H | intros (d & H & _); discriminate H]).
      destruct (Py.startswith f1 "H") eqn:Eh.
      - exists [f1]. split; [reflexivity |]. intros id. split.
        + intros H. apply list_elem_of_singleton in H as ->. now exists f2.
        + intros (d & [= -> ->] & _). now apply list_elem_of_singleton.
      - exists []. rewrite app_nil_r. split; [reflexivity |]. intros id. split.
        + intros H. inversion H.
        + intros (d & [= -> ->] & H). congruence. }
    destruct Hstep as (here & -> & Hhere).
    destruct (IH (acc ++ here)) as (kept & -> & Hkept).
    exists (here ++ kept). rewrite <- app_assoc. split; [reflexivity |].
    intros id. rewrite elem_of_app, Hhere, Hkept. split.
    + intros [(d & Hs & Hh) | (l & d & Hl & Hs & Hh)].
      * exists line, d. repeat split; [left | assumption..].
      * exists l, d. repeat split; [now right | assumption..].
    + intros (l & d & Hl & Hs & Hh). apply elem_of_cons in Hl as [-> | Hl].
      * left. now exists d.
      * right. now exists l, d.
Qed.

(** X9 — [get_kegg_diseases] never raises; it returns only identifiers
    beginning with [H].  When the list cannot be fetched it gives up after
    20 attempts, prints a line and returns the empty list; when the list is
    fetched it returns exactly the first fields of the lines that have two
    tab-separated fields and begin with [H]. *)
Theorem get_kegg_diseases_keeps_H_entries
  (net : string -> nat -> outcome) (rnd : nat -> Q) (w : World) :
  (forall i, (0 <= rnd i < 1)%Q) ->
  exists ids w',
    get_kegg_diseases net rnd w = (Ok ids, w')
    /\ Forall (fun id => Py.startswith id "H" = true) ids
    /\ ((forall n, fails_plain (net "https://rest.kegg.jp/list/disease" n) = true) ->
        ids = []
        /\ issued w w' (repeat "https://rest.kegg.jp/list/disease" 20)
        /\ last (stdout w') = Some "Could not retrieve disease list")
    /\ (forall resp,
           net "https://rest.kegg.jp/list/disease" (length (requests w)) = Answers resp ->
           status_code resp = 200 ->
           issued w w' ["https://rest.kegg.jp/list/disease"]
           /\ forall id, id ∈ ids <->
                         exists line description,
                           line ∈ Py.split LF (Py.strip (text resp))
                           /\ Py.split TAB line = [id; description]
                           /\ Py.startswith id "H" = true).
Proof.
  intros Hrnd. assert (Hd : (0 <= 1)%Q) by discriminate.
  destruct (make_request_with_retry_block net rnd Hrnd "https://rest.kegg.jp/list/disease" w)
    as (r & w1 & n & Hrun & _ & _).
  destruct (keep_disease_fold (Py.split LF (Py.strip (response_text r))) [])
    as (kept & Hfold & Hkept).
  cbn [app] in Hfold.
  assert (Hcases : get_kegg_diseases net rnd w
                   = if negb (response_truthy r)
                     then (Ok [], add_stdout "Could not retrieve disease list" w1)
                     else (Ok kept, w1)).
  { unfold get_kegg_diseases, bind. rewrite Hrun.
    destruct (negb (response_truthy r)); [reflexivity |]. unfold ret. now rewrite Hfold. }
  exists (if negb (response_truthy r) then [] else kept),
    (if negb (response_truthy r) then add_stdout "Could not retrieve disease list" w1 else w1).
  split; [rewrite Hcases; now destruct (negb (response_truthy r)) |].
  split; [| split].
  - destruct (negb (response_truthy r)); [constructor |].
    apply Forall_forall. intros id Hid. apply Hkept in Hid as (_ & _ & _ & _ & H). exact H.
  - intros Hf.
    destruct (make_request_with_retry_exhausts net rnd Hrnd
                "https://rest.kegg.jp/list/disease" 20 1 w Hd) as (w2 & Hrun2 & Hiss2 & _);
      [intros; apply Hf |].
    rewrite Hrun in Hrun2. injection Hrun2 as -> ->. cbn [response_truthy negb].
    split; [reflexivity |]. split; [exact Hiss2 |]. apply last_snoc.
  - intros resp Hn Hs.
    destruct (make_request_with_retry_success net rnd Hrnd
                "https://rest.kegg.jp/list/disease" 20 1 resp 0 w Hd)
      as (w2 & Hrun2 & Hiss2 & _);
      [lia | intros; lia | now rewrite Nat.add_0_r | exact Hs |].
    rewrite Hrun in Hrun2. injection Hrun2 as -> ->.
    assert (Ht : negb (response_truthy (Some resp)) = false).
    { cbn [response_truthy]. rewrite Hs. reflexivity. }
    rewrite Ht. split; [exact Hiss2 | exact Hkept].
Qed.

Lemma get_kegg_diseases_keeps_H_entries_witness :
  exists ids w',
    get_kegg_diseases down_server half world0 = (Ok ids, w')
    /\ ids = []
    /\ issued world0 w' (repeat "https://rest.kegg.jp/list/disease" 20).
Proof.
  destruct (get_kegg_diseases_keeps_H_entries down_server half world0 half_unit)
    as (ids & w' & Hrun & _ & Hfail & _).
  destruct Hfail as (Hids & Hiss & _); [reflexivity |].
  exists ids, w'. repeat split; assumption.
Defined.

Example get_kegg_diseases_ex :
  fst (get_kegg_diseases
         (fun _ _ => Answers {| status_code := 200;
                                text := "H00001" +:+ String TAB "Leukemia" +:+ NL
                                        +:+ "ds:X1" +:+ String TAB "other" +:+ NL
                                        +:+ "H00002" +:+ NL
                                        +:+ "H00003" +:+ String TAB "Glioma" +:+ NL |})
         half world0)
  = Ok ["H00001"; "H00003"].
Proof. vm_compute. reflexivity. Qed.

Lemma slices_at_lengths {A} (step : nat) (l : list A) k :
  (0 < step)%nat -> (k * step < length l + step)%nat ->
  Forall (fun c => c <> [] /\ (length c <= step)%nat)
    (map (fun i => firstn step (skipn i l)) (map (fun j => (j * step)%nat) (seq 0 k))).
Proof.
  intros Hs Hk. rewrite map_map. apply Forall_map, Forall_forall.
  intros j Hj. apply list_elem_of_In, in_seq in Hj. cbn beta.
  assert (Hlt : (j * step < length l)%nat) by nia.
  split.
  - intros Hnil. apply (f_equal (@length A)) in Hnil.
    rewrite length_firstn, length_skipn in Hnil. cbn [length] in Hnil. lia.
  - rewrite length_firstn. lia.
Qed.

Lemma slices_lengths {A} (step : nat) (l : list A) :
  (0 < step)%nat ->
  Forall (fun c => c <> [] /\ (length c <= step)%nat) (Py.slices step l).
Proof.
  intros Hs. unfold Py.slices, Py.starts. apply slices_at_lengths; [exact Hs |].
  pose proof (Nat.div_mod_eq (length l + step - 1) step) as Hd.
  pose proof (Nat.mod_upper_bound (length l + step - 1) step) as Hm.
  nia.
Qed.

(** X10 — the chunks [main] cuts the disease list into are a partition of
    it: put end to end they give the list back, in order, no chunk is
    empty, and none is longer than [max(1, len // n_workers)]. *)
Theorem disease_chunks_partition (diseases : list string) (n_workers : Z) :
  n_workers <> 0 ->
  let chunk_size := Z.max 1 (Z.of_nat (length diseases) / n_workers) in
  concat (disease_chunks diseases n_workers) = diseases
  /\ Forall (fun chunk => chunk <> [] /\ Z.of_nat (length chunk) <= chunk_size)
       (disease_chunks diseases n_workers).
Proof.
  intros _ chunk_size. unfold disease_chunks. fold chunk_size.
  assert (Hpos : (0 < Z.to_nat chunk_size)%nat) by (unfold chunk_size; lia).
  split; [now apply concat_slices |].
  eapply Forall_impl; [apply (slices_lengths (Z.to_nat chunk_size) diseases Hpos) |].
  cbn beta. intros chunk [Hne Hle]. split; [exact Hne | lia].
Qed.

Lemma disease_chunks_partition_witness :
  concat (disease_chunks ["H00001"; "H00002"; "H00003"; "H00004"; "H00005"] 2)
  = ["H00001"; "H00002"; "H00003"; "H00004"; "H00005"]
  /\ Forall (fun chunk => chunk <> [] /\ Z.of_nat (length chunk) <= Z.max 1 (5 / 2))
       (disease_chunks ["H00001"; "H00002"; "H00003"; "H00004"; "H00005"] 2).
Proof.
  apply (disease_chunks_partition ["H00001"; "H00002"; "H00003"; "H00004"; "H00005"] 2).
  lia.
Defined.

Example disease_chunks_ex :
  disease_chunks ["H00001"; "H00002"; "H00003"; "H00004"; "H00005"] 2
  = [["H00001"; "H00002"]; ["H00003"; "H00004"]; ["H00005"]].
Proof. reflexivity. Qed.

Section MainFacts.

Variable net : string -> nat -> outcome.
Variable rnd : nat -> Q.
Variable listing : gset string -> list string.
Hypothesis rnd_unit : forall i, (0 <= rnd i < 1)%Q.

Lemma starmap_chunks_completes process_args : forall w,
  exists chunk_results w',
    starmap_chunks net rnd listing process_args w = (Ok chunk_results, w')
    /\ map (map fst) chunk_results = map fst process_args.
Proof.
  induction process_args as [| [chunk idx] rest IH]; intros w.
  - exists [], w. split; reflexivity.
  - destruct (process_chunk_completes rnd rnd_unit (get_disease_pathways net rnd listing)
                idx chunk [] w) as (new & w1 & Hrun & Hmap & _).
    destruct (IH w1) as (rs & w' & Hrest & Hmaps).
    exists (new :: rs), w'. split.
    + cbn [starmap_chunks]. unfold bind at 1.
      unfold process_diseases_chunk, process_diseases_chunk_with. rewrite Hrun.
      cbn [app]. unfold bind at 1. rewrite Hrest. reflexivity.
    + cbn [map fst]. now rewrite Hmap, Hmaps.
Qed.

Lemma map_fst_enumerate {A} (l : list A) : map fst (enumerate l) = l.
Proof.
  unfold enumerate, Py.range, Py.range_from.
  assert (H : forall (l : list A) (r : list Z), length l = length r ->
                                               map fst (combine l r) = l).
  { clear. induction l as [| x l IH]; intros [| y r] Hlen; try discriminate; [reflexivity |].
    cbn. f_equal. apply IH. now injection Hlen. }
  apply H. rewrite length_map, length_seq. lia.
Qed.

Lemma main_from_results diseases n_workers w :
  diseases <> [] -> 1 <= n_workers ->
  exists all_results w',
    main_from net rnd listing diseases n_workers w
    = (Ok (Some (write_sql_file all_results)), w')
    /\ map fst all_results = diseases.
Proof.
  intros Hne Hn.
  destruct (starmap_chunks_completes (enumerate (disease_chunks diseases n_workers)) w)
    as (rs & w' & Hrun & Hmaps).
  exists (concat rs), w'. split.
  - unfold main_from. destruct diseases as [| d ds]; [congruence |].
    destruct (Z.eqb_spec n_workers 0); [lia |].
    destruct (Z.ltb_spec n_workers 1); [lia |].
    unfold bind. rewrite Hrun. reflexivity.
  - rewrite concat_map, Hmaps, map_fst_enumerate.
    unfold disease_chunks. apply concat_slices. lia.
Qed.

End MainFacts.

(** X11 — a run of [main] over a non-empty disease list with at least one
    worker writes the file and accounts for every disease exactly once, in
    the order of the list: the results handed to [write_sql_file] are one
    per disease, so the two counts of the summary add up to the number of
    diseases.  An empty list ends the run before any request and without a
    file; [n_workers = 0] raises before any request. *)
Theorem main_accounts_for_every_disease
  (net : string -> nat -> outcome) (rnd : nat -> Q) (listing : gset string -> list string)
  (diseases : list string) (n_workers : Z) (w : World) :
  (forall i, (0 <= rnd i < 1)%Q) ->
  (diseases <> [] -> 1 <= n_workers ->
   exists all_results writes insert_count with_pathways without_pathways w',
     main_from net rnd listing diseases n_workers w
     = (Ok (Some (writes, (insert_count, with_pathways, without_pathways))), w')
     /\ write_sql_file all_results
        = (writes, (insert_count, with_pathways, without_pathways))
     /\ map fst all_results = diseases
     /\ with_pathways + without_pathways = Z.of_nat (length diseases))
  /\ (exists w', main_from net rnd listing [] n_workers w = (Ok None, w')
                 /\ requests w' = requests w)
  /\ (diseases <> [] ->
      exists e w', main_from net rnd listing diseases 0 w = (Raised e, w')
                   /\ requests w' = requests w).
Proof.
  intros Hrnd. split; [| split].
  - intros Hne Hn.
    destruct (main_from_results net rnd listing Hrnd diseases n_workers w Hne Hn)
      as (all_results & w' & Hrun & Hmap).
    destruct (write_sql_file all_results) as [writes [[ic a] b]] eqn:Ew.
    exists all_results, writes, ic, a, b, w'. repeat split; try assumption.
    unfold write_sql_file in Ew. rewrite write_result_fold in Ew.
    injection Ew as _ _ <- <-.
    rewrite !Z.add_0_l, <- Nat2Z.inj_add, filter_partition_length.
    now rewrite <- Hmap, length_map.
  - eexists. split; reflexivity.
  - intros Hne. destruct diseases as [| d ds]; [congruence |].
    eexists; eexists. split; reflexivity.
Qed.

Lemma main_accounts_for_every_disease_witness :
  exists (all_results : list (string * list string))
         writes insert_count with_pathways without_pathways w',
    main_from mock_net half elements ["H00001"; "H00002"] 4 world0
    = (Ok (Some (writes, (insert_count, with_pathways, without_pathways))), w')
    /\ map fst all_results = ["H00001"; "H00002"]
    /\ with_pathways + without_pathways = 2.
Proof.
  destruct (main_accounts_for_every_disease mock_net half elements ["H00001"; "H00002"] 4
              world0 half_unit) as [H _].
  destruct H as (rs & writes & ic & a & b & w' & Hrun & _ & Hmap & Hsum);
    [discriminate | lia |].
  exists rs, writes, ic, a, b, w'. repeat split; assumption.
Defined.

(** ** The fetchers of the SMILES script *)

Section SmilesFacts.

Variable net : string -> nat -> outcome.
Variable rnd : nat -> Q.
Hypothesis rnd_unit : forall i, (0 <= rnd i < 1)%Q.

(** Whatever the server does, the helper returns: a response with status
    200 and a body that is not blank, or [None]. *)
Lemma request_loop_total url d0 attempts : forall w,
  (0 <= d0)%Q ->
  exists r w', request_loop net rnd url d0 attempts w = (Ok r, w').
Proof.
  induction attempts as [| a rest IH]; intros w Hd.
  - now exists None, w.
  - cbn [request_loop]. unfold bind at 1.
    destruct (request_attempt net url a w) as [[[resp |] | e] w1] eqn:Ea.
    + now exists (Some resp), w1.
    + unfold bind, random_uniform, sleep.
      rewrite (request_delay_nonneg d0 _ Hd (proj1 (rnd_unit _))). apply IH, Hd.
    + exfalso. revert Ea. unfold request_attempt, try_except, bind, requests_get, print, ret.
      destruct (net url (length (requests w))) as [resp | e'];
        [destruct ((status_code resp =? 200) && Py.truthy (Py.strip (text resp))) |];
        discriminate.
Qed.

Lemma request_with_retry_total url w :
  exists r w',
    request_with_retry net rnd url 20 1 w = (Ok r, w')
    /\ forall resp, r = Some resp ->
                    status_code resp = 200 /\ Py.strip (text resp) <> EmptyString.
Proof.
  assert (Hd : (0 <= 1)%Q) by discriminate.
  destruct (request_loop_total url 1 (Py.range_from 1 (20 + 1)) w Hd) as (r & w' & Hrun).
  unfold request_with_retry, bind. rewrite Hrun. destruct r as [resp |].
  - exists (Some resp), w'. split; [reflexivity |]. intros ? [= <-].
    eapply request_loop_some, Hrun.
  - eexists None, _. split; [reflexivity |]. discriminate.
Qed.

Lemma strip_not_blank s : Py.strip s <> EmptyString -> Py.truthy s = true.
Proof. destruct s; [intros H; now contradiction H | reflexivity]. Qed.

Lemma text_if_ok_body resp body :
  (forall r, resp = Some r -> status_code r = 200 /\ Py.strip (text r) <> EmptyString) ->
  text_if_ok resp = Some body -> Py.strip body <> EmptyString.
Proof.
  intros Hok. destruct resp as [r |]; [| discriminate].
  destruct (Hok r eq_refl) as [_ Hb]. unfold text_if_ok.
  destruct (response_truthy (Some r) && (status_code r =? 200)); [| discriminate].
  now intros [= <-].
Qed.

Lemma fetch_from_pubchem_total cid w :
  exists t w', fetch_from_pubchem net rnd cid w = (Ok t, w')
               /\ forall body, t = Some body -> Py.strip body <> EmptyString.
Proof.
  unfold fetch_from_pubchem.
  destruct (request_with_retry_total
              ("https://pubchem.ncbi.nlm.nih.gov/rest/pug/compound/cid/" +:+ cid +:+ "/SDF") w)
    as (r & w' & Hrun & Hok).
  exists (text_if_ok r), w'. unfold bind. rewrite Hrun. split; [reflexivity |].
  intros body. now apply text_if_ok_body.
Qed.

Lemma extract_pubchem_id_total entry_id w :
  exists cid w', extract_pubchem_id net rnd entry_id w = (Ok cid, w').
Proof.
  unfold extract_pubchem_id.
  destruct (request_with_retry_total ("https://rest.kegg.jp/get/" +:+ entry_id) w)
    as (r & w' & Hrun & _).
  unfold bind. rewrite Hrun. destruct (negb (response_truthy r)); eexists; eexists; reflexivity.
Qed.

Variable os_path_join : string -> string -> string.
Variable open_error : string -> option exn.

Lemma get_mol_file_hit entry_id files w body :
  files !! os_path_join "mol_files" (entry_id +:+ ".mol") = Some body ->
  get_mol_file net rnd os_path_join open_error entry_id files w
  = (Ok (Some (os_path_join "mol_files" (entry_id +:+ ".mol")), files), w).
Proof. intros H. unfold get_mol_file. now rewrite H. Qed.

(** Without the file there are three ways out: nothing found, the file
    written, or the exception of a write that failed. *)
Lemma get_mol_file_miss entry_id files w :
  files !! os_path_join "mol_files" (entry_id +:+ ".mol") = None ->
  exists res w',
    get_mol_file net rnd os_path_join open_error entry_id files w = (res, w')
    /\ (res = Ok (None, files)
        \/ (exists body,
               res = Ok (Some (os_path_join "mol_files" (entry_id +:+ ".mol")),
                         <[ os_path_join "mol_files" (entry_id +:+ ".mol") := body ]> files)
               /\ open_error (os_path_join "mol_files" (entry_id +:+ ".mol")) = None
               /\ Py.strip body <> EmptyString)
        \/ (exists e,
               res = Raised e
               /\ open_error (os_path_join "mol_files" (entry_id +:+ ".mol")) = Some e)).
Proof.
  intros Hmiss. unfold get_mol_file. rewrite Hmiss.
  destruct (request_with_retry_total ("https://rest.kegg.jp/get/" +:+ entry_id +:+ "/mol") w)
    as (r & w1 & Hrun & Hok).
  unfold bind at 1. rewrite Hrun.
  assert (Hfinish : forall (t : option string) u,
             (forall body, t = Some body -> Py.strip body <> EmptyString) ->
             exists res w',
               (match t with
                | Some body =>
                    if Py.truthy body
                    then match open_error (os_path_join "mol_files" (entry_id +:+ ".mol")) with
                         | Some e => raise e
                         | None =>
                             ret (Some (os_path_join "mol_files" (entry_id +:+ ".mol")),
                                  <[ os_path_join "mol_files" (entry_id +:+ ".mol") := body ]>
                                    files)
                         end
                    else print ("No Molfile available for " +:+ entry_id) >> ret (None, files)
                | None => print ("No Molfile available for " +:+ entry_id) >> ret (None, files)
                end) u = (res, w')
               /\ (res = Ok (None, files)
                   \/ (exists body,
                          res = Ok (Some (os_path_join "mol_files" (entry_id +:+ ".mol")),
                                    <[ os_path_join "mol_files" (entry_id +:+ ".mol") := body ]>
                                      files)
                          /\ open_error (os_path_join "mol_files" (entry_id +:+ ".mol")) = None
                          /\ Py.strip body <> EmptyString)
                   \/ (exists e,
                          res = Raised e
                          /\ open_error (os_path_join "mol_files" (entry_id +:+ ".mol"))
                             = Some e))).
  { intros [body |] u Hbody.
    - rewrite (strip_not_blank body (Hbody body eq_refl)).
      destruct (open_error (os_path_join "mol_files" (entry_id +:+ ".mol"))) as [e |] eqn:Eopen.
      + eexists; eexists. split; [reflexivity |]. right. right. now exists e.
      + eexists; eexists. split; [reflexivity |]. right. left. exists body.
        split; [reflexivity |]. split; [reflexivity |]. now apply Hbody.
    - eexists; eexists. split; [reflexivity |]. now left. }
  destruct (some_text (text_if_ok r)) eqn:Etext; cbn [negb].
  - unfold bind at 1, ret at 1. apply Hfinish. intros body. now apply text_if_ok_body.
  - destruct (extract_pubchem_id_total entry_id w1) as (cid & w2 & Hcid).
    unfold bind at 1, bind at 1. rewrite Hcid.
    destruct (some_text cid).
    + destruct (fetch_from_pubchem_total
                  (match cid with Some c => c | None => EmptyString end) w2)
        as (t & w3 & Hfetch & Hbody).
      rewrite Hfetch. now apply Hfinish.
    + unfold ret at 1. apply Hfinish. intros body. now apply text_if_ok_body.
Qed.

End SmilesFacts.

(** X12 — [get_mol_file] downloads a Molfile at most once.  When the file
    of the entry exists it is returned without any request and nothing
    changes.  Otherwise there are three ways out: the call returns [None]
    and leaves the files as they were; or it writes the file of the entry,
    and no other, with a body that is not blank, after which a second call
    finds the file and makes no request; or the write fails and the call
    raises the exception of the write, which nothing in the function
    handles. *)
Theorem get_mol_file_caches
  (net : string -> nat -> outcome) (rnd : nat -> Q)
  (os_path_join : string -> string -> string) (open_error : string -> option exn)
  (entry_id : string) (files : gmap string string) (w : World) :
  (forall i, (0 <= rnd i < 1)%Q) ->
  let file_path := os_path_join "mol_files" (entry_id +:+ ".mol") in
  (forall body, files !! file_path = Some body ->
                get_mol_file net rnd os_path_join open_error entry_id files w
                = (Ok (Some file_path, files), w))
  /\ (files !! file_path = None ->
      (exists w',
          get_mol_file net rnd os_path_join open_error entry_id files w
          = (Ok (None, files), w'))
      \/ (exists body w',
             get_mol_file net rnd os_path_join open_error entry_id files w
             = (Ok (Some file_path, <[ file_path := body ]> files), w')
             /\ open_error file_path = None
             /\ Py.strip body <> EmptyString
             /\ (forall other, other <> file_path ->
                               <[ file_path := body ]> files !! other = files !! other)
             /\ get_mol_file net rnd os_path_join open_error entry_id
                  (<[ file_path := body ]> files) w'
                = (Ok (Some file_path, <[ file_path := body ]> files), w'))
      \/ (exists e w',
             get_mol_file net rnd os_path_join open_error entry_id files w = (Raised e, w')
             /\ open_error file_path = Some e)).
Proof.
  intros Hrnd file_path. split; [intros body; apply get_mol_file_hit |].
  intros Hmiss.
  destruct (get_mol_file_miss net rnd Hrnd os_path_join open_error entry_id files w Hmiss)
    as (res & w' & Hrun & [-> | [(body & -> & Hopen & Hbody) | (e & -> & Hopen)]]).
  - left. now exists w'.
  - right. left. exists body, w'. split; [exact Hrun |]. split; [exact Hopen |].
    split; [exact Hbody |]. split.
    + intros other Hother. now rewrite lookup_insert_ne.
    + apply (get_mol_file_hit net rnd os_path_join open_error entry_id _ w' body).
      apply lookup_insert_eq.
  - right. right. now exists e, w'.
Qed.

Lemma get_mol_file_caches_witness :
  exists body w',
    get_mol_file pubchem_net half posix_join writable "D00001" ∅ world0
    = (Ok (Some "mol_files/D00001.mol", {[ "mol_files/D00001.mol" := body ]}), w')
    /\ get_mol_file pubchem_net half posix_join writable "D00001"
         {[ "mol_files/D00001.mol" := body ]} w'
       = (Ok (Some "mol_files/D00001.mol", {[ "mol_files/D00001.mol" := body ]}), w').
Proof.
  destruct (get_mol_file_caches pubchem_net half posix_join writable "D00001" ∅ world0
              half_unit) as [_ Hmiss].
  destruct (Hmiss eq_refl)
    as [(w' & Hrun) | [(body & w' & Hrun & _ & _ & _ & Hagain) | (e & w' & _ & Hopen)]].
  - exfalso. revert Hrun. vm_compute. discriminate.
  - exists body, w'. split; [exact Hrun | exact Hagain].
  - discriminate Hopen.
Defined.

Example get_mol_file_falls_back_to_pubchem :
  let run := get_mol_file pubchem_net half posix_join writable "D00001" ∅ world0 in
  fst run = Ok (Some "mol_files/D00001.mol",
                {[ "mol_files/D00001.mol" := "7847072" +:+ NL +:+ "  -OEChem-" +:+ NL ]})
  /\ length (requests (snd run)) = 22%nat.
Proof. vm_compute. split; reflexivity. Qed.

(** A path through a directory that does not exist: the download is made
    and the write raises. *)
Example get_mol_file_write_fails :
  fst (get_mol_file pubchem_net half posix_join
         (fun _ => Some (Exception "No such file or directory")) "D00001" ∅ world0)
  = Raised (Exception "No such file or directory").
Proof. vm_compute. reflexivity. Qed.

(** X13 — an entry for which KEGG answers nothing usable costs
    [get_mol_file] forty requests: twenty for the Molfile, then twenty for
    the entry in which a PubChem identifier is looked for, each followed by
    a pause; PubChem is never asked, nothing is written and the result is
    [None]. *)
Theorem get_mol_file_gives_up
  (net : string -> nat -> outcome) (rnd : nat -> Q)
  (os_path_join : string -> string -> string) (open_error : string -> option exn)
  (entry_id : string) (files : gmap string string) (w : World) :
  (forall i, (0 <= rnd i < 1)%Q) ->
  files !! os_path_join "mol_files" (entry_id +:+ ".mol") = None ->
  (forall n, fails_or_blank (net ("https://rest.kegg.jp/get/" +:+ entry_id +:+ "/mol") n)
             = true) ->
  (forall n, fails_or_blank (net ("https://rest.kegg.jp/get/" +:+ entry_id) n) = true) ->
  exists w',
    get_mol_file net rnd os_path_join open_error entry_id files w = (Ok (None, files), w')
    /\ issued w w' (repeat ("https://rest.kegg.jp/get/" +:+ entry_id +:+ "/mol") 20
                    ++ repeat ("https://rest.kegg.jp/get/" +:+ entry_id) 20)
    /\ length (sleeps w') = (length (sleeps w) + 40)%nat
    /\ last (stdout w') = Some ("No Molfile available for " +:+ entry_id).
Proof.
  intros Hrnd Hmiss Hmol Hentry.
  assert (Hd : (0 <= 1)%Q) by discriminate.
  destruct (request_with_retry_exhausts net rnd Hrnd
              ("https://rest.kegg.jp/get/" +:+ entry_id +:+ "/mol") 20 1 w Hd)
    as (w1 & Hrun1 & Hreq1 & Hsl1 & _); [intros i _; apply Hmol |].
  destruct (request_with_retry_exhausts net rnd Hrnd
              ("https://rest.kegg.jp/get/" +:+ entry_id) 20 1 w1 Hd)
    as (w2 & Hrun2 & Hreq2 & Hsl2 & _); [intros i _; apply Hentry |].
  exists (add_stdout ("No Molfile available for " +:+ entry_id) w2).
  split; [| split; [| split]].
  - unfold get_mol_file. rewrite Hmiss. unfold bind at 1. rewrite Hrun1.
    cbn [text_if_ok some_text negb]. unfold bind at 1, bind at 1, extract_pubchem_id.
    unfold bind at 1. rewrite Hrun2. reflexivity.
  - unfold issued in *. cbn [add_stdout requests]. rewrite Hreq2, Hreq1.
    now rewrite <- app_assoc.
  - unfold slept in *. cbn [add_stdout sleeps]. rewrite Hsl2, Hsl1.
    rewrite !length_app. unfold request_delays. rewrite !length_map, !length_seq.
    change (Z.to_nat 20) with 20%nat. lia.
  - cbn [add_stdout stdout]. apply last_snoc.
Qed.

Lemma get_mol_file_gives_up_witness :
  exists w',
    get_mol_file down_server half posix_join writable "D00001" ∅ world0 = (Ok (None, ∅), w')
    /\ length (requests w') = 40%nat.
Proof.
  destruct (get_mol_file_gives_up down_server half posix_join writable "D00001" ∅ world0 half_unit)
    as (w' & Hrun & Hreq & _); [reflexivity | reflexivity | reflexivity |].
  exists w'. split; [exact Hrun |]. unfold issued in Hreq. rewrite Hreq. reflexivity.
Defined.

(** ** The structure tables *)

Lemma select_smiles_app_miss (table : structures) rows key :
  Forall (fun row => fst row <> key) table ->
  select_smiles (table ++ rows) key = select_smiles rows key.
Proof.
  intros H. unfold select_smiles. rewrite List.filter_app.
  replace (List.filter (fun row => String.eqb (fst row) key) table) with (@nil (string * string));
    [reflexivity |].
  induction H as [| row table Hrow _ IH]; [reflexivity |].
  cbn [List.filter]. apply String.eqb_neq in Hrow. now rewrite Hrow.
Qed.

Lemma filter_other_key (table : structures) key other :
  other <> key ->
  List.filter (fun row => String.eqb (fst row) other)
    (List.filter (fun row => negb (String.eqb (fst row) key)) table)
  = List.filter (fun row => String.eqb (fst row) other) table.
Proof.
  intros Hne. induction table as [| row table IH]; [reflexivity |].
  cbn [List.filter]. destruct (String.eqb (fst row) key) eqn:Ek; cbn [negb].
  - apply String.eqb_eq in Ek. rewrite Ek.
    assert (Hk : String.eqb key other = false) by (apply String.eqb_neq; congruence).
    now rewrite Hk.
  - cbn [List.filter]. now rewrite IH.
Qed.

Lemma filter_key_absent (table : structures) key :
  Forall (fun row => fst row <> key)
    (List.filter (fun row => negb (String.eqb (fst row) key)) table).
Proof.
  apply Forall_forall. intros row Hin. apply list_elem_of_In, List.filter_In in Hin.
  destruct Hin as [_ Hrow]. apply String.eqb_neq. now destruct (String.eqb (fst row) key).
Qed.

Lemma filter_key_length (table : structures) key :
  NoDup (map fst table) ->
  length table
  = (length (List.filter (fun row => negb (String.eqb (fst row) key)) table)
     + match select_smiles table key with Some _ => 1 | None => 0 end)%nat.
Proof.
  unfold select_smiles. induction table as [| row table IH]; [reflexivity |].
  cbn [map]. intros Hnodup. apply NoDup_cons in Hnodup as [Hfresh Hnodup].
  cbn [List.filter]. destruct (String.eqb (fst row) key) eqn:Ek; cbn [negb length].
  - apply String.eqb_eq in Ek.
    assert (Hnone : List.filter (fun r => negb (String.eqb (fst r) key)) table = table).
    { apply forallb_filter_id, forallb_forall. intros r Hr.
      destruct (String.eqb (fst r) key) eqn:Er; [| reflexivity].
      apply String.eqb_eq in Er. exfalso. apply Hfresh. rewrite Ek, <- Er.
      apply list_elem_of_In, in_map, Hr. }
    rewrite Hnone. lia.
  - rewrite (IH Hnodup). lia.
Qed.

(** X14 — the structure of a drug or of a compound is written with
    replacement, and a failure of the database is caught.  When the
    statement goes through, the function returns [True] and logs nothing;
    on a table with one row per identifier, as its primary key makes it,
    the table has one row per identifier afterwards, the structure read
    back for the identifier is the one just written, the rows of the other
    identifiers are as before, and the table grows by one row exactly when
    the identifier was new.  When the statement raises, the function does
    not raise: it logs the failure, leaves the table as it was and returns
    [False]. *)
Theorem structure_insert_replaces
  (insert : option exn -> structures -> string -> string -> M (structures * bool))
  (kind : string) (table : structures) (key smiles : string) (w : World) :
  (insert = insert_drug_structures /\ kind = "drug")
  \/ (insert = insert_compound_structures /\ kind = "compound") ->
  NoDup (map fst table) ->
  (exists table',
      insert None table key smiles w = (Ok (table', true), w)
      /\ NoDup (map fst table')
      /\ select_smiles table' key = Some smiles
      /\ (forall other, other <> key -> select_smiles table' other = select_smiles table other)
      /\ length table' = match select_smiles table key with
                         | Some _ => length table
                         | None => S (length table)
                         end)
  /\ (forall e,
         insert (Some e) table key smiles w
         = (Ok (table, false),
            add_stdout ("Insert " +:+ kind +:+ " " +:+ key +:+ " failed: " +:+ exn_str e) w)).
Proof.
  intros Hinsert Hnodup. split.
  - exists (insert_or_replace table key smiles).
    split; [destruct Hinsert as [[-> _] | [-> _]]; reflexivity |].
    unfold insert_or_replace. split; [| split; [| split]].
    + rewrite map_app. cbn [map fst]. apply NoDup_app. split; [| split].
      * clear Hinsert. induction table as [| row table IH]; [constructor |].
        cbn [map] in Hnodup. apply NoDup_cons in Hnodup as [Hfresh Hnodup].
        cbn [List.filter]. destruct (negb (String.eqb (fst row) key)); [| now apply IH].
        cbn [map]. apply NoDup_cons. split; [| now apply IH].
        intros Hin. apply Hfresh. apply list_elem_of_In, in_map_iff in Hin.
        destruct Hin as (r & Hr & Hin). apply List.filter_In in Hin as [Hin _].
        rewrite <- Hr. apply list_elem_of_In, in_map, Hin.
      * intros k Hin Hk. apply list_elem_of_In in Hk. destruct Hk as [<- | []].
        apply list_elem_of_In, in_map_iff in Hin. destruct Hin as (r & Hr & Hin).
        apply list_elem_of_In in Hin.
        exact (proj1 (Forall_forall _ _) (filter_key_absent table key) r Hin Hr).
      * apply NoDup_singleton.
    + rewrite select_smiles_app_miss by apply filter_key_absent.
      unfold select_smiles. cbn [List.filter fst]. now rewrite String.eqb_refl.
    + intros other Hother. unfold select_smiles. rewrite List.filter_app.
      rewrite filter_other_key by exact Hother. cbn [List.filter fst].
      assert (Hk : String.eqb key other = false) by (apply String.eqb_neq; congruence).
      rewrite Hk. now rewrite app_nil_r.
    + rewrite length_app. cbn [length]. rewrite (filter_key_length table key Hnodup).
      destruct (select_smiles table key); lia.
  - intros e. destruct Hinsert as [[-> ->] | [-> ->]]; reflexivity.
Qed.

Lemma structure_insert_replaces_witness :
  (exists table',
      insert_drug_structures None [("D00001", "O"); ("D00002", "CC")] "D00001" "[OH2]" world0
      = (Ok (table', true), world0)
      /\ select_smiles table' "D00001" = Some "[OH2]"
      /\ length table' = 2%nat)
  /\ fst (insert_drug_structures (Some (Exception "database is locked"))
            [("D00001", "O"); ("D00002", "CC")] "D00001" "[OH2]" world0)
     = Ok ([("D00001", "O"); ("D00002", "CC")], false).
Proof.
  assert (Hnodup : NoDup (map fst [("D00001", "O"); ("D00002", "CC")] : list string)).
  { cbn [map fst]. apply NoDup_cons. split; [| apply NoDup_singleton].
    intros Hin. apply list_elem_of_In in Hin. destruct Hin as [Hin | []]. discriminate Hin. }
  destruct (structure_insert_replaces insert_drug_structures "drug"
              [("D00001", "O"); ("D00002", "CC")] "D00001" "[OH2]" world0
              (or_introl (conj eq_refl eq_refl)) Hnodup)
    as [(table' & Hrun & _ & Hselect & _ & Hlen) Hfail].
  split.
  - exists table'. split; [exact Hrun |]. split; [exact Hselect | exact Hlen].
  - now rewrite Hfail.
Defined.

(** ** The PubChem identifier of an entry *)

Lemma has_char_cons c a s :
  has_char c (String a s) = Ascii.eqb c a || has_char c s.
Proof. reflexivity. Qed.

Lemma prefix_pubchem_other a s :
  Ascii.eqb "P" a = false -> String.prefix "PubChem:" (String a s) = false.
Proof.
  intros Ha. cbn [String.prefix]. destruct (ascii_dec "P" a) as [<- | _]; [| reflexivity].
  discriminate Ha.
Qed.

Lemma split_str_no_occurrence s :
  has_char "P" s = false -> split_str_from "PubChem:" 0 s = [s].
Proof.
  induction s as [| a s IH]; [reflexivity |].
  rewrite has_char_cons. intros H. apply orb_false_elim in H as [Ha Hs].
  cbn [split_str_from]. rewrite (prefix_pubchem_other a s Ha). now rewrite (IH Hs).
Qed.

Lemma split_str_lead lead tail piece pieces :
  has_char "P" lead = false ->
  split_str_from "PubChem:" 0 tail = piece :: pieces ->
  split_str_from "PubChem:" 0 (lead +:+ tail) = (lead +:+ piece) :: pieces.
Proof.
  intros Hlead Htail. induction lead as [| a lead IH]; [exact Htail |].
  rewrite has_char_cons in Hlead. apply orb_false_elim in Hlead as [Ha Hs].
  change (String a lead +:+ tail) with (String a (lead +:+ tail)).
  change (String a lead +:+ piece) with (String a (lead +:+ piece)).
  cbn [split_str_from]. now rewrite (prefix_pubchem_other a _ Ha), (IH Hs).
Qed.

Lemma split_str_at_pubchem rest :
  split_str_from "PubChem:" 0 ("PubChem:" +:+ rest)
  = EmptyString :: split_str_from "PubChem:" 0 rest.
Proof. destruct rest; reflexivity. Qed.

Lemma contains_at_pubchem rest : contains "PubChem:" ("PubChem:" +:+ rest) = true.
Proof. destruct rest; reflexivity. Qed.

Lemma contains_lead sub lead tail :
  contains sub tail = true -> contains sub (lead +:+ tail) = true.
Proof.
  intros H. induction lead as [| a lead IH]; [exact H |].
  change (String a lead +:+ tail) with (String a (lead +:+ tail)).
  cbn [contains]. rewrite IH. apply orb_true_r.
Qed.

Lemma find_pubchem_none lines :
  Forall (fun line => contains "PubChem:" line = false) lines -> find_pubchem lines = None.
Proof.
  induction 1 as [| line lines Hline _ IH]; [reflexivity |].
  cbn [find_pubchem]. now rewrite Hline.
Qed.

Lemma find_pubchem_first before lead rest after :
  Forall (fun line => contains "PubChem:" line = false) before ->
  has_char "P" lead = false -> has_char "P" rest = false ->
  find_pubchem (before ++ (lead +:+ ("PubChem:" +:+ rest)) :: after) = Some (Py.strip rest).
Proof.
  intros Hbefore Hlead Hrest. induction Hbefore as [| line lines Hline _ IH].
  - cbn [app find_pubchem]. rewrite contains_lead by apply contains_at_pubchem.
    unfold split_str.
    rewrite (split_str_lead lead ("PubChem:" +:+ rest) EmptyString [rest] Hlead);
      [reflexivity |].
    now rewrite split_str_at_pubchem, (split_str_no_occurrence rest Hrest).
  - cbn [app find_pubchem]. now rewrite Hline.
Qed.

(** X15 — [extract_pubchem_id] on an entry that KEGG delivers at the first
    attempt: when no line holds [PubChem:] the result is [None]; otherwise
    the result is what follows [PubChem:] on the first such line, stripped
    (the capital P occurring nowhere else on that line, as in the links
    KEGG prints). One request is made. *)
Theorem extract_pubchem_id_reads_first_link
  (net : string -> nat -> outcome) (rnd : nat -> Q)
  (entry_id : string) (r : Response) (w : World) :
  (forall i, (0 <= rnd i < 1)%Q) ->
  net ("https://rest.kegg.jp/get/" +:+ entry_id) (length (requests w)) = Answers r ->
  status_code r = 200 -> Py.strip (text r) <> EmptyString ->
  exists w',
    issued w w' ["https://rest.kegg.jp/get/" +:+ entry_id]
    /\ (Forall (fun line => contains "PubChem:" line = false) (splitlines (text r)) ->
        extract_pubchem_id net rnd entry_id w = (Ok None, w'))
    /\ (forall before lead rest after,
          splitlines (text r) = before ++ (lead +:+ ("PubChem:" +:+ rest)) :: after ->
          Forall (fun line => contains "PubChem:" line = false) before ->
          has_char "P" lead = false -> has_char "P" rest = false ->
          extract_pubchem_id net rnd entry_id w = (Ok (Some (Py.strip rest)), w')).
Proof.
  intros Hrnd Hnet Hstatus Hbody.
  assert (Hd : (0 <= 1)%Q) by discriminate.
  destruct (request_with_retry_success net rnd Hrnd
              ("https://rest.kegg.jp/get/" +:+ entry_id) 20 1 r 0 w Hd)
    as (w' & Hrun & Hreq & _); try assumption; try lia.
  { now rewrite Nat.add_0_r. }
  assert (Htruthy : response_truthy (Some r) = true).
  { unfold response_truthy. now rewrite Hstatus. }
  exists w'. split; [exact Hreq |]. split.
  - intros Hnone. unfold extract_pubchem_id, bind. rewrite Hrun, Htruthy. cbn [negb].
    unfold ret. cbn [response_text]. now rewrite (find_pubchem_none _ Hnone).
  - intros before lead rest after Hlines Hbefore Hlead Hrest.
    unfold extract_pubchem_id, bind. rewrite Hrun, Htruthy. cbn [negb].
    unfold ret. cbn [response_text]. rewrite Hlines.
    now rewrite (find_pubchem_first before lead rest after Hbefore Hlead Hrest).
Qed.

Lemma extract_pubchem_id_reads_first_link_witness :
  exists w', extract_pubchem_id pubchem_net half "D00001" world0 = (Ok (Some "7847072"), w').
Proof.
  destruct (extract_pubchem_id_reads_first_link pubchem_net half "D00001"
              {| status_code := 200;
                 text := "ENTRY       D00001" +:+ NL
                         +:+ "DBLINKS     CAS: 50-99-7" +:+ NL
                         +:+ "            PubChem: 7847072" +:+ NL |}
              world0 half_unit eq_refl eq_refl)
    as (w' & _ & _ & Hsome); [vm_compute; discriminate |].
  exists w'.
  apply (Hsome ["ENTRY       D00001"; "DBLINKS     CAS: 50-99-7"]
               "            " " 7847072" []); try reflexivity.
  repeat constructor.
Defined.

(** ** The identifier lists *)

Lemma split_pieces_without sep s :
  Forall (fun piece => has_char sep piece = false) (Py.split sep s).
Proof.
  induction s as [| c s IH]; [now repeat constructor |].
  cbn [Py.split]. destruct (Ascii.eqb c sep) eqn:Ec; [now constructor |].
  destruct (Py.split sep s) as [| piece pieces]; [| inversion IH; subst]; constructor;
    try assumption; try constructor;
    rewrite has_char_cons, Ascii.eqb_sym, Ec; [reflexivity | assumption].
Qed.

Lemma split_pieces_keep (P : ascii -> bool) sep s :
  forallb P (list_ascii_of_string s) = true ->
  Forall (fun piece => forallb P (list_ascii_of_string piece) = true) (Py.split sep s).
Proof.
  induction s as [| c s IH]; [now repeat constructor |].
  cbn [list_ascii_of_string forallb]. intros H. apply andb_prop in H as [Hc Hs].
  specialize (IH Hs). cbn [Py.split]. destruct (Ascii.eqb c sep); [now constructor |].
  destruct (Py.split sep s) as [| piece pieces]; [| inversion IH; subst]; constructor;
    try assumption; try constructor;
    cbn [list_ascii_of_string forallb]; rewrite Hc; [reflexivity | assumption].
Qed.

Lemma first_field_plain line :
  one_line line = true ->
  has_char TAB (first_field line) = false /\ one_line (first_field line) = true.
Proof.
  intros Hline. unfold first_field.
  pose proof (split_pieces_without TAB line) as Htab.
  pose proof (split_pieces_keep _ TAB line Hline) as Hkeep.
  destruct (Py.split TAB line) as [| field fields]; [split; reflexivity |].
  inversion Htab; inversion Hkeep; subst. now split.
Qed.

Lemma line_pieces_one_line s : forall skip_lf,
  Forall (fun piece => one_line piece = true) (line_pieces skip_lf s).
Proof.
  induction s as [| c s IH]; intros skip_lf; [now repeat constructor |].
  cbn [line_pieces]. destruct (skip_lf && Ascii.eqb c LF); [apply IH |].
  destruct (is_linebreak c) eqn:Ec; [constructor; [reflexivity | apply IH] |].
  specialize (IH false).
  destruct (line_pieces false s) as [| piece pieces]; [| inversion IH; subst]; constructor;
    try assumption; try constructor;
    unfold one_line; cbn [list_ascii_of_string forallb]; rewrite Ec; [reflexivity | assumption].
Qed.

Lemma line_pieces_not_nil s : forall skip_lf, line_pieces skip_lf s <> [].
Proof.
  induction s as [| c s IH]; intros skip_lf; [discriminate |].
  cbn [line_pieces]. destruct (skip_lf && Ascii.eqb c LF); [apply IH |].
  destruct (is_linebreak c); [discriminate |].
  destruct (line_pieces false s); discriminate.
Qed.

Lemma drop_last_empty_keeps (P : string -> Prop) pieces :
  Forall P pieces -> Forall P (drop_last_empty pieces).
Proof.
  induction 1 as [| piece pieces Hpiece Hrest IH]; [constructor |].
  cbn [drop_last_empty]. destruct pieces as [| next pieces].
  - destruct (Py.truthy piece); now repeat constructor.
  - now constructor.
Qed.

Lemma splitlines_not_nil s : s <> EmptyString -> splitlines s <> [].
Proof.
  destruct s as [| c s]; [intros H; now contradiction H | intros _].
  unfold splitlines. cbn [line_pieces andb].
  pose proof (line_pieces_not_nil s (Ascii.eqb c CR)) as Hcr.
  pose proof (line_pieces_not_nil s false) as Hplain.
  destruct (is_linebreak c).
  - destruct (line_pieces (Ascii.eqb c CR) s); [now contradiction Hcr | discriminate].
  - destruct (line_pieces false s) as [| piece [| next pieces]];
      [now contradiction Hplain | discriminate | discriminate].
Qed.

(** X16 — [get_kegg_list] never raises; the list it returns is empty
    exactly when the retry helper gave up, and otherwise holds one
    identifier per line of the stripped answer, none of which contains a
    tab or a line boundary. *)
Theorem get_kegg_list_identifiers
  (net : string -> nat -> outcome) (rnd : nat -> Q) (path : string) (w : World) :
  (forall i, (0 <= rnd i < 1)%Q) ->
  exists ids r w',
    get_kegg_list net rnd path w = (Ok ids, w')
    /\ request_with_retry net rnd ("https://rest.kegg.jp/list/" +:+ path) 20 1 w = (Ok r, w')
    /\ (ids = [] <-> r = None)
    /\ length ids = length (splitlines (Py.strip (response_text r)))
    /\ Forall (fun id => has_char TAB id = false /\ one_line id = true) ids.
Proof.
  intros Hrnd.
  destruct (request_with_retry_total net rnd Hrnd ("https://rest.kegg.jp/list/" +:+ path) w)
    as (r & w' & Hrun & Hok).
  destruct r as [resp |].
  - destruct (Hok resp eq_refl) as [Hstatus Hbody].
    exists (map first_field (splitlines (Py.strip (text resp)))), (Some resp), w'.
    split; [| split; [exact Hrun | split; [| split]]].
    + unfold get_kegg_list, bind. rewrite Hrun. unfold response_truthy.
      now rewrite Hstatus.
    + split; [| discriminate]. intros Hnil. apply map_eq_nil in Hnil.
      now apply splitlines_not_nil in Hnil.
    + now rewrite length_map.
    + apply Forall_map. unfold splitlines.
      eapply Forall_impl; [apply drop_last_empty_keeps, line_pieces_one_line |].
      intros line Hline. now apply first_field_plain.
  - exists [], None, w'. split; [| split; [exact Hrun | split; [| split]]].
    + unfold get_kegg_list, bind. now rewrite Hrun.
    + split; reflexivity.
    + reflexivity.
    + constructor.
Qed.

Lemma get_kegg_list_identifiers_witness :
  exists ids (r : option Response) w',
    get_kegg_list down_server half "drug" world0 = (Ok ids, w') /\ (ids = [] <-> r = None).
Proof.
  destruct (get_kegg_list_identifiers down_server half "drug" world0 half_unit)
    as (ids & r & w' & Hrun & _ & Hnil & _).
  exists ids, r, w'. split; [exact Hrun | exact Hnil].
Defined.

Example get_kegg_list_blank_line :
  fst (get_kegg_list
         (fun _ _ => Answers {| status_code := 200;
                                text := "D00001" +:+ String TAB "Water" +:+ NL +:+ NL
                                        +:+ "D00002" +:+ String TAB "NAD" +:+ NL |})
         half "drug" world0)
  = Ok ["D00001"; EmptyString; "D00002"].
Proof. vm_compute. reflexivity. Qed.

(** ** The disease-compound mapping *)

Section MappingFacts.

Variable chunk_size : Z.
Hypothesis chunk_size_pos : 0 < chunk_size.








End MappingFacts.







(** Without a connection nothing happens but the exception. *)
Example get_disease_compounds_unconnected :
  get_disease_compounds link_server half (Some (Exception "unable to open database file"))
    (Ok [("H00001", "path:hsa00010")]) (ensure_tables empty_db) world0
  = (Raised (Exception "unable to open database file"), world0).
Proof. reflexivity. Qed.

Lemma add_pathway_maps disease_pathways key value disease_id pathway_id :
  (exists pathways, In (disease_id, pathways) (add_pathway disease_pathways key value)
                    /\ pathway_id ∈ pathways)
  <-> (exists pathways, In (disease_id, pathways) disease_pathways /\ pathway_id ∈ pathways)
      \/ (disease_id = key /\ pathway_id = value).
Proof.
  induction disease_pathways as [| [k s] rest IH]; cbn [add_pathway].
  - split.
    + intros (pathways & Hhas & Hin). destruct Hhas as [[= <- <-] | []].
      right. split; [reflexivity |].
      apply elem_of_union in Hin as [Hin | Hin];
        [now apply elem_of_empty in Hin | now apply elem_of_singleton in Hin].
    + intros [(pathways & [] & _) | [Hkey Hvalue]]. subst.
      eexists. split; [now left |]. apply elem_of_union. right. now apply elem_of_singleton.
  - destruct (String.eqb k key) eqn:Ek.
    + apply String.eqb_eq in Ek. subst k. split.
      * intros (pathways & [[= <- <-] | Hin] & Hp).
        -- apply elem_of_union in Hp as [Hp | Hp].
           ++ left. exists s. split; [now left | exact Hp].
           ++ right. split; [reflexivity | now apply elem_of_singleton in Hp].
        -- left. exists pathways. split; [now right | exact Hp].
      * intros [(pathways & Hhas & Hp) | [Hkey Hvalue]];
          [destruct Hhas as [[= -> ->] | Hin] | subst].
        -- eexists. split; [now left |]. apply elem_of_union. now left.
        -- exists pathways. split; [now right | exact Hp].
        -- eexists. split; [now left |]. apply elem_of_union. right.
           now apply elem_of_singleton.
    + split.
      * intros (pathways & [[= <- <-] | Hin] & Hp).
        -- left. exists s. split; [now left | exact Hp].
        -- destruct (proj1 IH (ex_intro _ pathways (conj Hin Hp)))
             as [(pathways' & Hin' & Hp') | Hnew]; [| now right].
           left. exists pathways'. split; [now right | exact Hp'].
      * intros [(pathways & [[= -> ->] | Hin] & Hp) | Hnew].
        -- exists pathways. split; [now left | exact Hp].
        -- destruct (proj2 IH (or_introl (ex_intro _ pathways (conj Hin Hp))))
             as (pathways' & Hin' & Hp'). exists pathways'. split; [now right | exact Hp'].
        -- destruct (proj2 IH (or_intror Hnew)) as (pathways' & Hin' & Hp').
           exists pathways'. split; [now right | exact Hp'].
Qed.

Lemma read_mappings_from fetched disease_id pathway_id : forall disease_pathways,
  (exists pathways,
      In (disease_id, pathways)
        (fold_left (fun d row => add_pathway d (fst row) (snd row)) fetched disease_pathways)
      /\ pathway_id ∈ pathways)
  <-> (exists pathways, In (disease_id, pathways) disease_pathways /\ pathway_id ∈ pathways)
      \/ In (disease_id, pathway_id) fetched.
Proof.
  induction fetched as [| [d p] rest IH]; intros disease_pathways; cbn [fold_left fst snd].
  - split; [now left | now intros [H | []]].
  - rewrite IH, add_pathway_maps. cbn [In]. split.
    + intros [[H | [-> ->]] | H]; [now left | right; now left | right; now right].
    + intros [H | [[= -> ->] | H]]; [left; now left | left; now right | now right].
Qed.

Lemma line_associations_join disease_pathways ln disease_id compound :
  In (disease_id, compound) (line_associations disease_pathways ln)
  <-> exists pathway_id compound_id pathways,
        Py.split TAB ln = [pathway_id; compound_id]
        /\ Py.startswith pathway_id "path:map" = true
        /\ In (disease_id, pathways) disease_pathways
        /\ "path:hsa" +:+ Py.drop 8 pathway_id ∈ pathways
        /\ compound = (if Py.startswith compound_id "cpd:"
                       then Py.drop 4 compound_id else compound_id).
Proof.
  unfold line_associations. split.
  - destruct (Py.split TAB ln) as [| pathway_id [| compound_id [| extra fields]]];
      try (intros []).
    destruct (Py.startswith pathway_id "path:map") eqn:Emap; [| intros []].
    intros Hin. apply in_map_iff in Hin as ([d pathways] & [= <- <-] & Hin).
    apply List.filter_In in Hin as [Hin Hp]. apply bool_decide_eq_true in Hp.
    exists pathway_id, compound_id, pathways. now repeat split.
  - intros (pathway_id & compound_id & pathways & -> & -> & Hin & Hp & ->).
    apply in_map_iff. exists (disease_id, pathways). split; [reflexivity |].
    apply List.filter_In. split; [exact Hin |]. now apply bool_decide_eq_true.
Qed.

(** X19 — which pairs [get_disease_compounds] saves: a disease and a
    compound are associated exactly when some line of the answer has two
    tab-separated fields, the first starting with [path:map], and
    [DiseasePathways] holds a row of that disease whose pathway is
    [path:hsa] followed by what follows [path:map] on the line; the
    compound is the second field without a leading [cpd:]. *)
Theorem associations_join_rows_and_lines
  (fetched : list (string * string)) (lines : list string)
  (disease_id compound : string) :
  In (disease_id, compound) (associations (read_mappings fetched) lines)
  <-> exists ln pathway_id compound_id,
        In ln lines
        /\ Py.split TAB ln = [pathway_id; compound_id]
        /\ Py.startswith pathway_id "path:map" = true
        /\ In (disease_id, "path:hsa" +:+ Py.drop 8 pathway_id) fetched
        /\ compound = (if Py.startswith compound_id "cpd:"
                       then Py.drop 4 compound_id else compound_id).
Proof.
  unfold associations, read_mappings. rewrite in_flat_map. split.
  - intros (ln & Hln & Hin). apply line_associations_join in Hin
      as (pathway_id & compound_id & pathways & Hsplit & Hmap & Hin & Hp & Hc).
    exists ln, pathway_id, compound_id. repeat split; try assumption.
    destruct (proj1 (read_mappings_from fetched disease_id _ [])
                (ex_intro _ pathways (conj Hin Hp))) as [(s & [] & _) | Hrow].
    exact Hrow.
  - intros (ln & pathway_id & compound_id & Hln & Hsplit & Hmap & Hrow & Hc).
    exists ln. split; [exact Hln |]. apply line_associations_join.
    destruct (proj2 (read_mappings_from fetched disease_id _ []) (or_intror Hrow))
      as (pathways & Hin & Hp).
    exists pathway_id, compound_id, pathways. now repeat split.
Qed.

Lemma prefix_append s t : String.prefix s (s +:+ t) = true.
Proof.
  induction s as [| a s IH]; [now destruct t |].
  change (String a s +:+ t) with (String a (s +:+ t)). cbn [String.prefix].
  destruct (ascii_dec a a) as [_ | Hne]; [exact IH | now contradiction Hne].
Qed.

(** X20 — a row of [DiseasePathways] whose pathway does not start with
    [path:hsa] is never matched: when no row has such a pathway, as when
    the rows hold bare [hsa] codes, no association is found whatever the
    answer of KEGG is, and a table that exists is left with the rows it
    had. *)
Theorem bare_codes_match_nothing
  (fetched : list (string * string)) (lines : list string) (table : Table) :
  Forall (fun row => Py.startswith (snd row) "path:hsa" = false) fetched ->
  associations (read_mappings fetched) lines = []
  /\ executemany table (associations (read_mappings fetched) lines) = table.
Proof.
  intros Hbare.
  assert (Hnone : associations (read_mappings fetched) lines = []).
  { destruct (associations (read_mappings fetched) lines) as [| [d c] rest] eqn:E;
      [reflexivity | exfalso].
    assert (Hin : In (d, c) (associations (read_mappings fetched) lines))
      by (rewrite E; now left).
    unfold associations, read_mappings in Hin. apply in_flat_map in Hin as (ln & _ & Hin).
    apply line_associations_join in Hin as (pathway_id & _ & pathways & _ & _ & Hin & Hp & _).
    destruct (proj1 (read_mappings_from fetched d _ []) (ex_intro _ pathways (conj Hin Hp)))
      as [(s & [] & _) | Hrow].
    apply list_elem_of_In in Hrow.
    pose proof (proj1 (Forall_forall _ _) Hbare _ Hrow) as Hstarts.
    cbn [snd] in Hstarts. unfold Py.startswith in Hstarts.
    now rewrite prefix_append in Hstarts. }
  split; [exact Hnone |]. now rewrite Hnone.
Qed.

Lemma bare_codes_match_nothing_witness :
  associations (read_mappings [("H00001", "hsa04910"); ("H00001", "hsa04930")])
    ["path:map04910" +:+ String TAB "cpd:C00031"] = [].
Proof.
  apply (bare_codes_match_nothing [("H00001", "hsa04910"); ("H00001", "hsa04930")]
           ["path:map04910" +:+ String TAB "cpd:C00031"]
           {| rows := []; last_id := 0; unique_pairs := true |}).
  repeat constructor.
Defined.

(** ** The per-item processors *)

Lemma split_str_from_not_nil sep s : forall skip, split_str_from sep skip s <> [].
Proof.
  induction s as [| c s IH]; intros skip; [discriminate |].
  cbn [split_str_from]. destruct skip as [| k]; [| apply IH].
  destruct (String.prefix sep (String c s)); [discriminate |].
  destruct (split_str_from sep 0 s); discriminate.
Qed.

Lemma split_str_two s :
  contains "PubChem:" s = true ->
  exists piece field fields, split_str "PubChem:" s = piece :: field :: fields.
Proof.
  unfold split_str. induction s as [| c s IH]; [discriminate |].
  cbn [contains split_str_from]. destruct (String.prefix "PubChem:" (String c s)).
  - intros _.
    destruct (split_str_from "PubChem:" (String.length "PubChem:" - 1) s) as [| field fields] eqn:E;
      [now apply split_str_from_not_nil in E |].
    now exists EmptyString, field, fields.
  - cbn [orb]. intros H. destruct (IH H) as (piece & field & fields & ->).
    now exists (String c piece), field, fields.
Qed.

Lemma first_pubchem_returns lines : exists cid, first_pubchem lines = Ok cid.
Proof.
  induction lines as [| ln rest IH]; [now exists None |].
  cbn [first_pubchem]. destruct (contains "PubChem:" ln) eqn:E; [| exact IH].
  destruct (split_str_two ln E) as (piece & field & fields & ->). now eexists.
Qed.

Lemma select_smiles_other (table : structures) key smiles other :
  other <> key ->
  select_smiles (insert_or_replace table key smiles) other = select_smiles table other.
Proof.
  intros Hother. unfold select_smiles, insert_or_replace. rewrite List.filter_app.
  rewrite filter_other_key by exact Hother. cbn [List.filter fst].
  assert (Hk : String.eqb key other = false) by (apply String.eqb_neq; congruence).
  rewrite Hk. now rewrite app_nil_r.
Qed.

Section ProcessorFacts.

Variable net : string -> nat -> outcome.
Variable rnd : nat -> Q.
Hypothesis rnd_unit : forall i, (0 <= rnd i < 1)%Q.
Variable os_path_join : string -> string -> string.
Variable open_error : string -> option exn.
Variable rdkit_smiles : string -> result (option string).
Variable pcp_get_compounds : string -> result (list (option string)).
Variable arrow : string.

Lemma mol_to_smiles_returns mol_file files w :
  exists sm w', mol_to_smiles rdkit_smiles arrow mol_file files w = (Ok sm, w')
                /\ requests w' = requests w.
Proof.
  unfold mol_to_smiles.
  destruct (match files !! mol_file with
            | Some content => rdkit_smiles content
            | None => Raised (Exception ("Bad input file " +:+ mol_file))
            end) as [sm | e].
  - now exists sm, w.
  - eexists. eexists. unfold bind, print, ret. split; reflexivity.
Qed.

Lemma get_smiles_from_pubchem_returns kegg_id w :
  exists sm w', get_smiles_from_pubchem net rnd pcp_get_compounds kegg_id w = (Ok sm, w').
Proof.
  unfold get_smiles_from_pubchem.
  destruct (request_with_retry_total net rnd rnd_unit ("https://rest.kegg.jp/get/" +:+ kegg_id) w)
    as (r & w1 & Hrun & _).
  unfold bind at 1. rewrite Hrun.
  destruct (negb (response_truthy r)); [now eexists; eexists |].
  destruct (first_pubchem_returns (splitlines (response_text r))) as (cid & ->).
  destruct (some_text cid); [| now eexists; eexists].
  destruct (pcp_get_compounds _) as [[| compound compounds] | e];
    eexists; eexists; reflexivity.
Qed.

(** The search for a structure raises only when the Molfile cannot be
    written, and writes no other file. *)
Lemma find_structure_returns entry_id files w :
  exists res w',
    find_structure net rnd os_path_join open_error rdkit_smiles pcp_get_compounds arrow
      entry_id files w = (res, w')
    /\ ((exists files' sm,
            res = Ok (files', sm)
            /\ forall other, other <> os_path_join "mol_files" (entry_id +:+ ".mol") ->
                             files' !! other = files !! other)
        \/ (exists e,
               res = Raised e
               /\ open_error (os_path_join "mol_files" (entry_id +:+ ".mol")) = Some e
               /\ files !! os_path_join "mol_files" (entry_id +:+ ".mol") = None)).
Proof.
  unfold find_structure.
  assert (Hfetch : exists res w1,
             get_mol_file net rnd os_path_join open_error entry_id files w = (res, w1)
             /\ ((exists mf files',
                     res = Ok (mf, files')
                     /\ forall other, other <> os_path_join "mol_files" (entry_id +:+ ".mol") ->
                                      files' !! other = files !! other)
                 \/ (exists e,
                        res = Raised e
                        /\ open_error (os_path_join "mol_files" (entry_id +:+ ".mol")) = Some e
                        /\ files !! os_path_join "mol_files" (entry_id +:+ ".mol") = None))).
  { destruct (files !! os_path_join "mol_files" (entry_id +:+ ".mol")) as [body |] eqn:E.
    - eexists; eexists. split; [now apply (get_mol_file_hit _ _ _ _ _ _ _ body) |].
      left. eexists; eexists. split; reflexivity.
    - destruct (get_mol_file_miss net rnd rnd_unit os_path_join open_error entry_id files w E)
        as (res & w1 & Hrun & [-> | [(body & -> & _ & _) | (e & -> & Hopen)]]).
      + exists (Ok (None, files)), w1. split; [exact Hrun |]. left.
        eexists; eexists. split; reflexivity.
      + eexists; exists w1. split; [exact Hrun |]. left. eexists; eexists.
        split; [reflexivity |]. intros other Hother. now rewrite lookup_insert_ne.
      + exists (Raised e), w1. split; [exact Hrun |]. right. now exists e. }
  destruct Hfetch as (res & w1 & Hrun & [(mf & files' & -> & Hfiles) | (e & -> & Hopen)]).
  - unfold bind at 1. rewrite Hrun. cbn [fst snd].
    assert (Hconv : exists sm w2,
               (if some_text mf
                then mol_to_smiles rdkit_smiles arrow
                       (match mf with Some f => f | None => EmptyString end) files'
                else ret None) w1 = (Ok sm, w2)).
    { destruct (some_text mf); [| now eexists; eexists].
      destruct (mol_to_smiles_returns (match mf with Some f => f | None => EmptyString end)
                  files' w1) as (sm & w2 & H & _). now exists sm, w2. }
    destruct Hconv as (sm & w2 & Hconv). unfold bind at 1. rewrite Hconv.
    destruct (negb (some_text sm)).
    + destruct (get_smiles_from_pubchem_returns entry_id w2) as (sm' & w3 & Hpub).
      unfold bind, ret. rewrite Hpub. eexists; eexists. split; [reflexivity |].
      left. now exists files', sm'.
    + unfold bind, ret. eexists; eexists. split; [reflexivity |]. left. now exists files', sm.
  - unfold bind at 1. rewrite Hrun. eexists; eexists. split; [reflexivity |].
    right. now exists e.
Qed.

End ProcessorFacts.

(** X21 — [process_drug] and [process_compound] raise in two cases only,
    in which the tables are not touched: when the connection cannot be
    opened, before anything else is done, and when the Molfile of the item
    cannot be written.  Otherwise, whatever the servers and the chemistry
    libraries do, they return, and each touches its own row only: the other
    table is as before, the rows of the other identifiers read as before,
    and the table of the item is either unchanged or has received, with
    replacement, a structure that is not empty, which takes an [INSERT]
    that did not fail; no Molfile other than the one of the item is
    written. *)
Theorem processors_write_own_row
  (net : string -> nat -> outcome) (rnd : nat -> Q)
  (os_path_join : string -> string -> string) (open_error : string -> option exn)
  (rdkit_smiles : string -> result (option string))
  (pcp_get_compounds : string -> result (list (option string)))
  (arrow : string) (connecting executing : option exn)
  (item_id : string) (files : gmap string string)
  (tables : structure_tables) (w : World) :
  (forall i, (0 <= rnd i < 1)%Q) ->
  (exists res w',
      process_drug net rnd os_path_join open_error rdkit_smiles pcp_get_compounds arrow
        connecting executing item_id files tables w = (res, w')
      /\ ((exists e, res = Raised e
                     /\ (connecting = Some e /\ w' = w
                         \/ connecting = None
                            /\ open_error (os_path_join "mol_files" (item_id +:+ ".mol"))
                               = Some e
                            /\ files !! os_path_join "mol_files" (item_id +:+ ".mol") = None))
          \/ (exists files' tables',
                 res = Ok (files', tables')
                 /\ connecting = None
                 /\ CompoundStructures tables' = CompoundStructures tables
                 /\ (DrugStructures tables' = DrugStructures tables
                     \/ executing = None
                        /\ exists sm, sm <> EmptyString
                                      /\ DrugStructures tables'
                                         = insert_or_replace (DrugStructures tables) item_id sm)
                 /\ (forall other, other <> item_id ->
                                   select_smiles (DrugStructures tables') other
                                   = select_smiles (DrugStructures tables) other)
                 /\ (forall other,
                        other <> os_path_join "mol_files" (item_id +:+ ".mol") ->
                        files' !! other = files !! other))))
  /\ (exists res w',
         process_compound net rnd os_path_join open_error rdkit_smiles pcp_get_compounds arrow
           connecting executing item_id files tables w = (res, w')
         /\ ((exists e, res = Raised e
                        /\ (connecting = Some e /\ w' = w
                            \/ connecting = None
                               /\ open_error (os_path_join "mol_files" (item_id +:+ ".mol"))
                                  = Some e
                               /\ files !! os_path_join "mol_files" (item_id +:+ ".mol")
                                  = None))
             \/ (exists files' tables',
                    res = Ok (files', tables')
                    /\ connecting = None
                    /\ DrugStructures tables' = DrugStructures tables
                    /\ (CompoundStructures tables' = CompoundStructures tables
                        \/ executing = None
                           /\ exists sm, sm <> EmptyString
                                         /\ CompoundStructures tables'
                                            = insert_or_replace (CompoundStructures tables)
                                                item_id sm)
                    /\ (forall other, other <> item_id ->
                                      select_smiles (CompoundStructures tables') other
                                      = select_smiles (CompoundStructures tables) other)
                    /\ (forall other,
                           other <> os_path_join "mol_files" (item_id +:+ ".mol") ->
                           files' !! other = files !! other)))).
Proof.
  intros Hrnd.
  destruct (find_structure_returns net rnd Hrnd os_path_join open_error rdkit_smiles
              pcp_get_compounds arrow item_id files w)
    as (res & w' & Hrun & Hres).
  split.
  - unfold process_drug. destruct connecting as [e |].
    { exists (Raised e), w. split; [reflexivity |]. left. exists e. split; [reflexivity |].
      now left. }
    unfold get_db_connection, bind at 1, ret at 1. unfold bind at 1. rewrite Hrun.
    destruct Hres as [(files' & sm & -> & Hfiles) | (e & -> & Hopen & Hmiss)];
      [| eexists; eexists; split; [reflexivity |]; left; exists e;
         split; [reflexivity | right; now repeat split]].
    cbn [fst snd]. destruct sm as [[| c sm] |]; cbn [Py.truthy].
    + eexists; eexists. split; [reflexivity |]. right. exists files', tables.
      repeat split; try assumption. now left.
    + destruct executing as [e |].
      * eexists; eexists. split; [reflexivity |]. right. eexists; eexists.
        split; [reflexivity |]. cbn [fst DrugStructures CompoundStructures].
        repeat split; try assumption. now left.
      * eexists; eexists. split; [reflexivity |]. right. eexists; eexists.
        split; [reflexivity |]. cbn [fst DrugStructures CompoundStructures].
        split; [reflexivity |]. split; [reflexivity |].
        split; [right; split; [reflexivity | now exists (String c sm)] |].
        split; [intros other Hother; now apply select_smiles_other | exact Hfiles].
    + eexists; eexists. split; [reflexivity |]. right. exists files', tables.
      repeat split; try assumption. now left.
  - unfold process_compound. destruct connecting as [e |].
    { exists (Raised e), w. split; [reflexivity |]. left. exists e. split; [reflexivity |].
      now left. }
    unfold get_db_connection, bind at 1, ret at 1. unfold bind at 1. rewrite Hrun.
    destruct Hres as [(files' & sm & -> & Hfiles) | (e & -> & Hopen & Hmiss)];
      [| eexists; eexists; split; [reflexivity |]; left; exists e;
         split; [reflexivity | right; now repeat split]].
    cbn [fst snd]. destruct sm as [[| c sm] |]; cbn [Py.truthy].
    + eexists; eexists. split; [reflexivity |]. right. exists files', tables.
      repeat split; try assumption. now left.
    + destruct executing as [e |].
      * eexists; eexists. split; [reflexivity |]. right. eexists; eexists.
        split; [reflexivity |]. cbn [fst DrugStructures CompoundStructures].
        repeat split; try assumption. now left.
      * eexists; eexists. split; [reflexivity |]. right. eexists; eexists.
        split; [reflexivity |]. cbn [fst DrugStructures CompoundStructures].
        split; [reflexivity |]. split; [reflexivity |].
        split; [right; split; [reflexivity | now exists (String c sm)] |].
        split; [intros other Hother; now apply select_smiles_other | exact Hfiles].
    + eexists; eexists. split; [reflexivity |]. right. exists files', tables.
      repeat split; try assumption. now left.
Qed.

Lemma processors_write_own_row_witness :
  exists files' tables' w',
    process_drug pubchem_net half posix_join writable water_converter no_compounds "->"
      None None "D00001" ∅
      {| DrugStructures := [("D00002", "CC")]; CompoundStructures := [] |} world0
    = (Ok (files', tables'), w')
    /\ select_smiles (DrugStructures tables') "D00002" = Some "CC".
Proof.
  destruct (processors_write_own_row pubchem_net half posix_join writable water_converter
              no_compounds "->" None None "D00001" ∅
              {| DrugStructures := [("D00002", "CC")]; CompoundStructures := [] |}
              world0 half_unit)
    as [(res & w' & Hrun & [(e & _ & [[Hconn _] | (_ & Hopen & _)])
                           | (files' & tables' & -> & _ & _ & _ & Hother & _)]) _].
  - discriminate Hconn.
  - discriminate Hopen.
  - exists files', tables', w'. split; [exact Hrun |].
    rewrite Hother; [reflexivity | discriminate].
Defined.

(** X22 — a Molfile that is on disk and that RDKit converts makes
    [process_drug] work offline: with a connection, no request is made,
    nothing is slept and no file is written.  When the [INSERT] goes through,
    nothing is logged and the structure RDKit gives is stored under the
    drug; when it raises, the failure is logged, the table is left as it
    was and [process_drug] still returns.  (The path of the file is not
    empty, as a joined path never is.) *)
Theorem cached_molfile_needs_no_request
  (net : string -> nat -> outcome) (rnd : nat -> Q)
  (os_path_join : string -> string -> string) (open_error : string -> option exn)
  (rdkit_smiles : string -> result (option string))
  (pcp_get_compounds : string -> result (list (option string)))
  (arrow : string) (executing : option exn)
  (drug_id content smiles : string) (files : gmap string string)
  (tables : structure_tables) (w : World) :
  os_path_join "mol_files" (drug_id +:+ ".mol") <> EmptyString ->
  files !! os_path_join "mol_files" (drug_id +:+ ".mol") = Some content ->
  rdkit_smiles content = Ok (Some smiles) ->
  smiles <> EmptyString ->
  process_drug net rnd os_path_join open_error rdkit_smiles pcp_get_compounds arrow
    None executing drug_id files tables w
  = match executing with
    | None =>
        (Ok (files,
             {| DrugStructures := insert_or_replace (DrugStructures tables) drug_id smiles;
                CompoundStructures := CompoundStructures tables |}), w)
    | Some e =>
        (Ok (files,
             {| DrugStructures := DrugStructures tables;
                CompoundStructures := CompoundStructures tables |}),
         add_stdout ("Insert drug " +:+ drug_id +:+ " failed: " +:+ exn_str e) w)
    end.
Proof.
  intros Hpath Hfile Hconv Hsmiles.
  unfold process_drug, find_structure, get_db_connection, bind at 1, ret at 1.
  unfold bind at 1, bind at 1.
  rewrite (get_mol_file_hit net rnd os_path_join open_error drug_id files w content Hfile).
  cbn [fst snd some_text].
  destruct (os_path_join "mol_files" (drug_id +:+ ".mol")) as [| c path] eqn:Epath;
    [now contradiction Hpath |].
  cbn [Py.truthy]. unfold bind at 1, mol_to_smiles. rewrite Hfile, Hconv. unfold ret at 1.
  cbn [some_text]. destruct smiles as [| c' smiles]; [now contradiction Hsmiles |].
  cbn [Py.truthy negb]. unfold bind at 1, ret at 1. unfold ret at 1. cbn [fst snd Py.truthy].
  destruct executing as [e |]; reflexivity.
Qed.

Lemma cached_molfile_needs_no_request_witness :
  process_drug down_server half posix_join writable water_converter no_compounds "->"
    None None "D00001" {[ "mol_files/D00001.mol" := "molfile" ]}
    {| DrugStructures := []; CompoundStructures := [] |} world0
  = (Ok ({[ "mol_files/D00001.mol" := "molfile" ]},
         {| DrugStructures := [("D00001", "O")]; CompoundStructures := [] |}), world0).
Proof.
  apply (cached_molfile_needs_no_request down_server half posix_join writable water_converter
           no_compounds "->" None "D00001" "molfile" "O"
           {[ "mol_files/D00001.mol" := "molfile" ]}
           {| DrugStructures := []; CompoundStructures := [] |} world0).
  - vm_compute. discriminate.
  - vm_compute. reflexivity.
  - reflexivity.
  - discriminate.
Defined.
